(** * StudySpark: storage repository and AI gateway

    A shallow embedding of [server/storage.ts] (the [IStorage] interface with
    its two implementations [MemStorage] and [DatabaseStorage]), of
    [server/services/groq.ts] (the AI gateway) and of the task route of
    [server/routes.ts], followed by the properties of the specification that
    concern them.

    Conventions.
    - [async] functions are sequential here: every operation takes the state
      of the store and returns the new state together with its result.
    - [randomUUID()] and [new Date()] are inputs: a creating operation
      receives the identifier and the clock reading it would draw.
    - [option] stands for a value that may be [null] or [undefined], where
      the code never tells the two apart.  It does for one key, the
      [difficulty] of an insert record of a flashcard, whose column has a
      default: that key is an [Optional].
    - A call that may throw returns an [Attempt].
    - JavaScript numbers that count things are integers of [Z]; timestamps
      are milliseconds of [Z]. *)

From Stdlib Require Import List String Ascii ZArith Lia Bool Sorted Permutation.
Import ListNotations.
Local Open Scope string_scope.
Local Open Scope list_scope.
Local Open Scope Z_scope.

Set Implicit Arguments.
Set Warnings "-register-all".

(** ** JavaScript coercions used by the code *)

(** Truthiness of a string: only the empty string is falsy. *)
Definition truthy_string (s : string) : bool := negb (s =? "")%string.

(** [x || d] on an optional string. *)
Definition or_string (x : option string) (d : string) : string :=
  match x with
  | Some s => if truthy_string s then s else d
  | None => d
  end.

(** A key of an object: absent (reading it gives [undefined]), [null], or a
    value. *)
Inductive Optional (A : Type) : Type :=
| Absent
| Null
| Present (a : A).
Arguments Absent {A}.
Arguments Null {A}.
Arguments Present {A} a.

(** [x || d] on such a key holding a string. *)
Definition or_present (x : Optional string) (d : string) : string :=
  match x with
  | Present s => if truthy_string s then s else d
  | Absent | Null => d
  end.

(** The outcome of a call that may throw. *)
Inductive Attempt (A : Type) : Type :=
| Ok (a : A)
| Throws (message : string).
Arguments Ok {A} a.
Arguments Throws {A} message.

(** Numeric coercion of a nullable number in [x + 1] and [x - 1]. *)
Definition toNumber (x : option Z) : Z :=
  match x with Some z => z | None => 0 end.

(** [x || 0] on a nullable number. *)
Definition or_zero (x : option Z) : Z :=
  match x with
  | Some z => if z =? 0 then 0 else z
  | None => 0
  end.

(** [a >= b] on strings compares code units lexicographically. *)
Definition string_ge (a b : string) : bool := negb (String.ltb a b).

(** [a.localeCompare(b)] for the code-unit collation: negative, zero or
    positive.  The dashboard takes the collation as a parameter; this is the
    instance that agrees with [<] on ISO dates. *)
Definition codeUnitCompare (a b : string) : Z :=
  match String.compare a b with
  | Lt => -1
  | Eq => 0
  | Gt => 1
  end.

(** ** [Map]: a JavaScript map keyed by strings

    Entries are kept in insertion order, which is the order in which
    [values()] and [for ... of] visit them; [set] on a present key replaces
    the value in place. *)
Module JsMap.
Definition t (V : Type) : Type := list (string * V).

Section Ops.
Variable V : Type.

Definition empty : t V := [].

Fixpoint get (k : string) (m : t V) : option V :=
  match m with
  | [] => None
  | (k', v) :: m' => if (k =? k')%string then Some v else get k m'
  end.

Definition has (k : string) (m : t V) : bool :=
  match get k m with Some _ => true | None => false end.

Fixpoint set (k : string) (v : V) (m : t V) : t V :=
  match m with
  | [] => [(k, v)]
  | (k', v') :: m' =>
      if (k =? k')%string then (k, v) :: m' else (k', v') :: set k v m'
  end.

Definition delete (k : string) (m : t V) : t V :=
  filter (fun e => negb (k =? fst e)%string) m.

Definition entries (m : t V) : list (string * V) := m.
Definition keys (m : t V) : list string := map fst m.
Definition values (m : t V) : list V := map snd m.
Definition size (m : t V) : Z := Z.of_nat (List.length m).
End Ops.
End JsMap.

(** ** [Array.prototype.sort] with a comparator

    The sort is stable: an element moves in front of another only when the
    comparator says so.  [cmp a b <= 0] keeps [a] before [b]. *)
Section Sort.
Variable A : Type.
Variable cmp : A -> A -> Z.

Fixpoint sort_insert (x : A) (l : list A) : list A :=
  match l with
  | [] => [x]
  | y :: l' => if cmp x y <=? 0 then x :: l else y :: sort_insert x l'
  end.

Fixpoint array_sort (l : list A) : list A :=
  match l with
  | [] => []
  | x :: l' => sort_insert x (array_sort l')
  end.
End Sort.

(** [arr.slice(0, n)]. *)
Definition slice0 (A : Type) (n : nat) (l : list A) : list A := firstn n l.

(** ** Tables of the relational backend

    A table is the list of its rows; the helpers are the query shapes the
    code builds with the ORM. *)
Module Table.
Section Ops.
Variable R : Type.

Definition select_where (p : R -> bool) (rows : list R) : list R :=
  filter p rows.

Definition delete_where (p : R -> bool) (rows : list R) : list R :=
  filter (fun r => negb (p r)) rows.

(** [update(t).set(..).where(p)]: the new table, for the queries by key
    that read it, to which the place of a row does not matter. *)
Definition update_where (p : R -> bool) (f : R -> R) (rows : list R)
  : list R :=
  map (fun r => if p r then f r else r) rows.

(** [.returning()] of that update: the rows after the update. *)
Definition update_returning (p : R -> bool) (f : R -> R) (rows : list R)
  : list R :=
  map f (filter p rows).

(** The same update with the rows in the order in which a later [select]
    without [orderBy] returns them: the database writes a new version of
    every updated row, and returns the updated rows after the rows it left
    alone. *)
Definition update_where_moved (p : R -> bool) (f : R -> R) (rows : list R)
  : list R :=
  filter (fun r => negb (p r)) rows ++ map f (filter p rows).

(** [insert(t).values(new)] for at least one row: the new table.  The ORM
    throws when [new] is empty; the caller models that. *)
Definition insert_values (new : list R) (rows : list R) : list R :=
  rows ++ new.

(** [const [row] = ...]: the first row, if any. *)
Definition first (rows : list R) : option R := hd_error rows.
End Ops.
End Table.

(** ** Schema ([shared/schema.ts]) *)

Module Subject.
Record t := mk {
  id : string;
  name : string;
  icon : option string;
  color : option string;
  notesCount : option Z;
  flashcardsCount : option Z;
  questionsCount : option Z;
  lastAccessed : option Z
}.
End Subject.

Module InsertSubject.
Record t := mk {
  name : string;
  icon : option string;
  color : option string
}.
End InsertSubject.

Module Note.
Record t := mk {
  id : string;
  subjectId : string;
  title : string;
  content : string;
  fileType : option string;
  fileName : option string;
  createdAt : Z
}.
End Note.

Module InsertNote.
Record t := mk {
  subjectId : string;
  title : string;
  content : string;
  fileType : option string;
  fileName : option string
}.
End InsertNote.

Module Summary.
Record t := mk {
  id : string;
  noteId : string;
  subjectId : string;
  title : string;
  keyPoints : list string;
  definitions : list (string * string);
  formulas : list string;
  mainConcepts : list string;
  fullSummary : string;
  createdAt : Z
}.
End Summary.

Module Flashcard.
Record t := mk {
  id : string;
  subjectId : string;
  summaryId : option string;
  front : string;
  back : string;
  difficulty : option string;
  lastReviewed : option Z;
  timesReviewed : option Z
}.
End Flashcard.

Module InsertFlashcard.
Record t := mk {
  subjectId : string;
  summaryId : option string;
  front : string;
  back : string;
  difficulty : Optional string
}.
End InsertFlashcard.

(** [Partial<Flashcard>]: [None] is an absent key. *)
Module PartialFlashcard.
Record t := mk {
  id : option string;
  subjectId : option string;
  summaryId : option (option string);
  front : option string;
  back : option string;
  difficulty : option (option string);
  lastReviewed : option (option Z);
  timesReviewed : option (option Z)
}.

Definition empty : t := mk None None None None None None None None.
End PartialFlashcard.

Module Question.
Record t := mk {
  id : string;
  subjectId : string;
  summaryId : option string;
  type : string;
  question : string;
  options : option (list string);
  answer : string;
  explanation : option string;
  difficulty : option string
}.
End Question.

Inductive Priority := high | medium | low.

Module StudyTask.
Record t := mk {
  id : string;
  topic : string;
  subject : string;
  duration : string;
  priority : Priority;
  completed : bool;
  date : string;
  timeSlot : option string
}.
End StudyTask.

(** [Partial<StudyTask>]: [None] is an absent key. *)
Module PartialStudyTask.
Record t := mk {
  id : option string;
  topic : option string;
  subject : option string;
  duration : option string;
  priority : option Priority;
  completed : option bool;
  date : option string;
  timeSlot : option string
}.

Definition empty : t := mk None None None None None None None None.
End PartialStudyTask.

Module StudyPlan.
Record t := mk {
  id : string;
  title : string;
  description : string;
  startDate : string;
  endDate : string;
  tasks : list StudyTask.t;
  createdAt : Z
}.
End StudyPlan.

Module DashboardStats.
Record t := mk {
  totalSubjects : Z;
  totalNotes : Z;
  totalFlashcards : Z;
  totalQuestions : Z;
  studyStreak : Z;
  recentSummaries : list Summary.t;
  upcomingTasks : list StudyTask.t
}.
End DashboardStats.

Module InsertQuestion.
Record t := mk {
  subjectId : string;
  summaryId : option string;
  type : string;
  question : string;
  options : option (list string);
  answer : string;
  explanation : option string;
  difficulty : option string
}.
End InsertQuestion.

Module InsertStudyPlan.
Record t := mk {
  title : string;
  description : string;
  startDate : string;
  endDate : string;
  tasks : list StudyTask.t
}.
End InsertStudyPlan.

(** ** Object spread *)

(** [x] if the key is present in the partial object, the old value
    otherwise. *)
Definition spread (A : Type) (old : A) (new : option A) : A :=
  match new with Some a => a | None => old end.

(** [{ ...f, ...data }] on a flashcard. *)
Definition spreadFlashcard (f : Flashcard.t) (data : PartialFlashcard.t)
  : Flashcard.t :=
  Flashcard.mk
    (spread (Flashcard.id f) (PartialFlashcard.id data))
    (spread (Flashcard.subjectId f) (PartialFlashcard.subjectId data))
    (spread (Flashcard.summaryId f) (PartialFlashcard.summaryId data))
    (spread (Flashcard.front f) (PartialFlashcard.front data))
    (spread (Flashcard.back f) (PartialFlashcard.back data))
    (spread (Flashcard.difficulty f) (PartialFlashcard.difficulty data))
    (spread (Flashcard.lastReviewed f) (PartialFlashcard.lastReviewed data))
    (spread (Flashcard.timesReviewed f) (PartialFlashcard.timesReviewed data)).

(** [{ ...t, ...data }] on a task of a study plan. *)
Definition spreadTask (t : StudyTask.t) (data : PartialStudyTask.t)
  : StudyTask.t :=
  StudyTask.mk
    (spread (StudyTask.id t) (PartialStudyTask.id data))
    (spread (StudyTask.topic t) (PartialStudyTask.topic data))
    (spread (StudyTask.subject t) (PartialStudyTask.subject data))
    (spread (StudyTask.duration t) (PartialStudyTask.duration data))
    (spread (StudyTask.priority t) (PartialStudyTask.priority data))
    (spread (StudyTask.completed t) (PartialStudyTask.completed data))
    (spread (StudyTask.date t) (PartialStudyTask.date data))
    (match PartialStudyTask.timeSlot data with
     | Some s => Some s
     | None => StudyTask.timeSlot t
     end).

(** ** The in-memory implementation ([class MemStorage]) *)
Module MemStorage.
Record t := mk {
  subjects : JsMap.t Subject.t;
  notes : JsMap.t Note.t;
  summaries : JsMap.t Summary.t;
  flashcards : JsMap.t Flashcard.t;
  questions : JsMap.t Question.t;
  studyPlans : JsMap.t StudyPlan.t
}.

Definition empty : t := mk [] [] [] [] [] [].

Definition set_subjects (st : t) (m : JsMap.t Subject.t) : t :=
  mk m (notes st) (summaries st) (flashcards st) (questions st)
     (studyPlans st).
Definition set_notes (st : t) (m : JsMap.t Note.t) : t :=
  mk (subjects st) m (summaries st) (flashcards st) (questions st)
     (studyPlans st).
Definition set_flashcards (st : t) (m : JsMap.t Flashcard.t) : t :=
  mk (subjects st) (notes st) (summaries st) m (questions st)
     (studyPlans st).
Definition set_studyPlans (st : t) (m : JsMap.t StudyPlan.t) : t :=
  mk (subjects st) (notes st) (summaries st) (flashcards st) (questions st)
     m.

(** *** Subjects *)

Definition getSubject (st : t) (id : string) : option Subject.t :=
  JsMap.get id (subjects st).

Definition createSubject (st : t) (uuid : string) (now : Z)
    (data : InsertSubject.t) : t * Subject.t :=
  let subject :=
    Subject.mk uuid (InsertSubject.name data)
      (Some (or_string (InsertSubject.icon data) "book"))
      (Some (or_string (InsertSubject.color data) "blue"))
      (Some 0) (Some 0) (Some 0) (Some now) in
  (set_subjects st (JsMap.set uuid subject (subjects st)), subject).

(** [for (const [k, v] of map) if (v.subjectId === id) map.delete(k)]. *)
Definition deleteOwned (V : Type) (subjectId : V -> string) (id : string)
    (m : JsMap.t V) : JsMap.t V :=
  fold_left
    (fun acc e =>
       if (subjectId (snd e) =? id)%string then JsMap.delete (fst e) acc
       else acc)
    (JsMap.entries m) m.

Definition deleteSubject (st : t) (id : string) : t * bool :=
  (mk (JsMap.delete id (subjects st))
      (deleteOwned Note.subjectId id (notes st))
      (deleteOwned Summary.subjectId id (summaries st))
      (deleteOwned Flashcard.subjectId id (flashcards st))
      (deleteOwned Question.subjectId id (questions st))
      (studyPlans st),
   JsMap.has id (subjects st)).

(** *** Notes *)

Definition getNotes (st : t) (subjectId : option string) : list Note.t :=
  let notes := JsMap.values (notes st) in
  match subjectId with
  | Some sid =>
      if truthy_string sid
      then filter (fun n => (Note.subjectId n =? sid)%string) notes
      else notes
  | None => notes
  end.

Definition getNote (st : t) (id : string) : option Note.t :=
  JsMap.get id (notes st).

Definition createNote (st : t) (uuid : string) (now : Z)
    (data : InsertNote.t) : t * Note.t :=
  let note :=
    Note.mk uuid (InsertNote.subjectId data) (InsertNote.title data)
      (InsertNote.content data)
      (Some (or_string (InsertNote.fileType data) "text"))
      (InsertNote.fileName data) now in
  let st1 := set_notes st (JsMap.set uuid note (notes st)) in
  let st2 :=
    match JsMap.get (InsertNote.subjectId data) (subjects st1) with
    | Some subject =>
        set_subjects st1
          (JsMap.set (InsertNote.subjectId data)
             (Subject.mk (Subject.id subject) (Subject.name subject)
                (Subject.icon subject) (Subject.color subject)
                (Some (toNumber (Subject.notesCount subject) + 1))
                (Subject.flashcardsCount subject)
                (Subject.questionsCount subject)
                (Some now))
             (subjects st1))
    | None => st1
    end in
  (st2, note).

Definition deleteNote (st : t) (id : string) : t * bool :=
  let st1 :=
    match JsMap.get id (notes st) with
    | Some note =>
        match JsMap.get (Note.subjectId note) (subjects st) with
        | Some subject =>
            set_subjects st
              (JsMap.set (Note.subjectId note)
                 (Subject.mk (Subject.id subject) (Subject.name subject)
                    (Subject.icon subject) (Subject.color subject)
                    (Some
                       (Z.max 0 (toNumber (Subject.notesCount subject) - 1)))
                    (Subject.flashcardsCount subject)
                    (Subject.questionsCount subject)
                    (Subject.lastAccessed subject))
                 (subjects st))
        | None => st
        end
    | None => st
    end in
  (set_notes st1 (JsMap.delete id (notes st1)), JsMap.has id (notes st1)).

(** *** Summaries *)

Definition getSummaries (st : t) (subjectId : option string)
  : list Summary.t :=
  let summaries := JsMap.values (summaries st) in
  let sorted :=
    array_sort (fun a b => Summary.createdAt b - Summary.createdAt a)
      summaries in
  match subjectId with
  | Some sid =>
      if truthy_string sid
      then filter (fun s => (Summary.subjectId s =? sid)%string) summaries
      else sorted
  | None => sorted
  end.

(** *** Flashcards *)

Definition getFlashcards (st : t) (subjectId : option string)
  : list Flashcard.t :=
  let flashcards := JsMap.values (flashcards st) in
  match subjectId with
  | Some sid =>
      if truthy_string sid && negb (sid =? "all")%string
      then filter (fun f => (Flashcard.subjectId f =? sid)%string) flashcards
      else flashcards
  | None => flashcards
  end.

Definition getFlashcard (st : t) (id : string) : option Flashcard.t :=
  JsMap.get id (flashcards st).

Definition createFlashcard (st : t) (uuid : string)
    (data : InsertFlashcard.t) : t * Flashcard.t :=
  let flashcard :=
    Flashcard.mk uuid (InsertFlashcard.subjectId data)
      (InsertFlashcard.summaryId data) (InsertFlashcard.front data)
      (InsertFlashcard.back data)
      (Some (or_present (InsertFlashcard.difficulty data) "medium"))
      None (Some 0) in
  let st1 := set_flashcards st (JsMap.set uuid flashcard (flashcards st)) in
  let st2 :=
    match JsMap.get (InsertFlashcard.subjectId data) (subjects st1) with
    | Some subject =>
        set_subjects st1
          (JsMap.set (InsertFlashcard.subjectId data)
             (Subject.mk (Subject.id subject) (Subject.name subject)
                (Subject.icon subject) (Subject.color subject)
                (Subject.notesCount subject)
                (Some (toNumber (Subject.flashcardsCount subject) + 1))
                (Subject.questionsCount subject)
                (Subject.lastAccessed subject))
             (subjects st1))
    | None => st1
    end in
  (st2, flashcard).

(** The loop of [createFlashcards]; every item comes with the identifier
    [randomUUID()] returns for it. *)
Fixpoint createFlashcards (st : t)
    (data : list (string * InsertFlashcard.t)) : t * list Flashcard.t :=
  match data with
  | [] => (st, [])
  | (uuid, item) :: rest =>
      let '(st1, flashcard) := createFlashcard st uuid item in
      let '(st2, flashcards) := createFlashcards st1 rest in
      (st2, flashcard :: flashcards)
  end.

Definition updateFlashcard (st : t) (id : string)
    (data : PartialFlashcard.t) (now : Z) : t * option Flashcard.t :=
  match JsMap.get id (flashcards st) with
  | None => (st, None)
  | Some flashcard =>
      let merged := spreadFlashcard flashcard data in
      let updated :=
        Flashcard.mk (Flashcard.id merged) (Flashcard.subjectId merged)
          (Flashcard.summaryId merged) (Flashcard.front merged)
          (Flashcard.back merged) (Flashcard.difficulty merged)
          (Some now)
          (Some (toNumber (Flashcard.timesReviewed flashcard) + 1)) in
      (set_flashcards st (JsMap.set id updated (flashcards st)),
       Some updated)
  end.

(** *** Questions *)

Definition getQuestions (st : t) (subjectId : option string)
  : list Question.t :=
  let questions := JsMap.values (questions st) in
  match subjectId with
  | Some sid =>
      if truthy_string sid && negb (sid =? "all")%string
      then filter (fun q => (Question.subjectId q =? sid)%string) questions
      else questions
  | None => questions
  end.

(** *** Study plans *)

Definition getStudyPlans (st : t) : list StudyPlan.t :=
  array_sort (fun a b => StudyPlan.createdAt b - StudyPlan.createdAt a)
    (JsMap.values (studyPlans st)).

Definition getStudyPlan (st : t) (id : string) : option StudyPlan.t :=
  JsMap.get id (studyPlans st).

Definition updateStudyPlanTask (st : t) (planId taskId : string)
    (data : PartialStudyTask.t) : t * option StudyPlan.t :=
  match JsMap.get planId (studyPlans st) with
  | None => (st, None)
  | Some plan =>
      let updatedTasks :=
        map (fun t =>
               if (StudyTask.id t =? taskId)%string then spreadTask t data
               else t)
            (StudyPlan.tasks plan) in
      let updatedPlan :=
        StudyPlan.mk (StudyPlan.id plan) (StudyPlan.title plan)
          (StudyPlan.description plan) (StudyPlan.startDate plan)
          (StudyPlan.endDate plan) updatedTasks (StudyPlan.createdAt plan) in
      (set_studyPlans st (JsMap.set planId updatedPlan (studyPlans st)),
       Some updatedPlan)
  end.

(** *** Dashboard *)

(** The two nested loops that collect the upcoming tasks. *)
Definition collectUpcoming (today : string) (plans : list StudyPlan.t)
  : list StudyTask.t :=
  flat_map
    (fun plan =>
       filter
         (fun task =>
            negb (StudyTask.completed task)
            && string_ge (StudyTask.date task) today)
         (StudyPlan.tasks plan))
    plans.

(** [localeCompare] is the collation of the runtime; [today] is
    [new Date().toISOString().split('T')[0]]. *)
Definition getDashboardStats (localeCompare : string -> string -> Z)
    (today : string) (st : t) : DashboardStats.t :=
  let summaries := getSummaries st None in
  let studyPlans := getStudyPlans st in
  let upcomingTasks := collectUpcoming today studyPlans in
  let sorted :=
    array_sort
      (fun a b => localeCompare (StudyTask.date a) (StudyTask.date b))
      upcomingTasks in
  DashboardStats.mk
    (JsMap.size (subjects st)) (JsMap.size (notes st))
    (JsMap.size (flashcards st)) (JsMap.size (questions st))
    0
    (slice0 5 summaries)
    (slice0 5 sorted).

(** *** Deletions, questions and the creation of study plans *)

Definition set_summaries (st : t) (m : JsMap.t Summary.t) : t :=
  mk (subjects st) (notes st) m (flashcards st) (questions st)
     (studyPlans st).
Definition set_questions (st : t) (m : JsMap.t Question.t) : t :=
  mk (subjects st) (notes st) (summaries st) (flashcards st) m
     (studyPlans st).

Definition getSubjects (st : t) : list Subject.t :=
  JsMap.values (subjects st).

Definition deleteSummary (st : t) (id : string) : t * bool :=
  (set_summaries st (JsMap.delete id (summaries st)),
   JsMap.has id (summaries st)).

Definition deleteFlashcard (st : t) (id : string) : t * bool :=
  let st1 :=
    match JsMap.get id (flashcards st) with
    | Some flashcard =>
        match JsMap.get (Flashcard.subjectId flashcard) (subjects st) with
        | Some subject =>
            set_subjects st
              (JsMap.set (Flashcard.subjectId flashcard)
                 (Subject.mk (Subject.id subject) (Subject.name subject)
                    (Subject.icon subject) (Subject.color subject)
                    (Subject.notesCount subject)
                    (Some
                       (Z.max 0
                          (toNumber (Subject.flashcardsCount subject) - 1)))
                    (Subject.questionsCount subject)
                    (Subject.lastAccessed subject))
                 (subjects st))
        | None => st
        end
    | None => st
    end in
  (set_flashcards st1 (JsMap.delete id (flashcards st1)),
   JsMap.has id (flashcards st1)).

Definition getQuestion (st : t) (id : string) : option Question.t :=
  JsMap.get id (questions st).

Definition createQuestion (st : t) (uuid : string)
    (data : InsertQuestion.t) : t * Question.t :=
  let question :=
    Question.mk uuid (InsertQuestion.subjectId data)
      (InsertQuestion.summaryId data) (InsertQuestion.type data)
      (InsertQuestion.question data) (InsertQuestion.options data)
      (InsertQuestion.answer data) (InsertQuestion.explanation data)
      (Some (or_string (InsertQuestion.difficulty data) "medium")) in
  let st1 := set_questions st (JsMap.set uuid question (questions st)) in
  let st2 :=
    match JsMap.get (InsertQuestion.subjectId data) (subjects st1) with
    | Some subject =>
        set_subjects st1
          (JsMap.set (InsertQuestion.subjectId data)
             (Subject.mk (Subject.id subject) (Subject.name subject)
                (Subject.icon subject) (Subject.color subject)
                (Subject.notesCount subject)
                (Subject.flashcardsCount subject)
                (Some (toNumber (Subject.questionsCount subject) + 1))
                (Subject.lastAccessed subject))
             (subjects st1))
    | None => st1
    end in
  (st2, question).

Definition deleteQuestion (st : t) (id : string) : t * bool :=
  let st1 :=
    match JsMap.get id (questions st) with
    | Some question =>
        match JsMap.get (Question.subjectId question) (subjects st) with
        | Some subject =>
            set_subjects st
              (JsMap.set (Question.subjectId question)
                 (Subject.mk (Subject.id subject) (Subject.name subject)
                    (Subject.icon subject) (Subject.color subject)
                    (Subject.notesCount subject)
                    (Subject.flashcardsCount subject)
                    (Some
                       (Z.max 0
                          (toNumber (Subject.questionsCount subject) - 1)))
                    (Subject.lastAccessed subject))
                 (subjects st))
        | None => st
        end
    | None => st
    end in
  (set_questions st1 (JsMap.delete id (questions st1)),
   JsMap.has id (questions st1)).

(** [{ ...t, id }]. *)
Definition withId (t : StudyTask.t) (id : string) : StudyTask.t :=
  StudyTask.mk id (StudyTask.topic t) (StudyTask.subject t)
    (StudyTask.duration t) (StudyTask.priority t) (StudyTask.completed t)
    (StudyTask.date t) (StudyTask.timeSlot t).

(** [data.tasks.map((t) => ({ ...t, id: randomUUID() }))]: [taskUuid i] is
    the identifier drawn for the task at position [i], counted from
    [first]. *)
Fixpoint assignIds (taskUuid : nat -> string) (first : nat)
    (tasks : list StudyTask.t) : list StudyTask.t :=
  match tasks with
  | [] => []
  | t :: rest =>
      withId t (taskUuid first) :: assignIds taskUuid (S first) rest
  end.

Definition createStudyPlan (st : t) (uuid : string) (taskUuid : nat -> string)
    (now : Z) (data : InsertStudyPlan.t) : t * StudyPlan.t :=
  let plan :=
    StudyPlan.mk uuid (InsertStudyPlan.title data)
      (InsertStudyPlan.description data) (InsertStudyPlan.startDate data)
      (InsertStudyPlan.endDate data)
      (assignIds taskUuid 0 (InsertStudyPlan.tasks data)) now in
  (set_studyPlans st (JsMap.set uuid plan (studyPlans st)), plan).

Definition deleteStudyPlan (st : t) (id : string) : t * bool :=
  (set_studyPlans st (JsMap.delete id (studyPlans st)),
   JsMap.has id (studyPlans st)).
End MemStorage.

(** [[...new Set(l)]]: the distinct elements in order of first occurrence. *)
Fixpoint uniq (l : list string) : list string :=
  match l with
  | [] => []
  | x :: l' => x :: filter (fun y => negb (y =? x)%string) (uniq l')
  end.

(** ** The relational implementation ([class DatabaseStorage]) *)
Module DatabaseStorage.
Record t := mk {
  subjects : list Subject.t;
  notes : list Note.t;
  summaries : list Summary.t;
  flashcards : list Flashcard.t;
  questions : list Question.t;
  studyPlans : list StudyPlan.t
}.

Definition empty : t := mk [] [] [] [] [] [].

Definition getSubject (db : t) (id : string) : option Subject.t :=
  Table.first
    (Table.select_where (fun s => (Subject.id s =? id)%string)
       (subjects db)).

Definition deleteSubject (db : t) (id : string) : t * bool :=
  (mk (Table.delete_where (fun s => (Subject.id s =? id)%string)
         (subjects db))
      (Table.delete_where (fun n => (Note.subjectId n =? id)%string)
         (notes db))
      (Table.delete_where (fun s => (Summary.subjectId s =? id)%string)
         (summaries db))
      (Table.delete_where (fun f => (Flashcard.subjectId f =? id)%string)
         (flashcards db))
      (Table.delete_where (fun q => (Question.subjectId q =? id)%string)
         (questions db))
      (studyPlans db),
   match getSubject db id with Some _ => true | None => false end).

Definition getNotes (db : t) (subjectId : option string) : list Note.t :=
  match subjectId with
  | Some sid =>
      if truthy_string sid
      then Table.select_where (fun n => (Note.subjectId n =? sid)%string)
             (notes db)
      else notes db
  | None => notes db
  end.

Definition getSummaries (db : t) (subjectId : option string)
  : list Summary.t :=
  let ordered :=
    array_sort (fun a b => Summary.createdAt b - Summary.createdAt a)
      (summaries db) in
  match subjectId with
  | Some sid =>
      if truthy_string sid
      then Table.select_where (fun s => (Summary.subjectId s =? sid)%string)
             (summaries db)
      else ordered
  | None => ordered
  end.

Definition getFlashcards (db : t) (subjectId : option string)
  : list Flashcard.t :=
  match subjectId with
  | Some sid =>
      if truthy_string sid && negb (sid =? "all")%string
      then Table.select_where
             (fun f => (Flashcard.subjectId f =? sid)%string) (flashcards db)
      else flashcards db
  | None => flashcards db
  end.

Definition getFlashcard (db : t) (id : string) : option Flashcard.t :=
  Table.first
    (Table.select_where (fun f => (Flashcard.id f =? id)%string)
       (flashcards db)).

(** The row [insert(flashcards).values(v)] stores: a column whose key the
    insert record leaves out takes the default of the schema
    ([difficulty: text("difficulty").default("medium")]); a key that is
    [null] stores NULL, and a string is stored as it is, the empty one too. *)
Definition flashcardRow (uuid : string) (v : InsertFlashcard.t)
  : Flashcard.t :=
  Flashcard.mk uuid (InsertFlashcard.subjectId v)
    (InsertFlashcard.summaryId v) (InsertFlashcard.front v)
    (InsertFlashcard.back v)
    (match InsertFlashcard.difficulty v with
     | Present d => Some d
     | Null => None
     | Absent => Some "medium"
     end)
    None (Some 0).

(** One turn of [for (const subId of subjectIds)]. *)
Definition bumpFlashcardsCount (batch : list InsertFlashcard.t)
    (subjects : list Subject.t) (subId : string) : list Subject.t :=
  let count :=
    Z.of_nat
      (List.length
         (filter (fun f => (InsertFlashcard.subjectId f =? subId)%string)
            batch)) in
  match Table.first
          (Table.select_where (fun s => (Subject.id s =? subId)%string)
             subjects) with
  | Some subject =>
      Table.update_where_moved (fun s => (Subject.id s =? subId)%string)
        (fun s =>
           Subject.mk (Subject.id s) (Subject.name s) (Subject.icon s)
             (Subject.color s) (Subject.notesCount s)
             (Some (or_zero (Subject.flashcardsCount subject) + count))
             (Subject.questionsCount s) (Subject.lastAccessed s))
        subjects
  | None => subjects
  end.

(** The columns [subject_id] and [summary_id] of a flashcard have the type
    [uuid]: the database refuses an insert record whose [subjectId], or
    whose [summaryId] when it has one, is not in the input syntax of that
    type.  [uuidSyntax] is that syntax. *)
Definition uuidValues (uuidSyntax : string -> bool) (v : InsertFlashcard.t)
  : bool :=
  uuidSyntax (InsertFlashcard.subjectId v)
  && match InsertFlashcard.summaryId v with
     | Some summaryId => uuidSyntax summaryId
     | None => true
     end.

(** Every record of the batch comes with the identifier the database
    generates for its row.  [values([])] throws before anything is sent to
    the database, and the database throws on a record it refuses, storing
    none (the message is the one of the database up to the value it
    quotes); the function has no [try], so the promise it returns is
    rejected and the store is as it was. *)
Definition createFlashcards (uuidSyntax : string -> bool) (db : t)
    (data : list (string * InsertFlashcard.t))
  : t * Attempt (list Flashcard.t) :=
  match data with
  | [] => (db, Throws "values() must be called with at least one value")
  | _ :: _ =>
      if forallb (fun e => uuidValues uuidSyntax (snd e)) data
      then
        let insertFlashcards := map snd data in
        let createdFlashcards :=
          map (fun e => flashcardRow (fst e) (snd e)) data in
        let subjectIds :=
          uniq (map InsertFlashcard.subjectId insertFlashcards) in
        (mk (fold_left (bumpFlashcardsCount insertFlashcards) subjectIds
               (subjects db))
            (notes db) (summaries db)
            (Table.insert_values createdFlashcards (flashcards db))
            (questions db) (studyPlans db),
         Ok createdFlashcards)
      else (db, Throws "invalid input syntax for type uuid")
  end.

(** [.set({ ...data, lastReviewed: new Date(),
           timesReviewed: (data.timesReviewed || 0) + 1 })]. *)
Definition flashcardSet (data : PartialFlashcard.t) (now : Z)
    (row : Flashcard.t) : Flashcard.t :=
  let merged := spreadFlashcard row data in
  Flashcard.mk (Flashcard.id merged) (Flashcard.subjectId merged)
    (Flashcard.summaryId merged) (Flashcard.front merged)
    (Flashcard.back merged) (Flashcard.difficulty merged)
    (Some now)
    (Some
       (or_zero
          (match PartialFlashcard.timesReviewed data with
           | Some x => x
           | None => None
           end) + 1)).

Definition updateFlashcard (db : t) (id : string)
    (data : PartialFlashcard.t) (now : Z) : t * option Flashcard.t :=
  let matches := fun f => (Flashcard.id f =? id)%string in
  (mk (subjects db) (notes db) (summaries db)
      (Table.update_where matches (flashcardSet data now) (flashcards db))
      (questions db) (studyPlans db),
   Table.first
     (Table.update_returning matches (flashcardSet data now)
        (flashcards db))).

Definition getQuestions (db : t) (subjectId : option string)
  : list Question.t :=
  match subjectId with
  | Some sid =>
      if truthy_string sid && negb (sid =? "all")%string
      then Table.select_where
             (fun q => (Question.subjectId q =? sid)%string) (questions db)
      else questions db
  | None => questions db
  end.

Definition getStudyPlan (db : t) (id : string) : option StudyPlan.t :=
  Table.first
    (Table.select_where (fun p => (StudyPlan.id p =? id)%string)
       (studyPlans db)).

Definition updateStudyPlanTask (db : t) (planId taskId : string)
    (data : PartialStudyTask.t) : t * option StudyPlan.t :=
  let matches := fun p => (StudyPlan.id p =? planId)%string in
  match Table.first (Table.select_where matches (studyPlans db)) with
  | None => (db, None)
  | Some plan =>
      let updatedTasks :=
        map (fun t =>
               if (StudyTask.id t =? taskId)%string then spreadTask t data
               else t)
            (StudyPlan.tasks plan) in
      let setTasks := fun p =>
        StudyPlan.mk (StudyPlan.id p) (StudyPlan.title p)
          (StudyPlan.description p) (StudyPlan.startDate p)
          (StudyPlan.endDate p) updatedTasks (StudyPlan.createdAt p) in
      (mk (subjects db) (notes db) (summaries db) (flashcards db)
          (questions db)
          (Table.update_where matches setTasks (studyPlans db)),
       Table.first
         (Table.update_returning matches setTasks (studyPlans db)))
  end.

(** [insertPlan.tasks.map(t => ({ ...t, id: t.id || randomUUID() }))]:
    [taskUuid i] is the identifier drawn for the task at position [i] when
    its own id is empty. *)
Fixpoint tasksWithIds (taskUuid : nat -> string) (first : nat)
    (tasks : list StudyTask.t) : list StudyTask.t :=
  match tasks with
  | [] => []
  | t :: rest =>
      MemStorage.withId t (or_string (Some (StudyTask.id t)) (taskUuid first))
      :: tasksWithIds taskUuid (S first) rest
  end.

(** The row takes its id and its creation time from the defaults of the
    schema: [uuid] and [now]. *)
Definition createStudyPlan (db : t) (uuid : string) (taskUuid : nat -> string)
    (now : Z) (insertPlan : InsertStudyPlan.t) : t * StudyPlan.t :=
  let plan :=
    StudyPlan.mk uuid (InsertStudyPlan.title insertPlan)
      (InsertStudyPlan.description insertPlan)
      (InsertStudyPlan.startDate insertPlan)
      (InsertStudyPlan.endDate insertPlan)
      (tasksWithIds taskUuid 0 (InsertStudyPlan.tasks insertPlan)) now in
  (mk (subjects db) (notes db) (summaries db) (flashcards db) (questions db)
      (Table.insert_values [plan] (studyPlans db)),
   plan).

(** The plans are read in the order of the table; the loops over them are
    those of [MemStorage].  [localeCompare] and [today] as there; among
    summaries created at the same time the order is the sort's. *)
Definition getDashboardStats (localeCompare : string -> string -> Z)
    (today : string) (db : t) : DashboardStats.t :=
  let recentSummaries :=
    firstn 5
      (array_sort (fun a b => Summary.createdAt b - Summary.createdAt a)
         (summaries db)) in
  let upcomingTasks := MemStorage.collectUpcoming today (studyPlans db) in
  let sorted :=
    array_sort
      (fun a b => localeCompare (StudyTask.date a) (StudyTask.date b))
      upcomingTasks in
  DashboardStats.mk
    (Z.of_nat (List.length (subjects db)))
    (Z.of_nat (List.length (notes db)))
    (Z.of_nat (List.length (flashcards db)))
    (Z.of_nat (List.length (questions db)))
    0
    recentSummaries
    (slice0 5 sorted).
End DatabaseStorage.

(** ** The interface both implementations provide ([interface IStorage]) *)
Class IStorage (S : Type) := {
  getFlashcards : S -> option string -> list Flashcard.t;
  getQuestions : S -> option string -> list Question.t;
  updateFlashcard :
    S -> string -> PartialFlashcard.t -> Z -> S * option Flashcard.t;
  getStudyPlan : S -> string -> option StudyPlan.t;
  updateStudyPlanTask :
    S -> string -> string -> PartialStudyTask.t -> S * option StudyPlan.t
}.

#[export] Instance MemStorage_IStorage : IStorage MemStorage.t := {
  getFlashcards := MemStorage.getFlashcards;
  getQuestions := MemStorage.getQuestions;
  updateFlashcard := MemStorage.updateFlashcard;
  getStudyPlan := MemStorage.getStudyPlan;
  updateStudyPlanTask := MemStorage.updateStudyPlanTask
}.

#[export] Instance DatabaseStorage_IStorage : IStorage DatabaseStorage.t := {
  getFlashcards := DatabaseStorage.getFlashcards;
  getQuestions := DatabaseStorage.getQuestions;
  updateFlashcard := DatabaseStorage.updateFlashcard;
  getStudyPlan := DatabaseStorage.getStudyPlan;
  updateStudyPlanTask := DatabaseStorage.updateStudyPlanTask
}.

(** ** The task route ([registerRoutes]) *)
Module Routes.
Inductive Body :=
| PlanBody (plan : StudyPlan.t)
| ErrorBody (error : string).

Record Response := mkResponse { status : Z; body : Body }.

(** [PATCH /api/study-plans/:planId/tasks/:taskId], for a call of the
    storage that returns: [MemStorage] always does, and [DatabaseStorage]
    does for a plan it stores.  The [catch] branch, which answers 500 when
    the storage throws, is not part of this definition. *)
Definition patchStudyPlanTask (S : Type) `{IStorage S} (storage : S)
    (planId taskId : string) (reqBody : PartialStudyTask.t)
  : S * Response :=
  let '(storage', plan) :=
    updateStudyPlanTask storage planId taskId reqBody in
  match plan with
  | None => (storage', mkResponse 404 (ErrorBody "Plan or task not found"))
  | Some p => (storage', mkResponse 200 (PlanBody p))
  end.
End Routes.

(** ** The flashcard route ([registerRoutes]) *)
Module FlashcardRoutes.
Inductive Body :=
| FlashcardBody (flashcard : Flashcard.t)
| ErrorBody (error : string).

Record Response := mkResponse { status : Z; body : Body }.

(** [PATCH /api/flashcards/:id] with [MemStorage] as the storage; [now] is
    the clock reading of the update.  [MemStorage.updateFlashcard] does not
    throw, so the [catch] branch is not reached. *)
Definition patchFlashcard (storage : MemStorage.t) (id : string)
    (reqBody : PartialFlashcard.t) (now : Z) : MemStorage.t * Response :=
  let '(storage', flashcard) :=
    MemStorage.updateFlashcard storage id reqBody now in
  match flashcard with
  | None => (storage', mkResponse 404 (ErrorBody "Flashcard not found"))
  | Some f => (storage', mkResponse 200 (FlashcardBody f))
  end.
End FlashcardRoutes.

(** ** [Date]

    A date is its time value, the milliseconds since the epoch; [None] is
    the invalid date.  The time value of [new Date()] is the current time,
    a valid date. *)
Module JsDate.
Definition msPerDay : Z := 86400000.

(** The time values of the valid dates. *)
Definition valid (t : Z) : bool := Z.abs t <=? 8640000000000000.

(** The year, the month and the day of the month of the day that comes
    [days] days after 1970-01-01, in the Gregorian calendar. *)
Definition civil (days : Z) : Z * Z * Z :=
  let z := days + 719468 in
  let era := z / 146097 in
  let doe := z - era * 146097 in
  let yoe := (doe - doe / 1460 + doe / 36524 - doe / 146096) / 365 in
  let doy := doe - (365 * yoe + yoe / 4 - yoe / 100) in
  let mp := (5 * doy + 2) / 153 in
  let d := doy - (153 * mp + 2) / 5 + 1 in
  let m := if mp <? 10 then mp + 3 else mp - 9 in
  (yoe + era * 400 + (if m <=? 2 then 1 else 0), m, d).

Definition digit (n : Z) : string :=
  String (ascii_of_nat (48 + Z.to_nat n)) EmptyString.

Definition pad2 (n : Z) : string := digit (n / 10) ++ digit (n mod 10).
Definition pad4 (n : Z) : string := pad2 (n / 100) ++ pad2 (n mod 100).
Definition pad6 (n : Z) : string := pad2 (n / 10000) ++ pad4 (n mod 10000).

(** [toISOString().split("T")[0]] of a valid date: its day in UTC, as
    YYYY-MM-DD; a year outside 0 .. 9999 is written with its sign and six
    digits. *)
Definition isoDate (t : Z) : string :=
  let '(y, m, d) := civil (t / msPerDay) in
  (if (0 <=? y) && (y <=? 9999) then pad4 y
   else (if y <? 0 then "-" else "+") ++ pad6 (Z.abs y))
  ++ "-" ++ pad2 m ++ "-" ++ pad2 d.

(** What works in the local time of the runtime: [getDate()], the day of
    the month, and [setDate(date)], which gives the date on that day of the
    same month at the same time of day (days past the end of the month run
    into the next one), or the invalid date when that is out of range. *)
Record Zone := mkZone {
  getDate : Z -> Z;
  setDate : Z -> Z -> option Z
}.

(** The runtime whose local time is UTC: the day [date] of the month is
    [date - getDate()] days away. *)
Definition utc : Zone :=
  mkZone
    (fun t => snd (civil (t / msPerDay)))
    (fun t date =>
       let t' := t + (date - snd (civil (t / msPerDay))) * msPerDay in
       if valid t' then Some t' else None).
End JsDate.

(** ** The AI gateway ([services/groq.ts]) *)
Module Groq.
(** What [JSON.parse] produces.  The fields of an object are in the order
    of the text; numbers are carried as integers, the gateway only tests
    them for zero. *)
Inductive json :=
| JNull
| JBool (b : bool)
| JNum (n : Z)
| JStr (s : string)
| JArr (items : list json)
| JObj (fields : list (string * json)).

Definition truthy (j : json) : bool :=
  match j with
  | JNull => false
  | JBool b => b
  | JNum n => negb (n =? 0)
  | JStr s => truthy_string s
  | JArr _ => true
  | JObj _ => true
  end.

(** The value of a key in a parsed object: the last occurrence in the text
    wins. *)
Fixpoint lookup (key : string) (fields : list (string * json))
  : option json :=
  match fields with
  | [] => None
  | (k, v) :: rest =>
      match lookup key rest with
      | Some v' => Some v'
      | None => if (key =? k)%string then Some v else None
      end
  end.

(** A function of the gateway returns or throws an [Error] with a
    message. *)
Inductive outcome (A : Type) :=
| Returned (a : A)
| Thrown (message : string).
Arguments Returned {A} a.
Arguments Thrown {A} message.

Definition bind (A B : Type) (x : outcome A) (k : A -> outcome B)
  : outcome B :=
  match x with
  | Returned a => k a
  | Thrown m => Thrown m
  end.

Notation "x <- e ;; k" := (bind e (fun x => k))
  (at level 61, e at next level, right associativity).

(** [try { .. } catch (error) { throw new Error(prefix + error.message) }]. *)
Definition rethrow (A : Type) (prefix : string) (x : outcome A)
  : outcome A :=
  match x with
  | Returned a => Returned a
  | Thrown m => Thrown (prefix ++ m)%string
  end.

(** [result.key] for the keys the gateway reads ([None] is [undefined]):
    reading a property of [null] throws a [TypeError]; values that are not
    objects have none of these keys. *)
Definition member (result : json) (key : string) : outcome (option json) :=
  match result with
  | JNull =>
      Thrown
        ("Cannot read properties of null (reading '" ++ key ++ "')")%string
  | JObj fields => Returned (lookup key fields)
  | _ => Returned None
  end.

(** [v || d]. *)
Definition or_default (v : option json) (d : json) : json :=
  match v with
  | Some j => if truthy j then j else d
  | None => d
  end.

(** The user message of a request: the fixed text of each template is left
    out, the interpolated values are kept. *)
Inductive Prompt :=
| SummaryPrompt (title : string) (content : string)
| FlashcardsPrompt (finalCount : Z) (content : string).

Record ChatRequest := mkRequest {
  system : string;
  user : Prompt;
  max_tokens : Z;
  json_object : bool
}.

(** What comes back from [groq.chat.completions.create] followed by
    [JSON.parse(response.choices[0].message.content || "{}")]: either one
    of the two throws, with the message the [catch] clause reads, or the
    text parses. *)
Inductive Completion :=
| Failed (message : string)
| Parsed (result : json).

(** The provider together with the parser. *)
Definition Client := ChatRequest -> Completion.

Definition complete (client : Client) (request : ChatRequest)
  : outcome json :=
  match client request with
  | Failed m => Thrown m
  | Parsed result => Returned result
  end.

Record SummaryResult := mkSummary {
  keyPoints : json;
  definitions : json;
  formulas : json;
  mainConcepts : json;
  fullSummary : json
}.

Definition summaryRequest (content title : string) : ChatRequest :=
  mkRequest
    "You are a helpful study assistant that creates clear, structured summaries. Always respond with valid JSON only, no additional text."
    (SummaryPrompt title (substring 0 3000 content)) 2000 true.

Definition summarizeContent (client : Client) (content title : string)
  : outcome SummaryResult :=
  rethrow "Failed to generate summary: "
    (result <- complete client (summaryRequest content title) ;;
     kp <- member result "keyPoints" ;;
     defs <- member result "definitions" ;;
     fs <- member result "formulas" ;;
     mc <- member result "mainConcepts" ;;
     full <- member result "fullSummary" ;;
     Returned
       (mkSummary (or_default kp (JArr [])) (or_default defs (JArr []))
          (or_default fs (JArr [])) (or_default mc (JArr []))
          (or_default full (JStr "Summary not available.")))).

(** [Math.min(count, 10)]. *)
Definition finalCount (count : Z) : Z := Z.min count 10.

Definition flashcardsRequest (content : string) (count : Z) : ChatRequest :=
  mkRequest "You are an expert educator. Respond with valid JSON only."
    (FlashcardsPrompt (finalCount count) (substring 0 2000 content))
    2000 true.

Definition generateFlashcards (client : Client) (content : string)
    (count : Z) : outcome json :=
  rethrow "Failed to generate flashcards: "
    (result <- complete client (flashcardsRequest content count) ;;
     cards <- member result "flashcards" ;;
     Returned (or_default cards (JArr []))).

(** The number of flashcards in what [generateFlashcards] returned. *)
Definition cardCount (returned : json) : nat :=
  match returned with
  | JArr items => List.length items
  | _ => 0%nat
  end.
End Groq.

(** ** The AI gateway, continued: chat, questions and study plans *)
Module Gateway.
(** [arr.join(sep)]. *)
Fixpoint join (sep : string) (l : list string) : string :=
  match l with
  | [] => ""
  | [x] => x
  | x :: rest => (x ++ sep ++ join sep rest)%string
  end.

(** *** [chatWithAI] *)










(** *** [generateQuestions] *)

(** The keys of [typeDescriptions]; the route admits no other type. *)
Inductive QuestionType := mcq | short | long | numerical.

Definition typeDescription (t : QuestionType) : string :=
  match t with
  | mcq => "Multiple choice questions with 4 options"
  | short => "Short answer questions (1-2 sentences)"
  | long => "Long answer questions requiring detailed explanation"
  | numerical => "Numerical/calculation problems"
  end.

(** The interpolated values of the prompt. *)
Record QuestionsPrompt := mkQuestionsPrompt {
  finalCount : Z;
  selectedTypes : string;
  material : string
}.

Definition QuestionsClient := QuestionsPrompt -> Groq.Completion.

Definition questionsPrompt (content : string) (types : list QuestionType)
    (count : Z) : QuestionsPrompt :=
  mkQuestionsPrompt (Z.min count 8) (join ", " (map typeDescription types))
    (substring 0 2000 content).

Definition generateQuestions (client : QuestionsClient) (content : string)
    (types : list QuestionType) (count : Z) : Groq.outcome Groq.json :=
  Groq.rethrow "Failed to generate questions: "
    (Groq.bind
       (match client (questionsPrompt content types count) with
        | Groq.Failed m => Groq.Thrown m
        | Groq.Parsed result => Groq.Returned result
        end)
       (fun result =>
          Groq.bind (Groq.member result "questions")
            (fun questions =>
               Groq.Returned (Groq.or_default questions (Groq.JArr []))))).

(** *** [generateStudyPlan] *)

Record PlanTask := mkPlanTask {
  topic : Groq.json;
  subject : Groq.json;
  duration : Groq.json;
  priority : Groq.json;
  date : Groq.json;
  timeSlot : option Groq.json
}.

Record StudyPlanResult := mkPlan {
  title : Groq.json;
  description : Groq.json;
  startDate : Groq.json;
  endDate : Groq.json;
  tasks : list PlanTask
}.

(** The interpolated values of the two prompts. *)
Record PlanPrompt := mkPlanPrompt {
  todayStr : string;
  subjectContext : string;
  request : string
}.

Definition PlanClient := PlanPrompt -> Groq.Completion.

Definition planPrompt (prompt : string) (subjects : list string)
    (today : string) : PlanPrompt :=
  mkPlanPrompt today
    (match subjects with
     | [] => "Create appropriate subject names based on the request"
     | _ => ("Available subjects: " ++ join ", " subjects)%string
     end)
    prompt.

(** [if (!result.key) result.key = fallback], then [result.key]; the
    fallback is computed only when the key is missing or falsy, and may
    throw.  Reading a property of [null] throws; so does, in the strict
    code of a module, setting a property on a number, a string or a
    boolean; an array takes the property. *)
Definition ensured (result : Groq.json) (key : string)
    (fallback : Groq.outcome string) : Groq.outcome Groq.json :=
  match result with
  | Groq.JNull =>
      Groq.Thrown
        ("Cannot read properties of null (reading '" ++ key ++ "')")%string
  | Groq.JObj fields =>
      match Groq.lookup key fields with
      | Some v =>
          if Groq.truthy v then Groq.Returned v
          else Groq.bind fallback (fun s => Groq.Returned (Groq.JStr s))
      | None => Groq.bind fallback (fun s => Groq.Returned (Groq.JStr s))
      end
  | Groq.JArr _ => Groq.bind fallback (fun s => Groq.Returned (Groq.JStr s))
  | _ =>
      Groq.bind fallback
        (fun _ => Groq.Thrown ("Cannot create property '" ++ key ++ "'")%string)
  end.

(** [const endDate = new Date(today);
     endDate.setDate(endDate.getDate() + 7);
     endDate.toISOString().split("T")[0]]: [toISOString] of the invalid
    date throws a [RangeError]. *)
Definition inSevenDays (zone : JsDate.Zone) (today : Z)
  : Groq.outcome string :=
  match JsDate.setDate zone today (JsDate.getDate zone today + 7) with
  | Some endDate => Groq.Returned (JsDate.isoDate endDate)
  | None => Groq.Thrown "Invalid time value"
  end.

(** The function [map] is given on the list of tasks. *)
Definition normalizeTask (today : string) (t : Groq.json)
  : Groq.outcome PlanTask :=
  Groq.bind (Groq.member t "topic") (fun topic =>
  Groq.bind (Groq.member t "subject") (fun subject =>
  Groq.bind (Groq.member t "duration") (fun duration =>
  Groq.bind (Groq.member t "priority") (fun priority =>
  Groq.bind (Groq.member t "date") (fun date =>
  Groq.bind (Groq.member t "timeSlot") (fun timeSlot =>
  Groq.Returned
    (mkPlanTask
       (Groq.or_default topic (Groq.JStr "Study session"))
       (Groq.or_default subject (Groq.JStr "General"))
       (Groq.or_default duration (Groq.JStr "1 hour"))
       (Groq.or_default priority (Groq.JStr "medium"))
       (Groq.or_default date (Groq.JStr today))
       timeSlot))))))).

Fixpoint normalizeTasks (today : string) (items : list Groq.json)
  : Groq.outcome (list PlanTask) :=
  match items with
  | [] => Groq.Returned []
  | t :: rest =>
      Groq.bind (normalizeTask today t) (fun task =>
      Groq.bind (normalizeTasks today rest) (fun tasks =>
      Groq.Returned (task :: tasks)))
  end.

(** [(result.tasks || []).map(..)]: a truthy value that is not an array has
    no [map]. *)
Definition mappedTasks (today : string) (tasks : option Groq.json)
  : Groq.outcome (list PlanTask) :=
  match Groq.or_default tasks (Groq.JArr []) with
  | Groq.JArr items => normalizeTasks today items
  | _ => Groq.Thrown "(result.tasks || []).map is not a function"
  end.

(** [today] is the time value of [new Date()], the time of the call, and
    [zone] the local time of the runtime.  Whatever is thrown, the [catch]
    clause throws the same message. *)
Definition generateStudyPlan (zone : JsDate.Zone) (client : PlanClient)
    (prompt : string) (subjects : list string) (today : Z)
  : Groq.outcome StudyPlanResult :=
  let todayStr := JsDate.isoDate today in
  match
    Groq.bind
      (match client (planPrompt prompt subjects todayStr) with
       | Groq.Failed m => Groq.Thrown m
       | Groq.Parsed result => Groq.Returned result
       end)
      (fun result =>
         Groq.bind (ensured result "startDate" (Groq.Returned todayStr))
           (fun startDate =>
         Groq.bind (ensured result "endDate" (inSevenDays zone today))
           (fun endDate =>
         Groq.bind (Groq.member result "title") (fun title =>
         Groq.bind (Groq.member result "description") (fun description =>
         Groq.bind (Groq.member result "tasks") (fun tasks =>
         Groq.bind (mappedTasks todayStr tasks) (fun mapped =>
         Groq.Returned
           (mkPlan
              (Groq.or_default title (Groq.JStr "Study Plan"))
              (Groq.or_default description
                 (Groq.JStr "Your personalized study plan"))
              startDate endDate mapped))))))))
  with
  | Groq.Returned plan => Groq.Returned plan
  | Groq.Thrown _ => Groq.Thrown "Failed to generate study plan"
  end.
End Gateway.

(** ** Vocabulary of the properties *)

(** [out] is what [v || d] leaves in a field of a result: never a falsy
    value, the fallback [d] when the key is missing or falsy, the parsed
    value otherwise. *)
Definition filled (v : Groq.outcome (option Groq.json)) (d out : Groq.json)
  : Prop :=
  Groq.truthy out = true
  /\ out <> Groq.JNull
  /\ (v = Groq.Returned None -> out = d)
  /\ (forall j, v = Groq.Returned (Some j) -> Groq.truthy j = false -> out = d)
  /\ (forall j, v = Groq.Returned (Some j) -> Groq.truthy j = true -> out = j).

(** [new] is [old] with the fields of [data] laid over it, field by field:
    a key that [data] has gives the field its value, whatever the value is
    ([completed: false] as well as [completed: true]); a key that [data]
    does not have leaves the field as it is in [old]. *)
Definition taskMerged (old : StudyTask.t) (data : PartialStudyTask.t)
    (new : StudyTask.t) : Prop :=
  (forall v, PartialStudyTask.id data = Some v -> StudyTask.id new = v)
  /\ (PartialStudyTask.id data = None -> StudyTask.id new = StudyTask.id old)
  /\ (forall v,
         PartialStudyTask.topic data = Some v -> StudyTask.topic new = v)
  /\ (PartialStudyTask.topic data = None ->
      StudyTask.topic new = StudyTask.topic old)
  /\ (forall v,
         PartialStudyTask.subject data = Some v -> StudyTask.subject new = v)
  /\ (PartialStudyTask.subject data = None ->
      StudyTask.subject new = StudyTask.subject old)
  /\ (forall v,
         PartialStudyTask.duration data = Some v ->
         StudyTask.duration new = v)
  /\ (PartialStudyTask.duration data = None ->
      StudyTask.duration new = StudyTask.duration old)
  /\ (forall v,
         PartialStudyTask.priority data = Some v ->
         StudyTask.priority new = v)
  /\ (PartialStudyTask.priority data = None ->
      StudyTask.priority new = StudyTask.priority old)
  /\ (forall v,
         PartialStudyTask.completed data = Some v ->
         StudyTask.completed new = v)
  /\ (PartialStudyTask.completed data = None ->
      StudyTask.completed new = StudyTask.completed old)
  /\ (forall v, PartialStudyTask.date data = Some v -> StudyTask.date new = v)
  /\ (PartialStudyTask.date data = None ->
      StudyTask.date new = StudyTask.date old)
  /\ (forall v,
         PartialStudyTask.timeSlot data = Some v ->
         StudyTask.timeSlot new = Some v)
  /\ (PartialStudyTask.timeSlot data = None ->
      StudyTask.timeSlot new = StudyTask.timeSlot old).

(** [plan'] is [plan] after the update of the tasks named [taskId] with
    [data]: every task with that id has the fields of [data] laid over it,
    every other task and every other field of the plan is as before. *)
Definition taskUpdated (taskId : string) (data : PartialStudyTask.t)
    (plan plan' : StudyPlan.t) : Prop :=
  StudyPlan.id plan' = StudyPlan.id plan
  /\ StudyPlan.title plan' = StudyPlan.title plan
  /\ StudyPlan.description plan' = StudyPlan.description plan
  /\ StudyPlan.startDate plan' = StudyPlan.startDate plan
  /\ StudyPlan.endDate plan' = StudyPlan.endDate plan
  /\ StudyPlan.createdAt plan' = StudyPlan.createdAt plan
  /\ List.length (StudyPlan.tasks plan') = List.length (StudyPlan.tasks plan)
  /\ (forall i t,
         nth_error (StudyPlan.tasks plan) i = Some t ->
         StudyTask.id t = taskId ->
         exists t',
           nth_error (StudyPlan.tasks plan') i = Some t'
           /\ taskMerged t data t')
  /\ (forall i t,
         nth_error (StudyPlan.tasks plan) i = Some t ->
         StudyTask.id t <> taskId ->
         nth_error (StudyPlan.tasks plan') i = Some t).

(** [createNote] called once for each element, in turn; an element is the
    identifier and the clock reading of the call and the note to insert. *)
Definition createNotesInTurn (st : MemStorage.t)
    (calls : list (string * Z * InsertNote.t)) : MemStorage.t :=
  fold_left
    (fun acc c => fst (MemStorage.createNote acc (fst (fst c)) (snd (fst c))
                         (snd c)))
    calls st.

(** [deleteNote] called once for each identifier, in turn. *)
Definition deleteNotesInTurn (st : MemStorage.t) (ids : list string)
  : MemStorage.t :=
  fold_left (fun acc id => fst (MemStorage.deleteNote acc id)) ids st.

(** The store holds a note [id] that belongs to the subject [sid]. *)
Definition ownedNote (sid : string) (st : MemStorage.t) (id : string)
  : Prop :=
  exists note,
    MemStorage.getNote st id = Some note /\ Note.subjectId note = sid.

(** The number of elements of [sids] equal to [k]. *)
Definition occurrences (k : string) (sids : list string) : Z :=
  Z.of_nat (List.length (filter (fun x => (x =? k)%string) sids)).

(** The subject with [n] more flashcards counted; left as it is for
    [n = 0]. *)
Definition addCount (n : Z) (s : Subject.t) : Subject.t :=
  if n =? 0 then s
  else
    Subject.mk (Subject.id s) (Subject.name s) (Subject.icon s)
      (Subject.color s) (Subject.notesCount s)
      (Some (toNumber (Subject.flashcardsCount s) + n))
      (Subject.questionsCount s) (Subject.lastAccessed s).

(** What one [createFlashcard] for the subject [sid] does to the map of
    subjects. *)
Definition memBump (m : JsMap.t Subject.t) (sid : string)
  : JsMap.t Subject.t :=
  match JsMap.get sid m with
  | Some s => JsMap.set sid (addCount 1 s) m
  | None => m
  end.

(** The flashcard [createFlashcard] builds; it does not depend on the
    store. *)
Definition memCard (uuid : string) (item : InsertFlashcard.t) : Flashcard.t :=
  snd (MemStorage.createFlashcard MemStorage.empty uuid item).

(** The two stores hold the same subjects: a lookup finds the same record
    in both. *)
Definition sameSubjects (st : MemStorage.t) (db : DatabaseStorage.t) : Prop :=
  forall sid, MemStorage.getSubject st sid = DatabaseStorage.getSubject db sid.

(** The difficulty of the insert record is left out or is a string that is
    not empty. *)
Definition plainDifficulty (item : InsertFlashcard.t) : Prop :=
  match InsertFlashcard.difficulty item with
  | Absent => True
  | Null => False
  | Present d => d <> ""
  end.

(** The number of records of the collection that refer to the subject
    [sid]. *)
Definition referencing (V : Type) (owner : V -> string) (sid : string)
    (c : JsMap.t V) : Z :=
  Z.of_nat
    (List.length
       (filter (fun v => (owner v =? sid)%string) (JsMap.values c))).

(** Every stored subject counts the records of the collection that refer to
    it. *)
Definition counted (V : Type) (owner : V -> string)
    (counter : Subject.t -> option Z) (subjects : JsMap.t Subject.t)
    (c : JsMap.t V) : Prop :=
  forall sid s,
    JsMap.get sid subjects = Some s ->
    toNumber (counter s) = referencing owner sid c.

(** The three counters of every subject agree with the three collections,
    whose keys are distinct. *)
Definition countersAgree (st : MemStorage.t) : Prop :=
  NoDup (JsMap.keys (MemStorage.notes st))
  /\ NoDup (JsMap.keys (MemStorage.flashcards st))
  /\ NoDup (JsMap.keys (MemStorage.questions st))
  /\ counted Note.subjectId Subject.notesCount
       (MemStorage.subjects st) (MemStorage.notes st)
  /\ counted Flashcard.subjectId Subject.flashcardsCount
       (MemStorage.subjects st) (MemStorage.flashcards st)
  /\ counted Question.subjectId Subject.questionsCount
       (MemStorage.subjects st) (MemStorage.questions st).

(** A call of an operation of [MemStorage] that writes subjects, notes,
    flashcards or questions, with what it draws. *)
Inductive Call :=
| CreateSubject (uuid : string) (now : Z) (data : InsertSubject.t)
| DeleteSubject (id : string)
| CreateNote (uuid : string) (now : Z) (data : InsertNote.t)
| DeleteNote (id : string)
| CreateFlashcard (uuid : string) (data : InsertFlashcard.t)
| UpdateFlashcard (id : string) (data : PartialFlashcard.t) (now : Z)
| DeleteFlashcard (id : string)
| CreateQuestion (uuid : string) (data : InsertQuestion.t)
| DeleteQuestion (id : string).

Definition perform (st : MemStorage.t) (call : Call) : MemStorage.t :=
  match call with
  | CreateSubject uuid now data =>
      fst (MemStorage.createSubject st uuid now data)
  | DeleteSubject id => fst (MemStorage.deleteSubject st id)
  | CreateNote uuid now data => fst (MemStorage.createNote st uuid now data)
  | DeleteNote id => fst (MemStorage.deleteNote st id)
  | CreateFlashcard uuid data => fst (MemStorage.createFlashcard st uuid data)
  | UpdateFlashcard id data now =>
      fst (MemStorage.updateFlashcard st id data now)
  | DeleteFlashcard id => fst (MemStorage.deleteFlashcard st id)
  | CreateQuestion uuid data => fst (MemStorage.createQuestion st uuid data)
  | DeleteQuestion id => fst (MemStorage.deleteQuestion st id)
  end.

(** What a call needs for the counters to stay right: a created record
    draws an identifier that is not in use, a new subject one that no record
    refers to, and an update of a flashcard does not move it to another
    subject. *)
Definition admissible (st : MemStorage.t) (call : Call) : Prop :=
  match call with
  | CreateSubject uuid _ _ =>
      ~ In uuid (JsMap.keys (MemStorage.subjects st))
      /\ referencing Note.subjectId uuid (MemStorage.notes st) = 0
      /\ referencing Flashcard.subjectId uuid (MemStorage.flashcards st) = 0
      /\ referencing Question.subjectId uuid (MemStorage.questions st) = 0
  | CreateNote uuid _ _ => ~ In uuid (JsMap.keys (MemStorage.notes st))
  | CreateFlashcard uuid _ =>
      ~ In uuid (JsMap.keys (MemStorage.flashcards st))
  | CreateQuestion uuid _ =>
      ~ In uuid (JsMap.keys (MemStorage.questions st))
  | UpdateFlashcard _ data _ => PartialFlashcard.subjectId data = None
  | _ => True
  end.

(** The states the store goes through, from the empty one. *)
Inductive reachable : MemStorage.t -> Prop :=
| reachable_empty : reachable MemStorage.empty
| reachable_step (st : MemStorage.t) (call : Call) :
    reachable st -> admissible st call -> reachable (perform st call).

(** What a creation or a deletion does to the map of subjects: the subject
    [sid], when there is one, is replaced by [f] of it. *)
Definition adjust (f : Subject.t -> Subject.t) (sid : string)
    (subjects : JsMap.t Subject.t) : JsMap.t Subject.t :=
  match JsMap.get sid subjects with
  | Some s => JsMap.set sid (f s) subjects
  | None => subjects
  end.

(** ** Concrete stores and replies used in the examples *)
Module Sample.
Definition material : string := "Cells are the basic unit of life.".

Definition card : Groq.json :=
  Groq.JObj [("front", Groq.JStr "What is a cell?");
             ("back", Groq.JStr "The basic unit of life.")].

Definition elevenCards : list Groq.json := repeat card 11.

(** A provider that answers every request with eleven flashcards. *)
Definition elevenCardsClient : Groq.Client :=
  fun _ => Groq.Parsed (Groq.JObj [("flashcards", Groq.JArr elevenCards)]).

(** A provider whose answer is the JSON text [null]. *)
Definition nullClient : Groq.Client := fun _ => Groq.Parsed Groq.JNull.

(** A provider whose answer has no [definitions] and no [fullSummary]. *)
Definition sparseClient : Groq.Client :=
  fun _ =>
    Groq.Parsed
      (Groq.JObj [("keyPoints", Groq.JArr [Groq.JStr "Cells are units."]);
                  ("formulas", Groq.JNull)]).

Definition card5 : Flashcard.t :=
  Flashcard.mk "f1" "s1" None "What is a cell?" "The basic unit of life."
    (Some "medium") None (Some 5).

Definition memWithCard : MemStorage.t :=
  MemStorage.mk [] [] [] [("f1", card5)] [] [].

Definition dbWithCard : DatabaseStorage.t :=
  DatabaseStorage.mk [] [] [] [card5] [] [].

(** The body the flashcards page sends: [{ difficulty: "easy" }]. *)
Definition markEasy : PartialFlashcard.t :=
  PartialFlashcard.mk None None None None None (Some (Some "easy")) None
    None.

Definition task1 : StudyTask.t :=
  StudyTask.mk "t1" "Cell structure" "Biology" "1 hour" high false
    "2025-01-10" None.

Definition task2 : StudyTask.t :=
  StudyTask.mk "t2" "Mitosis" "Biology" "2 hours" medium false
    "2025-01-12" (Some "Morning").

Definition plan1 : StudyPlan.t :=
  StudyPlan.mk "p1" "Biology revision" "Two sessions" "2025-01-10"
    "2025-01-17" [task1; task2] 1000.

Definition memWithPlan : MemStorage.t :=
  MemStorage.mk [] [] [] [] [] [("p1", plan1)].

Definition dbWithPlan : DatabaseStorage.t :=
  DatabaseStorage.mk [] [] [] [] [] [plan1].

(** The body the planner page sends: [{ completed: true }]. *)
Definition markDone : PartialStudyTask.t :=
  PartialStudyTask.mk None None None None None (Some true) None None.

(** The body the planner page sends to open a task again:
    [{ completed: false }]. *)
Definition markOpen : PartialStudyTask.t :=
  PartialStudyTask.mk None None None None None (Some false) None None.

Definition doneTask1 : StudyTask.t :=
  StudyTask.mk "t1" "Cell structure" "Biology" "1 hour" high true
    "2025-01-10" None.

(** The plan "p1" with its first task completed. *)
Definition donePlan : StudyPlan.t :=
  StudyPlan.mk "p1" "Biology revision" "Two sessions" "2025-01-10"
    "2025-01-17" [doneTask1; task2] 1000.

Definition memWithDonePlan : MemStorage.t :=
  MemStorage.mk [] [] [] [] [] [("p1", donePlan)].

Definition task (id date : string) (completed : bool) : StudyTask.t :=
  StudyTask.mk id "Revision" "Biology" "1 hour" medium completed date None.

Definition planA : StudyPlan.t :=
  StudyPlan.mk "pa" "Week one" "First pass" "2025-01-09" "2025-01-20"
    [task "a1" "2025-01-12" true; task "a2" "2025-01-09" false;
     task "a3" "2025-01-15" false; task "a4" "2025-01-11" false;
     task "a5" "2025-01-20" false] 2000.

Definition planB : StudyPlan.t :=
  StudyPlan.mk "pb" "Week two" "Second pass" "2025-01-10" "2025-01-18"
    [task "b1" "2025-01-10" false; task "b2" "2025-01-13" false;
     task "b3" "2025-01-18" false; task "b4" "2025-01-14" false] 3000.

(** Two plans with seven open tasks due on or after 2025-01-10. *)
Definition memDashboard : MemStorage.t :=
  MemStorage.mk [] [] [] [] [] [("pa", planA); ("pb", planB)].

Definition biology : Subject.t :=
  Subject.mk "s1" "Biology" (Some "book") (Some "green") (Some 2) (Some 0)
    (Some 0) (Some 1000).

(** What the client sends to create the subject "Biology". *)
Definition insertBiology : InsertSubject.t :=
  InsertSubject.mk "Biology" (Some "book") (Some "green").

Definition insertNote : InsertNote.t :=
  InsertNote.mk "s1" "Cells" material None None.

(** Three calls of [createNote] for the subject "s1". *)
Definition threeNotes : list (string * Z * InsertNote.t) :=
  [("n3", 2000, insertNote); ("n4", 3000, insertNote);
   ("n5", 4000, insertNote)].

Definition chemistry : Subject.t :=
  Subject.mk "s2" "Chemistry" (Some "flask") (Some "blue") (Some 0) None
    (Some 0) (Some 1000).

Definition memTwoSubjects : MemStorage.t :=
  MemStorage.mk [("s1", biology); ("s2", chemistry)] [] []
    [("f1", card5)] [] [].

Definition dbTwoSubjects : DatabaseStorage.t :=
  DatabaseStorage.mk [biology; chemistry] [] [] [card5] [] [].

(** An insert record for the subject [sid]; [None] leaves the key
    [difficulty] out. *)
Definition insertCard (sid : string) (difficulty : option string)
  : InsertFlashcard.t :=
  InsertFlashcard.mk sid None "What is a cell?" "The basic unit of life."
    (match difficulty with
     | Some d => Present d
     | None => Absent
     end).

(** A reply with a title and two tasks, one of them empty. *)
Definition planClient : Gateway.PlanClient :=
  fun _ =>
    Groq.Parsed
      (Groq.JObj
         [("title", Groq.JStr "Exam week");
          ("tasks",
           Groq.JArr [Groq.JObj [("topic", Groq.JStr "Cells")];
                      Groq.JObj []])]).

(** The identifiers drawn for the tasks of a plan. *)
Definition taskUuid (position : nat) : string :=
  match position with
  | O => "u0"
  | S O => "u1"
  | _ => "u2"
  end.

(** What the study-plan route stores: two tasks with an empty id. *)
Definition insertPlan : InsertStudyPlan.t :=
  InsertStudyPlan.mk "Biology revision" "Two sessions" "2025-01-10"
    "2025-01-17" [task "" "2025-01-10" false; task "" "2025-01-12" false].
End Sample.

(** * Properties *)

Unset Implicit Arguments.

(** ** Lemmas on [JsMap] *)

Lemma get_set_same (V : Type) (k : string) (v : V) (m : JsMap.t V) :
  JsMap.get k (JsMap.set k v m) = Some v.
Proof.
  induction m as [|[k' v'] m IH]; simpl.
  - now rewrite String.eqb_refl.
  - destruct (k =? k')%string eqn:E; simpl.
    + now rewrite String.eqb_refl.
    + now rewrite E.
Qed.

Lemma get_set_other (V : Type) (k k' : string) (v : V) (m : JsMap.t V) :
  k <> k' -> JsMap.get k' (JsMap.set k v m) = JsMap.get k' m.
Proof.
  intros Hne.
  induction m as [|[k0 v0] m IH]; simpl.
  - destruct (k' =? k)%string eqn:E; [|reflexivity].
    apply String.eqb_eq in E. congruence.
  - destruct (k =? k0)%string eqn:E; simpl.
    + apply String.eqb_eq in E. subst k0.
      destruct (k' =? k)%string eqn:E'; [|reflexivity].
      apply String.eqb_eq in E'. congruence.
    + now rewrite IH.
Qed.

Lemma set_get_id (V : Type) (k : string) (v : V) (m : JsMap.t V) :
  JsMap.get k m = Some v -> JsMap.set k v m = m.
Proof.
  induction m as [|[k' v'] m IH]; simpl; [discriminate|].
  destruct (k =? k')%string eqn:E.
  - apply String.eqb_eq in E. subst k'. intros [= ->]. reflexivity.
  - intros H. now rewrite IH.
Qed.

(** ** C1: the flashcard limit *)

(** C1, as stated, fails: asked for 25 flashcards, the gateway returns all
    eleven cards of a reply that holds eleven. *)
Lemma C1_counterexample :
  Groq.generateFlashcards Sample.elevenCardsClient Sample.material 25
  = Groq.Returned (Groq.JArr Sample.elevenCards)
  /\ (10 < Groq.cardCount (Groq.JArr Sample.elevenCards))%nat.
Proof. split; [reflexivity | vm_compute; lia]. Qed.

(** C1, amended: [generateFlashcards] asks the provider for
    [min(count, 10)] flashcards, which is at most 10, over the first 2000
    characters of the content; it returns the [flashcards] list of the parsed
    reply as it is, without truncating it, and the empty list when the reply
    has none.  So it returns at most 10 flashcards exactly when the reply
    holds at most 10. *)
Theorem C1_generateFlashcards_clamps_the_request :
  forall (client : Groq.Client) (content : string) (count : Z),
    Groq.user (Groq.flashcardsRequest content count)
    = Groq.FlashcardsPrompt (Z.min count 10) (substring 0 2000 content)
    /\ Z.min count 10 <= 10
    /\ (forall fields items,
           client (Groq.flashcardsRequest content count)
           = Groq.Parsed (Groq.JObj fields) ->
           Groq.lookup "flashcards" fields = Some (Groq.JArr items) ->
           Groq.generateFlashcards client content count
           = Groq.Returned (Groq.JArr items)
           /\ ((Groq.cardCount (Groq.JArr items) <= 10)%nat
               <-> (List.length items <= 10)%nat))
    /\ (forall fields,
           client (Groq.flashcardsRequest content count)
           = Groq.Parsed (Groq.JObj fields) ->
           Groq.lookup "flashcards" fields = None ->
           Groq.generateFlashcards client content count
           = Groq.Returned (Groq.JArr [])).
Proof.
  intros client content count.
  split; [reflexivity|].
  split; [apply Z.le_min_r|].
  split.
  - intros fields items Hreply Hcards.
    unfold Groq.generateFlashcards, Groq.complete.
    rewrite Hreply. simpl. rewrite Hcards. simpl.
    split; [reflexivity | tauto].
  - intros fields Hreply Hcards.
    unfold Groq.generateFlashcards, Groq.complete.
    rewrite Hreply. simpl. rewrite Hcards. reflexivity.
Qed.

(** ** C6: the fallbacks of [summarizeContent] *)

Lemma or_default_filled (v : option Groq.json) (d : Groq.json) :
  Groq.truthy d = true ->
  filled (Groq.Returned v) d (Groq.or_default v d).
Proof.
  intros Hd.
  assert (Hout : Groq.truthy (Groq.or_default v d) = true).
  { unfold Groq.or_default. destruct v as [j|]; [|exact Hd].
    destruct (Groq.truthy j) eqn:Hj; [exact Hj | exact Hd]. }
  unfold filled. split; [exact Hout|].
  split; [intros H; rewrite H in Hout; discriminate Hout|].
  split; [intros [= ->]; reflexivity|].
  split; intros j [= ->] Hj; simpl; rewrite Hj; reflexivity.
Qed.

Lemma member_not_null (result : Groq.json) (key : string) :
  result <> Groq.JNull -> exists v, Groq.member result key = Groq.Returned v.
Proof.
  destruct result; simpl; intros H; try (eexists; reflexivity).
  congruence.
Qed.

(** C6, as stated, fails: the reply [null] parses, and reading its first
    field throws, so the function returns no result. *)
Lemma C6_counterexample :
  Groq.summarizeContent Sample.nullClient Sample.material "Biology"
  = Groq.Thrown
      "Failed to generate summary: Cannot read properties of null (reading 'keyPoints')".
Proof. reflexivity. Qed.

(** C6, amended: for every parsed reply other than the JSON value [null],
    [summarizeContent] returns a result whose five fields are all populated:
    each of [keyPoints], [definitions], [formulas] and [mainConcepts] is the
    parsed value, or the empty list when that is missing or falsy, and
    [fullSummary] is the parsed value or the text "Summary not available.";
    no field is null. *)
Theorem C6_summarizeContent_fills_every_field :
  forall (client : Groq.Client) (content title : string) (result : Groq.json),
    client (Groq.summaryRequest content title) = Groq.Parsed result ->
    result <> Groq.JNull ->
    exists r,
      Groq.summarizeContent client content title = Groq.Returned r
      /\ filled (Groq.member result "keyPoints") (Groq.JArr [])
           (Groq.keyPoints r)
      /\ filled (Groq.member result "definitions") (Groq.JArr [])
           (Groq.definitions r)
      /\ filled (Groq.member result "formulas") (Groq.JArr [])
           (Groq.formulas r)
      /\ filled (Groq.member result "mainConcepts") (Groq.JArr [])
           (Groq.mainConcepts r)
      /\ filled (Groq.member result "fullSummary")
           (Groq.JStr "Summary not available.") (Groq.fullSummary r).
Proof.
  intros client content title result Hreply Hnull.
  unfold Groq.summarizeContent, Groq.complete. rewrite Hreply.
  destruct (member_not_null result "keyPoints" Hnull) as [kp Hkp].
  destruct (member_not_null result "definitions" Hnull) as [defs Hdefs].
  destruct (member_not_null result "formulas" Hnull) as [fs Hfs].
  destruct (member_not_null result "mainConcepts" Hnull) as [mc Hmc].
  destruct (member_not_null result "fullSummary" Hnull) as [full Hfull].
  cbn [Groq.bind]. rewrite Hkp, Hdefs, Hfs, Hmc, Hfull. cbn [Groq.bind Groq.rethrow].
  eexists. split; [reflexivity|].
  cbn [Groq.keyPoints Groq.definitions Groq.formulas Groq.mainConcepts
       Groq.fullSummary].
  repeat split; apply or_default_filled; reflexivity.
Qed.

(** A reply without [definitions] and [fullSummary], and with a null
    [formulas]. *)
Lemma C6_witness :
  exists r,
    Groq.summarizeContent Sample.sparseClient Sample.material "Biology"
    = Groq.Returned r
    /\ Groq.definitions r = Groq.JArr []
    /\ Groq.formulas r = Groq.JArr []
    /\ Groq.fullSummary r = Groq.JStr "Summary not available.".
Proof.
  destruct (C6_summarizeContent_fills_every_field Sample.sparseClient
              Sample.material "Biology" _ eq_refl)
    as (r & Hr & _ & Hdefs & Hfs & _ & Hfull).
  - discriminate.
  - exists r. split; [exact Hr|].
    destruct Hdefs as (_ & _ & Hd & _).
    destruct Hfs as (_ & _ & _ & Hf & _).
    destruct Hfull as (_ & _ & Hs & _).
    split; [apply Hd; reflexivity|].
    split; [apply (Hf Groq.JNull); reflexivity|].
    apply Hs; reflexivity.
Defined.

(** ** C10: the subject filter "all" *)

(** C10: in both implementations [getFlashcards] and [getQuestions] called
    with the subject "all" return the same list as called without a subject,
    which is the whole collection. *)
Theorem C10_all_means_no_filter :
  (forall st : MemStorage.t,
      MemStorage.getFlashcards st (Some "all")
      = MemStorage.getFlashcards st None
      /\ MemStorage.getFlashcards st None
         = JsMap.values (MemStorage.flashcards st))
  /\ (forall st : MemStorage.t,
         MemStorage.getQuestions st (Some "all")
         = MemStorage.getQuestions st None
         /\ MemStorage.getQuestions st None
            = JsMap.values (MemStorage.questions st))
  /\ (forall db : DatabaseStorage.t,
         DatabaseStorage.getFlashcards db (Some "all")
         = DatabaseStorage.getFlashcards db None
         /\ DatabaseStorage.getFlashcards db None
            = DatabaseStorage.flashcards db)
  /\ (forall db : DatabaseStorage.t,
         DatabaseStorage.getQuestions db (Some "all")
         = DatabaseStorage.getQuestions db None
         /\ DatabaseStorage.getQuestions db None
            = DatabaseStorage.questions db).
Proof.
  repeat split.
Qed.

(** ** C2: the review counter *)

Lemma mem_updateFlashcard_increments (st : MemStorage.t) (id : string)
    (data : PartialFlashcard.t) (now : Z) (f : Flashcard.t) :
  MemStorage.getFlashcard st id = Some f ->
  exists f',
    MemStorage.updateFlashcard st id data now
    = (MemStorage.set_flashcards st
         (JsMap.set id f' (MemStorage.flashcards st)), Some f')
    /\ MemStorage.getFlashcard
         (fst (MemStorage.updateFlashcard st id data now)) id = Some f'
    /\ Flashcard.timesReviewed f'
       = Some (toNumber (Flashcard.timesReviewed f) + 1).
Proof.
  unfold MemStorage.getFlashcard, MemStorage.updateFlashcard.
  intros ->. eexists. split; [reflexivity|].
  split; [apply get_set_same | reflexivity].
Qed.

(** C2 holds in [MemStorage] and fails in [DatabaseStorage]: for a stored
    flashcard reviewed 5 times and the body [{ difficulty: "easy" }], the
    in-memory update stores 6 and the relational update stores 1, since it
    counts from the [timesReviewed] of the request instead of the stored
    one. *)
Theorem C2_database_update_restarts_the_counter :
  (forall (st : MemStorage.t) (id : string) (data : PartialFlashcard.t)
          (now : Z) (f : Flashcard.t),
      MemStorage.getFlashcard st id = Some f ->
      option_map Flashcard.timesReviewed
        (MemStorage.getFlashcard
           (fst (MemStorage.updateFlashcard st id data now)) id)
      = Some (Some (toNumber (Flashcard.timesReviewed f) + 1)))
  /\ option_map Flashcard.timesReviewed
       (MemStorage.getFlashcard
          (fst (MemStorage.updateFlashcard Sample.memWithCard "f1"
                  Sample.markEasy 1700000000000)) "f1")
     = Some (Some 6)
  /\ DatabaseStorage.getFlashcard Sample.dbWithCard "f1" = Some Sample.card5
  /\ Flashcard.timesReviewed Sample.card5 = Some 5
  /\ option_map Flashcard.timesReviewed
       (DatabaseStorage.getFlashcard
          (fst (DatabaseStorage.updateFlashcard Sample.dbWithCard "f1"
                  Sample.markEasy 1700000000000)) "f1")
     = Some (Some 1)
  /\ option_map Flashcard.timesReviewed
       (snd (DatabaseStorage.updateFlashcard Sample.dbWithCard "f1"
               Sample.markEasy 1700000000000))
     = Some (Some 1).
Proof.
  split.
  - intros st id data now f Hf.
    destruct (mem_updateFlashcard_increments st id data now f Hf)
      as (f' & _ & Hget & Hcount).
    rewrite Hget. simpl. now rewrite Hcount.
  - repeat split.
Qed.

(** ** C9 and C7: updating a task of a study plan *)

Lemma map_tasks_no_match (taskId : string) (data : PartialStudyTask.t)
    (tasks : list StudyTask.t) :
  (forall t, In t tasks -> StudyTask.id t <> taskId) ->
  map (fun t =>
         if (StudyTask.id t =? taskId)%string then spreadTask t data else t)
      tasks = tasks.
Proof.
  induction tasks as [|t tasks IH]; simpl; intros H; [reflexivity|].
  destruct (StudyTask.id t =? taskId)%string eqn:E.
  - apply String.eqb_eq in E. exfalso. apply (H t); auto.
  - f_equal. apply IH. intros t' Ht'. apply H. now right.
Qed.

Lemma first_update_returning (R : Type) (p : R -> bool) (f : R -> R)
    (rows : list R) :
  Table.first (Table.update_returning p f rows)
  = option_map f (Table.first (Table.select_where p rows)).
Proof.
  unfold Table.first, Table.update_returning, Table.select_where.
  now destruct (filter p rows).
Qed.

(** When the update keeps what the [where] clause tests, the first matching
    row of the updated table is the update of the first matching row. *)
Lemma first_select_update_where (R : Type) (p : R -> bool) (f : R -> R)
    (rows : list R) :
  (forall r, p (f r) = p r) ->
  Table.first (Table.select_where p (Table.update_where p f rows))
  = option_map f (Table.first (Table.select_where p rows)).
Proof.
  intros Hp.
  unfold Table.first, Table.select_where, Table.update_where.
  induction rows as [|r rows IH]; simpl; [reflexivity|].
  destruct (p r) eqn:E.
  - rewrite Hp, E. reflexivity.
  - rewrite E. exact IH.
Qed.

(** C9: when the plan exists and no task of it has the given id,
    [updateStudyPlanTask] returns the plan, with the same tasks, as a
    present value, in both implementations; the route then answers 200 with
    that plan and not 404.  The in-memory store is left as it was. *)
Theorem C9_unknown_task_answers_200 :
  forall (planId taskId : string) (data : PartialStudyTask.t)
         (plan : StudyPlan.t),
    (forall t, In t (StudyPlan.tasks plan) -> StudyTask.id t <> taskId) ->
    (forall st : MemStorage.t,
        MemStorage.getStudyPlan st planId = Some plan ->
        MemStorage.updateStudyPlanTask st planId taskId data = (st, Some plan)
        /\ Routes.patchStudyPlanTask st planId taskId data
           = (st, Routes.mkResponse 200 (Routes.PlanBody plan)))
    /\ (forall db : DatabaseStorage.t,
           DatabaseStorage.getStudyPlan db planId = Some plan ->
           snd (DatabaseStorage.updateStudyPlanTask db planId taskId data)
           = Some plan
           /\ snd (Routes.patchStudyPlanTask db planId taskId data)
              = Routes.mkResponse 200 (Routes.PlanBody plan)).
Proof.
  intros planId taskId data plan Hno.
  assert (Hplan :
    StudyPlan.mk (StudyPlan.id plan) (StudyPlan.title plan)
      (StudyPlan.description plan) (StudyPlan.startDate plan)
      (StudyPlan.endDate plan)
      (map (fun t =>
              if (StudyTask.id t =? taskId)%string then spreadTask t data
              else t) (StudyPlan.tasks plan))
      (StudyPlan.createdAt plan) = plan).
  { rewrite (map_tasks_no_match taskId data _ Hno). now destruct plan. }
  split.
  - intros st Hget.
    assert (Hupd :
      MemStorage.updateStudyPlanTask st planId taskId data = (st, Some plan)).
    { unfold MemStorage.updateStudyPlanTask.
      unfold MemStorage.getStudyPlan in Hget. rewrite Hget, Hplan.
      rewrite (set_get_id _ _ _ _ Hget). now destruct st. }
    split; [exact Hupd|].
    unfold Routes.patchStudyPlanTask. simpl. now rewrite Hupd.
  - intros db Hget.
    assert (Hupd :
      snd (DatabaseStorage.updateStudyPlanTask db planId taskId data)
      = Some plan).
    { unfold DatabaseStorage.updateStudyPlanTask.
      unfold DatabaseStorage.getStudyPlan in Hget. rewrite Hget.
      cbn [snd]. rewrite first_update_returning, Hget. simpl.
      f_equal. exact Hplan. }
    split; [exact Hupd|].
    unfold Routes.patchStudyPlanTask. simpl.
    destruct (DatabaseStorage.updateStudyPlanTask db planId taskId data)
      as [db' r].
    simpl in Hupd. now rewrite Hupd.
Qed.

(** The plan "p1" has the tasks "t1" and "t2"; the request names "t9". *)
Lemma C9_witness :
  Routes.patchStudyPlanTask Sample.memWithPlan "p1" "t9" Sample.markDone
  = (Sample.memWithPlan,
     Routes.mkResponse 200 (Routes.PlanBody Sample.plan1))
  /\ snd (Routes.patchStudyPlanTask Sample.dbWithPlan "p1" "t9"
            Sample.markDone)
     = Routes.mkResponse 200 (Routes.PlanBody Sample.plan1).
Proof.
  assert (Hno : forall t, In t (StudyPlan.tasks Sample.plan1) ->
                          StudyTask.id t <> "t9").
  { simpl. intros t [<-|[<-|[]]]; discriminate. }
  destruct (C9_unknown_task_answers_200 "p1" "t9" Sample.markDone
              Sample.plan1 Hno) as [Hmem Hdb].
  split.
  - apply (Hmem Sample.memWithPlan). reflexivity.
  - apply (Hdb Sample.dbWithPlan). reflexivity.
Defined.

(** [{ ...t, ...data }] lays the fields of [data] over [t]. *)
Lemma spreadTask_merged (t : StudyTask.t) (data : PartialStudyTask.t) :
  taskMerged t data (spreadTask t data).
Proof.
  destruct data as [i tp sb du pr co da ts].
  unfold taskMerged, spreadTask, spread.
  cbn [PartialStudyTask.id PartialStudyTask.topic PartialStudyTask.subject
       PartialStudyTask.duration PartialStudyTask.priority
       PartialStudyTask.completed PartialStudyTask.date
       PartialStudyTask.timeSlot StudyTask.id StudyTask.topic
       StudyTask.subject StudyTask.duration StudyTask.priority
       StudyTask.completed StudyTask.date StudyTask.timeSlot].
  repeat match goal with
         | |- _ /\ _ => split
         end;
    try (intros v Hv; rewrite Hv; reflexivity);
    intros Hv; rewrite Hv; reflexivity.
Qed.

Lemma updatedTasks_spec (taskId : string) (data : PartialStudyTask.t)
    (plan : StudyPlan.t) :
  taskUpdated taskId data plan
    (StudyPlan.mk (StudyPlan.id plan) (StudyPlan.title plan)
       (StudyPlan.description plan) (StudyPlan.startDate plan)
       (StudyPlan.endDate plan)
       (map (fun t =>
               if (StudyTask.id t =? taskId)%string then spreadTask t data
               else t) (StudyPlan.tasks plan))
       (StudyPlan.createdAt plan)).
Proof.
  unfold taskUpdated. cbn [StudyPlan.id StudyPlan.title StudyPlan.description
    StudyPlan.startDate StudyPlan.endDate StudyPlan.createdAt StudyPlan.tasks].
  repeat (split; [reflexivity|]).
  split; [apply length_map|].
  split; intros i t Hi Hid; rewrite nth_error_map, Hi; simpl.
  - apply String.eqb_eq in Hid. rewrite Hid.
    exists (spreadTask t data). split; [reflexivity|].
    apply spreadTask_merged.
  - apply String.eqb_neq in Hid. now rewrite Hid.
Qed.

(** A [where] clause on another key does not see the update. *)
Lemma select_update_where_other (R : Type) (p q : R -> bool) (f : R -> R)
    (rows : list R) :
  (forall r, p r = true -> q r = false /\ q (f r) = false) ->
  Table.select_where q (Table.update_where p f rows)
  = Table.select_where q rows.
Proof.
  intros H. unfold Table.select_where, Table.update_where.
  induction rows as [|r rows IH]; simpl; [reflexivity|].
  destruct (p r) eqn:E.
  - destruct (H r E) as [-> ->]. exact IH.
  - destruct (q r); now rewrite IH.
Qed.

(** C7: for a stored plan and the id of one of its tasks,
    [updateStudyPlanTask] returns and stores, in both implementations, a plan
    in which every task with that id has, field by field, the value the
    request supplies for the field when it supplies one ([completed: true]
    and [completed: false] alike) and the value it had when the request
    leaves the field out, and in which every other task and the title,
    description, dates and creation time are unchanged; a later fetch of the
    plan shows it, and the other plans are untouched. *)
Theorem C7_updateStudyPlanTask_merges_the_matched_task :
  forall (planId taskId : string) (data : PartialStudyTask.t)
         (plan : StudyPlan.t),
    (exists t, In t (StudyPlan.tasks plan) /\ StudyTask.id t = taskId) ->
    (forall st : MemStorage.t,
        MemStorage.getStudyPlan st planId = Some plan ->
        exists plan',
          snd (MemStorage.updateStudyPlanTask st planId taskId data)
          = Some plan'
          /\ MemStorage.getStudyPlan
               (fst (MemStorage.updateStudyPlanTask st planId taskId data))
               planId = Some plan'
          /\ taskUpdated taskId data plan plan'
          /\ (exists i t t',
                 nth_error (StudyPlan.tasks plan) i = Some t
                 /\ StudyTask.id t = taskId
                 /\ nth_error (StudyPlan.tasks plan') i = Some t'
                 /\ taskMerged t data t'
                 /\ (forall b,
                        PartialStudyTask.completed data = Some b ->
                        StudyTask.completed t' = b))
          /\ (forall other,
                 other <> planId ->
                 MemStorage.getStudyPlan
                   (fst (MemStorage.updateStudyPlanTask st planId taskId
                           data)) other
                 = MemStorage.getStudyPlan st other))
    /\ (forall db : DatabaseStorage.t,
           DatabaseStorage.getStudyPlan db planId = Some plan ->
           exists plan',
             snd (DatabaseStorage.updateStudyPlanTask db planId taskId data)
             = Some plan'
             /\ DatabaseStorage.getStudyPlan
                  (fst (DatabaseStorage.updateStudyPlanTask db planId taskId
                          data)) planId = Some plan'
             /\ taskUpdated taskId data plan plan'
             /\ (exists i t t',
                    nth_error (StudyPlan.tasks plan) i = Some t
                    /\ StudyTask.id t = taskId
                    /\ nth_error (StudyPlan.tasks plan') i = Some t'
                    /\ taskMerged t data t'
                    /\ (forall b,
                           PartialStudyTask.completed data = Some b ->
                           StudyTask.completed t' = b))
             /\ (forall other,
                    other <> planId ->
                    DatabaseStorage.getStudyPlan
                      (fst (DatabaseStorage.updateStudyPlanTask db planId
                              taskId data)) other
                    = DatabaseStorage.getStudyPlan db other)).
Proof.
  intros planId taskId data plan (t0 & Hin & Hid).
  pose proof (updatedTasks_spec taskId data plan) as Hspec.
  set (plan' :=
    StudyPlan.mk (StudyPlan.id plan) (StudyPlan.title plan)
      (StudyPlan.description plan) (StudyPlan.startDate plan)
      (StudyPlan.endDate plan)
      (map (fun t =>
              if (StudyTask.id t =? taskId)%string then spreadTask t data
              else t) (StudyPlan.tasks plan))
      (StudyPlan.createdAt plan)) in *.
  assert (Hmatched : exists i t t',
    nth_error (StudyPlan.tasks plan) i = Some t
    /\ StudyTask.id t = taskId
    /\ nth_error (StudyPlan.tasks plan') i = Some t'
    /\ taskMerged t data t'
    /\ (forall b,
           PartialStudyTask.completed data = Some b ->
           StudyTask.completed t' = b)).
  { destruct (In_nth_error _ _ Hin) as [i Hi].
    destruct Hspec as (_ & _ & _ & _ & _ & _ & _ & Hm & _).
    destruct (Hm i t0 Hi Hid) as (t' & Hi' & Hmerged).
    exists i, t0, t'.
    split; [exact Hi|]. split; [exact Hid|]. split; [exact Hi'|].
    split; [exact Hmerged|].
    destruct Hmerged as (_ & _ & _ & _ & _ & _ & _ & _ & _ & _ & Hc & _).
    exact Hc. }
  split.
  - intros st Hget. exists plan'.
    unfold MemStorage.getStudyPlan in *.
    unfold MemStorage.updateStudyPlanTask. rewrite Hget. fold plan'.
    cbn [fst snd MemStorage.set_studyPlans MemStorage.studyPlans].
    split; [reflexivity|].
    split; [apply get_set_same|].
    split; [exact Hspec|].
    split; [exact Hmatched|].
    intros other Hother. apply get_set_other. congruence.
  - intros db Hget. exists plan'.
    unfold DatabaseStorage.getStudyPlan in *.
    unfold DatabaseStorage.updateStudyPlanTask. rewrite Hget.
    cbn [fst snd DatabaseStorage.studyPlans].
    split; [rewrite first_update_returning, Hget; reflexivity|].
    split; [rewrite first_select_update_where, Hget; reflexivity|].
    split; [exact Hspec|].
    split; [exact Hmatched|].
    intros other Hother. f_equal.
    apply select_update_where_other.
    intros r Hr. cbn [StudyPlan.id].
    apply String.eqb_eq in Hr. rewrite Hr.
    split; apply String.eqb_neq; congruence.
Qed.

(** Marking the task "t1" of the plan "p1" as completed, and marking it as
    open again: the stored task has the flag of the request and its other
    fields as they were; the task "t2" is as it was. *)
Lemma C7_witness :
  (exists plan' t',
      MemStorage.getStudyPlan
        (fst (MemStorage.updateStudyPlanTask Sample.memWithPlan "p1" "t1"
                Sample.markDone)) "p1" = Some plan'
      /\ taskUpdated "t1" Sample.markDone Sample.plan1 plan'
      /\ StudyPlan.tasks plan' = [t'; Sample.task2]
      /\ StudyTask.completed t' = true
      /\ StudyTask.topic t' = "Cell structure")
  /\ (exists plan' t',
         DatabaseStorage.getStudyPlan
           (fst (DatabaseStorage.updateStudyPlanTask Sample.dbWithPlan "p1"
                   "t1" Sample.markDone)) "p1" = Some plan'
         /\ taskUpdated "t1" Sample.markDone Sample.plan1 plan'
         /\ StudyPlan.tasks plan' = [t'; Sample.task2]
         /\ StudyTask.completed t' = true
         /\ StudyTask.topic t' = "Cell structure")
  /\ (exists plan' t',
         MemStorage.getStudyPlan
           (fst (MemStorage.updateStudyPlanTask Sample.memWithDonePlan "p1"
                   "t1" Sample.markOpen)) "p1" = Some plan'
         /\ taskUpdated "t1" Sample.markOpen Sample.donePlan plan'
         /\ StudyPlan.tasks plan' = [t'; Sample.task2]
         /\ StudyTask.completed t' = false).
Proof.
  assert (Hin : exists t, In t (StudyPlan.tasks Sample.plan1)
                          /\ StudyTask.id t = "t1").
  { exists Sample.task1. split; [now left | reflexivity]. }
  destruct (C7_updateStudyPlanTask_merges_the_matched_task "p1" "t1"
              Sample.markDone Sample.plan1 Hin) as [Hmem Hdb].
  assert (Hin' : exists t, In t (StudyPlan.tasks Sample.donePlan)
                           /\ StudyTask.id t = "t1").
  { exists Sample.doneTask1. split; [now left | reflexivity]. }
  destruct (C7_updateStudyPlanTask_merges_the_matched_task "p1" "t1"
              Sample.markOpen Sample.donePlan Hin') as [Hmem' _].
  split; [|split].
  - destruct (Hmem Sample.memWithPlan eq_refl) as (p & _ & Hget & Hupd & _).
    exists p. eexists.
    split; [exact Hget|]. split; [exact Hupd|].
    injection Hget as <-. repeat split.
  - destruct (Hdb Sample.dbWithPlan eq_refl) as (p & _ & Hget & Hupd & _).
    exists p. eexists.
    split; [exact Hget|]. split; [exact Hupd|].
    injection Hget as <-. repeat split.
  - destruct (Hmem' Sample.memWithDonePlan eq_refl)
      as (p & _ & Hget & Hupd & _).
    exists p. eexists.
    split; [exact Hget|]. split; [exact Hupd|].
    injection Hget as <-. repeat split.
Defined.

(** ** Lemmas on [array_sort] *)

Lemma sort_insert_perm (A : Type) (cmp : A -> A -> Z) (x : A) (l : list A) :
  Permutation (x :: l) (sort_insert cmp x l).
Proof.
  induction l as [|y l IH]; simpl; [reflexivity|].
  destruct (cmp x y <=? 0); [reflexivity|].
  rewrite perm_swap. now constructor.
Qed.

Lemma array_sort_perm (A : Type) (cmp : A -> A -> Z) (l : list A) :
  Permutation l (array_sort cmp l).
Proof.
  induction l as [|x l IH]; simpl; [constructor|].
  rewrite <- sort_insert_perm. now constructor.
Qed.

Lemma array_sort_In (A : Type) (cmp : A -> A -> Z) (l : list A) (x : A) :
  In x (array_sort cmp l) <-> In x l.
Proof.
  split; apply Permutation_in;
    [symmetry|]; apply array_sort_perm.
Qed.

(** ** C4: deleting a subject *)

Section DeleteOwned.
Variable V : Type.
Variable subjectId : V -> string.
Variable id : string.

Lemma deleteOwned_loop (es : list (string * V)) :
  forall (acc : JsMap.t V) (k : string) (v : V),
    In (k, v)
      (fold_left
         (fun acc e =>
            if (subjectId (snd e) =? id)%string
            then JsMap.delete (fst e) acc
            else acc)
         es acc) ->
    In (k, v) acc
    /\ (forall e, In e es -> subjectId (snd e) = id -> fst e <> k).
Proof.
  induction es as [|e es IH]; simpl; intros acc k v Hin.
  - split; [exact Hin | intros e []].
  - destruct (IH _ _ _ Hin) as [Hstep Hrest].
    assert (Hacc : In (k, v) acc
                   /\ (subjectId (snd e) = id -> fst e <> k)).
    { destruct (subjectId (snd e) =? id)%string eqn:E.
      - unfold JsMap.delete in Hstep. apply filter_In in Hstep.
        destruct Hstep as [Hk Hneq]. split; [exact Hk|].
        intros _. simpl in Hneq.
        apply negb_true_iff, String.eqb_neq in Hneq. exact Hneq.
      - split; [exact Hstep|].
        apply String.eqb_neq in E. intros; contradiction. }
    destruct Hacc as [Hk He]. split; [exact Hk|].
    intros e' [<-|He'] Hsub; [now apply He | now apply Hrest].
Qed.

(** No entry owned by [id] is left after the loop. *)
Lemma deleteOwned_values (m : JsMap.t V) (v : V) :
  In v (JsMap.values (MemStorage.deleteOwned subjectId id m)) ->
  subjectId v <> id.
Proof.
  unfold JsMap.values. intros Hin.
  apply in_map_iff in Hin. destruct Hin as ([k v'] & Hv & Hin).
  simpl in Hv. subst v'.
  unfold MemStorage.deleteOwned, JsMap.entries in Hin.
  destruct (deleteOwned_loop m m k v Hin) as [Hm Hdel].
  intros Hsub. now apply (Hdel (k, v) Hm Hsub).
Qed.
End DeleteOwned.

Lemma delete_where_In (R : Type) (p : R -> bool) (rows : list R) (r : R) :
  In r (Table.delete_where p rows) -> p r = false.
Proof.
  unfold Table.delete_where. intros H. apply filter_In in H.
  now apply negb_true_iff.
Qed.

(** A filtered query returns rows of the collection only. *)
Lemma filter_incl (A : Type) (p : A -> bool) (l : list A) (x : A) :
  In x (filter p l) -> In x l.
Proof. intros H. now apply filter_In in H. Qed.

(** C4: after [deleteSubject(id)], in both implementations, none of the list
    queries [getNotes], [getSummaries], [getFlashcards] and [getQuestions],
    whatever subject they are asked for, returns a record whose [subjectId]
    is [id]. *)
Theorem C4_deleteSubject_removes_owned_records :
  forall (id : string) (arg : option string),
    (forall st : MemStorage.t,
        let st' := fst (MemStorage.deleteSubject st id) in
        (forall n, In n (MemStorage.getNotes st' arg) ->
                   Note.subjectId n <> id)
        /\ (forall s, In s (MemStorage.getSummaries st' arg) ->
                      Summary.subjectId s <> id)
        /\ (forall f, In f (MemStorage.getFlashcards st' arg) ->
                      Flashcard.subjectId f <> id)
        /\ (forall q, In q (MemStorage.getQuestions st' arg) ->
                      Question.subjectId q <> id)
        /\ MemStorage.getSubject st' id = None)
    /\ (forall db : DatabaseStorage.t,
           let db' := fst (DatabaseStorage.deleteSubject db id) in
           (forall n, In n (DatabaseStorage.getNotes db' arg) ->
                      Note.subjectId n <> id)
           /\ (forall s, In s (DatabaseStorage.getSummaries db' arg) ->
                         Summary.subjectId s <> id)
           /\ (forall f, In f (DatabaseStorage.getFlashcards db' arg) ->
                         Flashcard.subjectId f <> id)
           /\ (forall q, In q (DatabaseStorage.getQuestions db' arg) ->
                         Question.subjectId q <> id)
           /\ DatabaseStorage.getSubject db' id = None).
Proof.
  intros id arg. split.
  - intros st st'. subst st'. simpl.
    repeat split.
    + intros n Hn. apply (deleteOwned_values _ Note.subjectId id (MemStorage.notes st)).
      unfold MemStorage.getNotes in Hn. cbn [MemStorage.notes] in Hn.
      destruct arg as [sid|]; [destruct (truthy_string sid)|];
        try exact Hn; now apply filter_incl in Hn.
    + intros s Hs.
      apply (deleteOwned_values _ Summary.subjectId id
               (MemStorage.summaries st)).
      unfold MemStorage.getSummaries in Hs. cbn [MemStorage.summaries] in Hs.
      destruct arg as [sid|]; [destruct (truthy_string sid)|];
        try (now apply array_sort_In in Hs); now apply filter_incl in Hs.
    + intros f Hf.
      apply (deleteOwned_values _ Flashcard.subjectId id
               (MemStorage.flashcards st)).
      unfold MemStorage.getFlashcards in Hf.
      cbn [MemStorage.flashcards] in Hf.
      destruct arg as [sid|];
        [destruct (truthy_string sid && negb (sid =? "all")%string)|];
        try exact Hf; now apply filter_incl in Hf.
    + intros q Hq.
      apply (deleteOwned_values _ Question.subjectId id
               (MemStorage.questions st)).
      unfold MemStorage.getQuestions in Hq.
      cbn [MemStorage.questions] in Hq.
      destruct arg as [sid|];
        [destruct (truthy_string sid && negb (sid =? "all")%string)|];
        try exact Hq; now apply filter_incl in Hq.
    + unfold MemStorage.getSubject. cbn [MemStorage.subjects].
      unfold JsMap.delete.
      induction (MemStorage.subjects st) as [|[k v] m IH]; simpl;
        [reflexivity|].
      destruct (id =? k)%string eqn:E; simpl; [exact IH|].
      now rewrite E.
  - intros db db'. subst db'. simpl.
    assert (Hsub : forall (R : Type) (sub : R -> string) (rows : list R) r,
      In r (Table.delete_where (fun x => (sub x =? id)%string) rows) ->
      sub r <> id).
    { intros R sub rows r Hr. apply delete_where_In in Hr.
      now apply String.eqb_neq. }
    repeat split.
    + intros n Hn. apply (Hsub _ Note.subjectId (DatabaseStorage.notes db)).
      unfold DatabaseStorage.getNotes in Hn.
      cbn [DatabaseStorage.notes] in Hn.
      destruct arg as [sid|]; [destruct (truthy_string sid)|];
        try exact Hn; now apply filter_incl in Hn.
    + intros s Hs.
      apply (Hsub _ Summary.subjectId (DatabaseStorage.summaries db)).
      unfold DatabaseStorage.getSummaries in Hs.
      cbn [DatabaseStorage.summaries] in Hs.
      destruct arg as [sid|]; [destruct (truthy_string sid)|];
        try (now apply array_sort_In in Hs); now apply filter_incl in Hs.
    + intros f Hf.
      apply (Hsub _ Flashcard.subjectId (DatabaseStorage.flashcards db)).
      unfold DatabaseStorage.getFlashcards in Hf.
      cbn [DatabaseStorage.flashcards] in Hf.
      destruct arg as [sid|];
        [destruct (truthy_string sid && negb (sid =? "all")%string)|];
        try exact Hf; now apply filter_incl in Hf.
    + intros q Hq.
      apply (Hsub _ Question.subjectId (DatabaseStorage.questions db)).
      unfold DatabaseStorage.getQuestions in Hq.
      cbn [DatabaseStorage.questions] in Hq.
      destruct arg as [sid|];
        [destruct (truthy_string sid && negb (sid =? "all")%string)|];
        try exact Hq; now apply filter_incl in Hq.
    + unfold DatabaseStorage.getSubject. cbn [DatabaseStorage.subjects].
      unfold Table.first, Table.select_where, Table.delete_where.
      induction (DatabaseStorage.subjects db) as [|r rows IH]; simpl;
        [reflexivity|].
      destruct (Subject.id r =? id)%string eqn:E; simpl; [exact IH|].
      now rewrite E.
Qed.

(** ** C5: the upcoming tasks of the dashboard *)

(** The sort puts a list in order when the comparator is consistent: any
    two elements compare one way or the other, and transitively. *)
Section SortSorted.
Variable A : Type.
Variable cmp : A -> A -> Z.
Hypothesis cmp_total : forall a b, cmp a b <= 0 \/ cmp b a <= 0.
Hypothesis cmp_trans :
  forall a b c, cmp a b <= 0 -> cmp b c <= 0 -> cmp a c <= 0.

Lemma sort_insert_sorted (x : A) (l : list A) :
  StronglySorted (fun a b => cmp a b <= 0) l ->
  StronglySorted (fun a b => cmp a b <= 0) (sort_insert cmp x l).
Proof.
  induction l as [|y l IH]; simpl; intros Hs.
  - constructor; constructor.
  - apply StronglySorted_inv in Hs. destruct Hs as [Hl Hy].
    destruct (cmp x y <=? 0) eqn:E.
    + apply Z.leb_le in E. constructor.
      * constructor; assumption.
      * constructor; [exact E|].
        eapply Forall_impl; [|exact Hy].
        intros z Hz. now apply (cmp_trans x y z).
    + apply Z.leb_gt in E. constructor; [now apply IH|].
      eapply Permutation_Forall; [apply sort_insert_perm|].
      constructor; [|exact Hy].
      destruct (cmp_total x y); [lia | assumption].
Qed.

Lemma array_sort_sorted (l : list A) :
  StronglySorted (fun a b => cmp a b <= 0) (array_sort cmp l).
Proof.
  induction l as [|x l IH]; simpl; [constructor|].
  now apply sort_insert_sorted.
Qed.
End SortSorted.

Lemma firstn_In (A : Type) (n : nat) (l : list A) (x : A) :
  In x (firstn n l) -> In x l.
Proof.
  revert l. induction n as [|n IH]; intros [|y l]; simpl; try tauto.
  intros [->|H]; [now left | right; now apply IH].
Qed.

Lemma firstn_sorted (A : Type) (R : A -> A -> Prop) (n : nat) (l : list A) :
  StronglySorted R l -> StronglySorted R (firstn n l).
Proof.
  revert l. induction n as [|n IH]; intros [|y l] Hs; simpl;
    try constructor.
  - apply IH. now apply StronglySorted_inv in Hs.
  - apply StronglySorted_inv in Hs. destruct Hs as [_ Hy].
    rewrite Forall_forall in *. intros z Hz. apply Hy.
    now apply firstn_In in Hz.
Qed.

Lemma collectUpcoming_In (today : string) (plans : list StudyPlan.t)
    (t : StudyTask.t) :
  In t (MemStorage.collectUpcoming today plans) ->
  (exists plan, In plan plans /\ In t (StudyPlan.tasks plan))
  /\ StudyTask.completed t = false
  /\ string_ge (StudyTask.date t) today = true.
Proof.
  unfold MemStorage.collectUpcoming. intros H.
  apply in_flat_map in H. destruct H as (plan & Hplan & Ht).
  apply filter_In in Ht. destruct Ht as [Ht Hkeep].
  apply andb_true_iff in Hkeep. destruct Hkeep as [Hc Hd].
  split; [exists plan; now split|].
  split; [now apply negb_true_iff in Hc | exact Hd].
Qed.

Lemma string_ge_leb (a b : string) :
  string_ge a b = true -> (b <=? a)%string = true.
Proof.
  unfold string_ge, String.ltb, String.leb.
  rewrite (String.compare_antisym b a).
  now destruct (a ?= b)%string.
Qed.

(** C5: whatever the store and the date of today, and for a consistent
    collation [localeCompare], the [upcomingTasks] of the dashboard are tasks
    of stored plans that are not completed and whose date is today or later
    in the order of strings, none has a date before today, they are in
    ascending order of date, and there are at most 5 of them. *)
Theorem C5_upcomingTasks_open_due_sorted_capped :
  forall (localeCompare : string -> string -> Z),
    (forall a b, localeCompare a b <= 0 \/ localeCompare b a <= 0) ->
    (forall a b c,
        localeCompare a b <= 0 -> localeCompare b c <= 0 ->
        localeCompare a c <= 0) ->
    forall (today : string) (st : MemStorage.t),
      let upcoming :=
        DashboardStats.upcomingTasks
          (MemStorage.getDashboardStats localeCompare today st) in
      (forall t,
          In t upcoming ->
          (exists plan,
              In plan (JsMap.values (MemStorage.studyPlans st))
              /\ In t (StudyPlan.tasks plan))
          /\ StudyTask.completed t = false
          /\ (today <=? StudyTask.date t)%string = true)
      /\ (forall t,
             In t upcoming -> (StudyTask.date t <? today)%string = false)
      /\ StronglySorted
           (fun a b => localeCompare (StudyTask.date a) (StudyTask.date b) <= 0)
           upcoming
      /\ (List.length upcoming <= 5)%nat.
Proof.
  intros localeCompare Htotal Htrans today st upcoming.
  assert (Hin : forall t, In t upcoming ->
    (exists plan,
        In plan (JsMap.values (MemStorage.studyPlans st))
        /\ In t (StudyPlan.tasks plan))
    /\ StudyTask.completed t = false
    /\ string_ge (StudyTask.date t) today = true).
  { intros t Ht. subst upcoming.
    unfold MemStorage.getDashboardStats in Ht.
    cbn [DashboardStats.upcomingTasks] in Ht. unfold slice0 in Ht.
    apply firstn_In, array_sort_In, collectUpcoming_In in Ht.
    destruct Ht as ((plan & Hplan & Ht) & Hc & Hd).
    split; [|now split].
    exists plan. split; [|exact Ht].
    unfold MemStorage.getStudyPlans in Hplan.
    now apply array_sort_In in Hplan. }
  split.
  - intros t Ht. destruct (Hin t Ht) as (Hplan & Hc & Hd).
    split; [exact Hplan|]. split; [exact Hc|]. now apply string_ge_leb.
  - split.
    + intros t Ht. destruct (Hin t Ht) as (_ & _ & Hd).
      unfold string_ge in Hd. now apply negb_true_iff in Hd.
    + subst upcoming. unfold MemStorage.getDashboardStats.
      cbn [DashboardStats.upcomingTasks]. unfold slice0. split.
      * apply firstn_sorted.
        apply (array_sort_sorted StudyTask.t
                 (fun a b =>
                    localeCompare (StudyTask.date a) (StudyTask.date b))).
        -- intros a b. apply Htotal.
        -- intros a b c. apply Htrans.
      * apply firstn_le_length.
Qed.

(** The code-unit collation is consistent. *)
Lemma string_compare_trans (a b c : string) :
  (a ?= b)%string <> Gt -> (b ?= c)%string <> Gt -> (a ?= c)%string <> Gt.
Proof.
  revert b c.
  induction a as [|x a IH]; intros [|y b] [|z c]; simpl; try congruence.
  unfold Ascii.compare.
  destruct (N.compare_spec (N_of_ascii x) (N_of_ascii y));
    destruct (N.compare_spec (N_of_ascii y) (N_of_ascii z));
    destruct (N.compare_spec (N_of_ascii x) (N_of_ascii z));
    try congruence; try lia.
  apply IH.
Qed.

Lemma codeUnitCompare_le (a b : string) :
  codeUnitCompare a b <= 0 <-> (a ?= b)%string <> Gt.
Proof.
  unfold codeUnitCompare.
  destruct (a ?= b)%string; split; intros H; try lia; try congruence.
Qed.

Lemma codeUnitCompare_total (a b : string) :
  codeUnitCompare a b <= 0 \/ codeUnitCompare b a <= 0.
Proof.
  rewrite !codeUnitCompare_le, (String.compare_antisym a b).
  destruct (b ?= a)%string; simpl; [left | right | left]; congruence.
Qed.

Lemma codeUnitCompare_trans (a b c : string) :
  codeUnitCompare a b <= 0 -> codeUnitCompare b c <= 0 ->
  codeUnitCompare a c <= 0.
Proof. rewrite !codeUnitCompare_le. apply string_compare_trans. Qed.

(** Seven open tasks are due from 2025-01-10 on; the dashboard shows the
    five earliest, in order. *)
Lemma C5_witness :
  map StudyTask.date
    (DashboardStats.upcomingTasks
       (MemStorage.getDashboardStats codeUnitCompare "2025-01-10"
          Sample.memDashboard))
  = ["2025-01-10"; "2025-01-11"; "2025-01-13"; "2025-01-14"; "2025-01-15"]
  /\ StronglySorted
       (fun a b =>
          codeUnitCompare (StudyTask.date a) (StudyTask.date b) <= 0)
       (DashboardStats.upcomingTasks
          (MemStorage.getDashboardStats codeUnitCompare "2025-01-10"
             Sample.memDashboard)).
Proof.
  split; [reflexivity|].
  apply (C5_upcomingTasks_open_due_sorted_capped codeUnitCompare
           codeUnitCompare_total codeUnitCompare_trans "2025-01-10"
           Sample.memDashboard).
Defined.

(** ** C3: the note counter of a subject *)

Lemma get_delete_other (V : Type) (k k' : string) (m : JsMap.t V) :
  k <> k' -> JsMap.get k' (JsMap.delete k m) = JsMap.get k' m.
Proof.
  intros Hne. unfold JsMap.delete.
  induction m as [|[k0 v0] m IH]; simpl; [reflexivity|].
  destruct (k =? k0)%string eqn:E; simpl.
  - apply String.eqb_eq in E. subst k0.
    destruct (k' =? k)%string eqn:E'; [|exact IH].
    apply String.eqb_eq in E'. congruence.
  - now rewrite IH.
Qed.

(** One [createNote] for an existing subject adds one to its counter. *)
Lemma createNote_count (st : MemStorage.t) (uuid : string) (now : Z)
    (data : InsertNote.t) (subject : Subject.t) :
  MemStorage.getSubject st (InsertNote.subjectId data) = Some subject ->
  exists subject',
    MemStorage.getSubject (fst (MemStorage.createNote st uuid now data))
      (InsertNote.subjectId data) = Some subject'
    /\ Subject.notesCount subject'
       = Some (toNumber (Subject.notesCount subject) + 1).
Proof.
  unfold MemStorage.getSubject, MemStorage.createNote. intros H.
  cbn [MemStorage.subjects MemStorage.set_notes]. rewrite H.
  cbn [fst MemStorage.set_subjects MemStorage.subjects].
  eexists. split; [apply get_set_same | reflexivity].
Qed.

Lemma createNote_owned (sid : string) (st : MemStorage.t) (uuid : string)
    (now : Z) (data : InsertNote.t) (id : string) :
  InsertNote.subjectId data = sid ->
  ownedNote sid st id \/ id = uuid ->
  ownedNote sid (fst (MemStorage.createNote st uuid now data)) id.
Proof.
  intros Hsid Hid. unfold ownedNote, MemStorage.getNote.
  assert (Hnotes :
    MemStorage.notes (fst (MemStorage.createNote st uuid now data))
    = JsMap.set uuid
        (Note.mk uuid (InsertNote.subjectId data) (InsertNote.title data)
           (InsertNote.content data)
           (Some (or_string (InsertNote.fileType data) "text"))
           (InsertNote.fileName data) now) (MemStorage.notes st)).
  { unfold MemStorage.createNote.
    cbn [MemStorage.subjects MemStorage.set_notes].
    now destruct (JsMap.get (InsertNote.subjectId data)
                    (MemStorage.subjects st)). }
  rewrite Hnotes.
  destruct (string_dec uuid id) as [->|Hne].
  - eexists. split; [apply get_set_same | exact Hsid].
  - destruct Hid as [(note & Hget & Hown)|Heq]; [|congruence].
    exists note. split; [|exact Hown].
    rewrite get_set_other by exact Hne. exact Hget.
Qed.

(** One [deleteNote] of a stored note of an existing subject takes one from
    its counter, but not below zero. *)
Lemma deleteNote_count (st : MemStorage.t) (id : string) (note : Note.t)
    (subject : Subject.t) :
  MemStorage.getNote st id = Some note ->
  MemStorage.getSubject st (Note.subjectId note) = Some subject ->
  exists subject',
    MemStorage.getSubject (fst (MemStorage.deleteNote st id))
      (Note.subjectId note) = Some subject'
    /\ Subject.notesCount subject'
       = Some (Z.max 0 (toNumber (Subject.notesCount subject) - 1)).
Proof.
  unfold MemStorage.getNote, MemStorage.getSubject, MemStorage.deleteNote.
  intros Hn Hs. rewrite Hn, Hs.
  cbn [fst MemStorage.set_notes MemStorage.set_subjects MemStorage.subjects].
  eexists. split; [apply get_set_same | reflexivity].
Qed.

Lemma deleteNote_owned (sid : string) (st : MemStorage.t) (id id' : string) :
  id <> id' ->
  ownedNote sid st id' ->
  ownedNote sid (fst (MemStorage.deleteNote st id)) id'.
Proof.
  intros Hne (note & Hget & Hown). exists note. split; [|exact Hown].
  unfold MemStorage.getNote in *. unfold MemStorage.deleteNote.
  cbn [fst MemStorage.set_notes MemStorage.notes].
  rewrite get_delete_other by exact Hne.
  destruct (JsMap.get id (MemStorage.notes st)) as [n|]; [|exact Hget].
  now destruct (JsMap.get (Note.subjectId n) (MemStorage.subjects st)).
Qed.

Lemma createNotesInTurn_spec (sid : string)
    (calls : list (string * Z * InsertNote.t)) :
  (forall c, In c calls -> InsertNote.subjectId (snd c) = sid) ->
  forall (st : MemStorage.t) (subject : Subject.t),
    MemStorage.getSubject st sid = Some subject ->
    (exists subject',
        MemStorage.getSubject (createNotesInTurn st calls) sid = Some subject'
        /\ toNumber (Subject.notesCount subject')
           = toNumber (Subject.notesCount subject)
             + Z.of_nat (List.length calls))
    /\ (forall id,
           ownedNote sid st id \/ In id (map (fun c => fst (fst c)) calls) ->
           ownedNote sid (createNotesInTurn st calls) id).
Proof.
  unfold createNotesInTurn.
  induction calls as [|[[uuid now] data] calls IH]; intros Hall st subject Hs.
  - simpl. split; [exists subject; split; [exact Hs | lia]|].
    intros id [H|[]]. exact H.
  - assert (Hd : InsertNote.subjectId data = sid)
      by (apply (Hall (uuid, now, data)); now left).
    cbn [fold_left fst snd].
    rewrite <- Hd in Hs.
    destruct (createNote_count st uuid now data subject Hs)
      as (s1 & Hs1 & Hc1).
    rewrite Hd in Hs1.
    destruct (IH (fun c Hc => Hall c (or_intror Hc)) _ s1 Hs1)
      as [(s2 & Hs2 & Hc2) Hown].
    split.
    + exists s2. split; [exact Hs2|].
      rewrite Hc2, Hc1. cbn [toNumber List.length]. lia.
    + intros id Hid. apply Hown.
      destruct Hid as [Hid|[Hid|Hid]].
      * left. apply createNote_owned; [exact Hd | now left].
      * left. apply createNote_owned; [exact Hd | right; now symmetry].
      * now right.
Qed.

Lemma deleteNotesInTurn_spec (sid : string) (ids : list string) :
  NoDup ids ->
  forall (st : MemStorage.t) (subject : Subject.t),
    MemStorage.getSubject st sid = Some subject ->
    Z.of_nat (List.length ids) <= toNumber (Subject.notesCount subject) ->
    (forall id, In id ids -> ownedNote sid st id) ->
    exists subject',
      MemStorage.getSubject (deleteNotesInTurn st ids) sid = Some subject'
      /\ toNumber (Subject.notesCount subject')
         = toNumber (Subject.notesCount subject)
           - Z.of_nat (List.length ids).
Proof.
  unfold deleteNotesInTurn.
  induction ids as [|id ids IH]; intros Hnd st subject Hs Hlen Hown.
  - simpl. exists subject. split; [exact Hs | lia].
  - inversion Hnd as [|? ? Hnotin Hnd']; subst.
    destruct (Hown id (or_introl eq_refl)) as (note & Hn & Hsid).
    cbn [fold_left].
    rewrite <- Hsid in Hs.
    destruct (deleteNote_count st id note subject Hn Hs) as (s1 & Hs1 & Hc1).
    rewrite Hsid in Hs1.
    cbn [List.length] in Hlen.
    assert (Hc1' : toNumber (Subject.notesCount s1)
                   = toNumber (Subject.notesCount subject) - 1).
    { rewrite Hc1. cbn [toNumber]. lia. }
    destruct (IH Hnd' _ s1 Hs1) as (s2 & Hs2 & Hc2).
    + lia.
    + intros id' Hid'. apply deleteNote_owned.
      * intros ->. contradiction.
      * apply Hown. now right.
    + exists s2. split; [exact Hs2|].
      rewrite Hc2, Hc1'. cbn [List.length]. lia.
Qed.

(** For an existing subject whose counter is not negative, after N notes
    created for it in turn and then M distinct ones of them deleted in turn,
    the counter is its value before plus N - M. *)
Lemma notesCount_after_creates_and_deletes (st : MemStorage.t) (sid : string)
    (subject : Subject.t) (calls : list (string * Z * InsertNote.t))
    (ids : list string) :
  MemStorage.getSubject st sid = Some subject ->
  0 <= toNumber (Subject.notesCount subject) ->
  (forall c, In c calls -> InsertNote.subjectId (snd c) = sid) ->
  NoDup ids ->
  incl ids (map (fun c => fst (fst c)) calls) ->
  (List.length ids <= List.length calls)%nat
  /\ exists subject',
       MemStorage.getSubject
         (deleteNotesInTurn (createNotesInTurn st calls) ids) sid
       = Some subject'
       /\ toNumber (Subject.notesCount subject')
          = toNumber (Subject.notesCount subject)
            + Z.of_nat (List.length calls) - Z.of_nat (List.length ids).
Proof.
  intros Hs Hk Hall Hnd Hincl.
  assert (Hlen : (List.length ids <= List.length calls)%nat).
  { rewrite <- (length_map (fun c => fst (fst c)) calls).
    now apply NoDup_incl_length. }
  split; [exact Hlen|].
  destruct (createNotesInTurn_spec sid calls Hall st subject Hs)
    as [(s1 & Hs1 & Hc1) Hown].
  destruct (deleteNotesInTurn_spec sid ids Hnd _ s1 Hs1)
    as (s2 & Hs2 & Hc2).
  - rewrite Hc1. lia.
  - intros id Hid. apply Hown. right. now apply Hincl.
  - exists s2. split; [exact Hs2|]. rewrite Hc2, Hc1. lia.
Qed.

(** A counter that is a number stays a number: [createNote] and
    [deleteNote] write numbers only. *)
Lemma createNote_count_known (sid : string) (st : MemStorage.t)
    (uuid : string) (now : Z) (data : InsertNote.t) :
  (exists s n,
      MemStorage.getSubject st sid = Some s
      /\ Subject.notesCount s = Some n) ->
  exists s n,
    MemStorage.getSubject (fst (MemStorage.createNote st uuid now data)) sid
    = Some s
    /\ Subject.notesCount s = Some n.
Proof.
  intros (s & n & Hs & Hn).
  unfold MemStorage.getSubject in *. unfold MemStorage.createNote.
  cbn [MemStorage.subjects MemStorage.set_notes fst].
  destruct (JsMap.get (InsertNote.subjectId data) (MemStorage.subjects st))
    as [subject|] eqn:E;
    cbn [MemStorage.set_subjects MemStorage.subjects];
    [|exists s, n; split; assumption].
  destruct (string_dec (InsertNote.subjectId data) sid) as [Heq|Hne].
  - rewrite Heq. rewrite get_set_same. eexists. eexists.
    split; reflexivity.
  - rewrite get_set_other by exact Hne. exists s, n. split; assumption.
Qed.

Lemma deleteNote_count_known (sid : string) (st : MemStorage.t)
    (id : string) :
  (exists s n,
      MemStorage.getSubject st sid = Some s
      /\ Subject.notesCount s = Some n) ->
  exists s n,
    MemStorage.getSubject (fst (MemStorage.deleteNote st id)) sid = Some s
    /\ Subject.notesCount s = Some n.
Proof.
  intros (s & n & Hs & Hn).
  unfold MemStorage.getSubject in *. unfold MemStorage.deleteNote.
  cbn [fst].
  destruct (JsMap.get id (MemStorage.notes st)) as [note|];
    cbn [MemStorage.set_notes MemStorage.subjects];
    [|exists s, n; split; assumption].
  destruct (JsMap.get (Note.subjectId note) (MemStorage.subjects st))
    as [subject|] eqn:E;
    cbn [MemStorage.set_subjects MemStorage.subjects];
    [|exists s, n; split; assumption].
  destruct (string_dec (Note.subjectId note) sid) as [Heq|Hne].
  - rewrite Heq. rewrite get_set_same. eexists. eexists.
    split; reflexivity.
  - rewrite get_set_other by exact Hne. exists s, n. split; assumption.
Qed.

Lemma notesInTurn_count_known (sid : string)
    (calls : list (string * Z * InsertNote.t)) (ids : list string)
    (st : MemStorage.t) :
  (exists s n,
      MemStorage.getSubject st sid = Some s
      /\ Subject.notesCount s = Some n) ->
  exists s n,
    MemStorage.getSubject
      (deleteNotesInTurn (createNotesInTurn st calls) ids) sid = Some s
    /\ Subject.notesCount s = Some n.
Proof.
  intros H.
  assert (Hc : exists s n,
    MemStorage.getSubject (createNotesInTurn st calls) sid = Some s
    /\ Subject.notesCount s = Some n).
  { unfold createNotesInTurn. revert st H.
    induction calls as [|c calls IH]; intros st H; [exact H|].
    cbn [fold_left]. apply IH. now apply createNote_count_known. }
  unfold deleteNotesInTurn. revert Hc.
  generalize (createNotesInTurn st calls).
  induction ids as [|id ids IH]; intros st' H'; [exact H'|].
  cbn [fold_left]. apply IH. now apply deleteNote_count_known.
Qed.

(** C3: a subject is created, then N notes are created for it in turn, then
    M distinct ones of these notes are deleted in turn, with nothing in
    between: the subject is stored and its [notesCount] is N - M.  On the
    way, each [createNote] for a stored subject adds one to its counter and
    each [deleteNote] of a stored note of a stored subject takes one from
    it, floored at zero. *)
Theorem C3_notesCount_is_created_minus_deleted :
  forall (st : MemStorage.t) (uuid : string) (now : Z)
         (data : InsertSubject.t)
         (calls : list (string * Z * InsertNote.t)) (ids : list string),
    (forall c, In c calls -> InsertNote.subjectId (snd c) = uuid) ->
    NoDup ids ->
    incl ids (map (fun c => fst (fst c)) calls) ->
    (List.length ids <= List.length calls)%nat
    /\ (exists subject',
          MemStorage.getSubject
            (deleteNotesInTurn
               (createNotesInTurn
                  (fst (MemStorage.createSubject st uuid now data)) calls)
               ids) uuid
          = Some subject'
          /\ Subject.notesCount subject'
             = Some (Z.of_nat (List.length calls)
                     - Z.of_nat (List.length ids)))
    /\ (forall st0 uuid0 now0 data0 s,
           MemStorage.getSubject st0 (InsertNote.subjectId data0) = Some s ->
           exists s',
             MemStorage.getSubject
               (fst (MemStorage.createNote st0 uuid0 now0 data0))
               (InsertNote.subjectId data0) = Some s'
             /\ Subject.notesCount s'
                = Some (toNumber (Subject.notesCount s) + 1))
    /\ (forall st0 id note s,
           MemStorage.getNote st0 id = Some note ->
           MemStorage.getSubject st0 (Note.subjectId note) = Some s ->
           exists s',
             MemStorage.getSubject (fst (MemStorage.deleteNote st0 id))
               (Note.subjectId note) = Some s'
             /\ Subject.notesCount s'
                = Some (Z.max 0 (toNumber (Subject.notesCount s) - 1))).
Proof.
  intros st uuid now data calls ids Hall Hnd Hincl.
  set (st0 := fst (MemStorage.createSubject st uuid now data)).
  set (subject := snd (MemStorage.createSubject st uuid now data)).
  assert (Hs : MemStorage.getSubject st0 uuid = Some subject)
    by apply get_set_same.
  assert (Hzero : Subject.notesCount subject = Some 0) by reflexivity.
  destruct (notesCount_after_creates_and_deletes st0 uuid subject calls ids
              Hs ltac:(rewrite Hzero; cbn; lia) Hall Hnd Hincl)
    as (Hlen & s2 & Hs2 & Hc2).
  split; [exact Hlen|].
  split; [|split; [exact createNote_count | exact deleteNote_count]].
  exists s2. split; [exact Hs2|].
  destruct (notesInTurn_count_known uuid calls ids st0) as (s & n & Hs' & Hn).
  { exists subject, 0. split; assumption. }
  rewrite Hs2 in Hs'. injection Hs' as <-.
  rewrite Hn in Hc2 |- *. rewrite Hzero in Hc2. cbn [toNumber] in Hc2.
  f_equal. lia.
Qed.

(** The subject "Biology" is created, three notes are created for it and
    two of those deleted: the counter is 3 - 2. *)
Lemma C3_witness :
  exists subject',
    MemStorage.getSubject
      (deleteNotesInTurn
         (createNotesInTurn
            (fst (MemStorage.createSubject MemStorage.empty "s1" 1000
                    Sample.insertBiology))
            Sample.threeNotes)
         ["n5"; "n3"]) "s1" = Some subject'
    /\ Subject.notesCount subject' = Some 1.
Proof.
  destruct (C3_notesCount_is_created_minus_deleted MemStorage.empty "s1" 1000
              Sample.insertBiology Sample.threeNotes ["n5"; "n3"])
    as (_ & (s & Hs & Hc) & _).
  - simpl. intros c [<-|[<-|[<-|[]]]]; reflexivity.
  - repeat constructor; simpl; intuition discriminate.
  - intros id. simpl. intuition.
  - exists s. split; [exact Hs | exact Hc].
Defined.

(** ** C8: creating a batch of flashcards *)

Lemma or_zero_toNumber (x : option Z) : or_zero x = toNumber x.
Proof.
  destruct x as [z|]; simpl; [|reflexivity].
  destruct (z =? 0) eqn:E; [|reflexivity].
  apply Z.eqb_eq in E. now subst.
Qed.

Lemma addCount_add (a b : Z) (s : Subject.t) :
  0 <= a -> 0 <= b -> addCount b (addCount a s) = addCount (a + b) s.
Proof.
  intros Ha Hb. unfold addCount.
  destruct (a =? 0) eqn:Ea.
  - apply Z.eqb_eq in Ea. subst a. reflexivity.
  - destruct (b =? 0) eqn:Eb.
    + apply Z.eqb_eq in Eb. subst b. now rewrite Z.add_0_r, Ea.
    + apply Z.eqb_neq in Ea, Eb.
      assert (E : (a + b =? 0) = false) by (apply Z.eqb_neq; lia).
      rewrite E. cbn. do 2 f_equal. lia.
Qed.

Lemma occurrences_nonneg (k : string) (sids : list string) :
  0 <= occurrences k sids.
Proof. unfold occurrences. lia. Qed.

Lemma occurrences_cons (k x : string) (sids : list string) :
  occurrences k (x :: sids)
  = (if (x =? k)%string then 1 else 0) + occurrences k sids.
Proof.
  unfold occurrences. simpl.
  destruct (x =? k)%string; simpl List.length; lia.
Qed.

Lemma occurrences_notin (k : string) (sids : list string) :
  ~ In k sids -> occurrences k sids = 0.
Proof.
  induction sids as [|x sids IH]; intros H; [reflexivity|].
  rewrite occurrences_cons, IH by (intros H'; apply H; now right).
  destruct (x =? k)%string eqn:E; [|reflexivity].
  apply String.eqb_eq in E. exfalso. apply H. now left.
Qed.

Lemma occurrences_in (k : string) (sids : list string) :
  In k sids -> 0 < occurrences k sids.
Proof.
  induction sids as [|x sids IH]; intros H; [destruct H|].
  rewrite occurrences_cons.
  pose proof (occurrences_nonneg k sids).
  destruct (x =? k)%string eqn:E; [lia|].
  apply String.eqb_neq in E. destruct H as [H|H]; [congruence|].
  specialize (IH H). lia.
Qed.

Lemma map_fixed (A : Type) (f : A -> A) (l : list A) :
  (forall x, In x l -> f x = x) -> map f l = l.
Proof.
  intros H. rewrite <- (map_id l) at 2. now apply map_ext_in.
Qed.

Lemma get_In (V : Type) (k : string) (v : V) (m : JsMap.t V) :
  JsMap.get k m = Some v -> In (k, v) m.
Proof.
  induction m as [|[k' v'] m IH]; simpl; [discriminate|].
  destruct (k =? k')%string eqn:E.
  - apply String.eqb_eq in E. intros [= ->]. left. now subst.
  - intros H. right. now apply IH.
Qed.

Lemma set_fresh (V : Type) (k : string) (v : V) (m : JsMap.t V) :
  ~ In k (JsMap.keys m) -> JsMap.set k v m = m ++ [(k, v)].
Proof.
  induction m as [|[k' v'] m IH]; simpl; intros H; [reflexivity|].
  destruct (k =? k')%string eqn:E.
  - apply String.eqb_eq in E. exfalso. apply H. now left.
  - rewrite IH; [reflexivity|]. intros H'. apply H. now right.
Qed.

Lemma uniq_In (l : list string) (x : string) : In x (uniq l) <-> In x l.
Proof.
  induction l as [|y l IH]; simpl; [tauto|].
  rewrite filter_In, IH, negb_true_iff, String.eqb_neq.
  destruct (string_dec y x) as [->|Hne]; [tauto|].
  split; [tauto|]. intros [H|H]; [congruence|]. right. split; congruence.
Qed.

Lemma uniq_NoDup (l : list string) : NoDup (uniq l).
Proof.
  induction l as [|y l IH]; simpl; constructor.
  - rewrite filter_In, negb_true_iff, String.eqb_neq. tauto.
  - now apply NoDup_filter.
Qed.

(** An update that moves the rows it writes, read back with the [where]
    clause of the update and with a clause on another key. *)
Lemma select_update_where_moved_same (R : Type) (p : R -> bool) (f : R -> R)
    (rows : list R) :
  (forall r, p r = true -> p (f r) = true) ->
  Table.select_where p (Table.update_where_moved p f rows)
  = map f (Table.select_where p rows).
Proof.
  intros Hf. unfold Table.select_where, Table.update_where_moved.
  rewrite filter_app.
  assert (H1 : filter p (filter (fun r => negb (p r)) rows) = []).
  { induction rows as [|r rows IH]; simpl; [reflexivity|].
    destruct (p r) eqn:E; simpl; [exact IH|]. now rewrite E. }
  assert (H2 : forall l,
    (forall r, In r l -> p r = true) -> filter p (map f l) = map f l).
  { induction l as [|r l IH]; intros Hl; simpl; [reflexivity|].
    rewrite Hf by (apply Hl; now left).
    f_equal. apply IH. intros r' Hr'. apply Hl. now right. }
  rewrite H1, H2; [reflexivity|].
  intros r Hr. apply filter_In in Hr. tauto.
Qed.

Lemma select_update_where_moved_other (R : Type) (p q : R -> bool)
    (f : R -> R) (rows : list R) :
  (forall r, p r = true -> q r = false /\ q (f r) = false) ->
  Table.select_where q (Table.update_where_moved p f rows)
  = Table.select_where q rows.
Proof.
  intros H. unfold Table.select_where, Table.update_where_moved.
  rewrite filter_app.
  assert (H1 : filter q (filter (fun r => negb (p r)) rows) = filter q rows).
  { induction rows as [|r rows IH]; simpl; [reflexivity|].
    destruct (p r) eqn:E; simpl.
    - destruct (H r E) as [-> _]. exact IH.
    - destruct (q r); now rewrite IH. }
  assert (H2 : filter q (map f (filter p rows)) = []).
  { clear H1. induction rows as [|r rows IH]; simpl; [reflexivity|].
    destruct (p r) eqn:E; simpl; [|exact IH].
    destruct (H r E) as [_ ->]. exact IH. }
  now rewrite H1, H2, app_nil_r.
Qed.

(** One turn of the loop of the relational [createFlashcards], for a
    subject the batch refers to, as a lookup of a subject sees it. *)
Lemma getSubject_bumpFlashcardsCount (items : list InsertFlashcard.t)
    (rows : list Subject.t) (subId sid : string) :
  In subId (map InsertFlashcard.subjectId items) ->
  Table.first
    (Table.select_where (fun s => (Subject.id s =? sid)%string)
       (DatabaseStorage.bumpFlashcardsCount items rows subId))
  = if (sid =? subId)%string
    then option_map
           (addCount
              (occurrences subId (map InsertFlashcard.subjectId items)))
           (Table.first
              (Table.select_where (fun s => (Subject.id s =? subId)%string)
                 rows))
    else Table.first
           (Table.select_where (fun s => (Subject.id s =? sid)%string) rows).
Proof.
  intros Hin.
  assert (Hcount :
    Z.of_nat
      (List.length
         (filter (fun f => (InsertFlashcard.subjectId f =? subId)%string)
            items))
    = occurrences subId (map InsertFlashcard.subjectId items)).
  { unfold occurrences. f_equal. clear.
    induction items as [|f items IH]; simpl; [reflexivity|].
    destruct (InsertFlashcard.subjectId f =? subId)%string; simpl;
      now rewrite IH. }
  pose proof (occurrences_in _ _ Hin) as Hpos.
  unfold DatabaseStorage.bumpFlashcardsCount. rewrite Hcount.
  set (c := occurrences subId (map InsertFlashcard.subjectId items)) in *.
  destruct (Table.first
              (Table.select_where
                 (fun s => (Subject.id s =? subId)%string) rows))
    as [subject|] eqn:Hfirst.
  - destruct (sid =? subId)%string eqn:E.
    + apply String.eqb_eq in E. subst sid.
      rewrite select_update_where_moved_same by (intros r Hr; exact Hr).
      unfold Table.first in *.
      destruct (Table.select_where
                  (fun s => (Subject.id s =? subId)%string) rows)
        as [|r l]; [discriminate|].
      cbn [hd_error] in Hfirst. injection Hfirst as ->.
      cbn [map hd_error option_map]. f_equal. unfold addCount.
      assert (Hc : (c =? 0) = false) by (apply Z.eqb_neq; lia).
      now rewrite Hc, or_zero_toNumber.
    + rewrite select_update_where_moved_other; [reflexivity|].
      intros r Hr. cbn [Subject.id].
      apply String.eqb_eq in Hr. apply String.eqb_neq in E.
      rewrite Hr. split; apply String.eqb_neq; congruence.
  - destruct (sid =? subId)%string eqn:E; [|reflexivity].
    apply String.eqb_eq in E. subst sid. now rewrite Hfirst.
Qed.

Lemma getSubject_fold_bumpFlashcardsCount (items : list InsertFlashcard.t)
    (subIds : list string) :
  NoDup subIds ->
  (forall x, In x subIds -> In x (map InsertFlashcard.subjectId items)) ->
  forall (rows : list Subject.t) (sid : string),
    Table.first
      (Table.select_where (fun s => (Subject.id s =? sid)%string)
         (fold_left (DatabaseStorage.bumpFlashcardsCount items) subIds rows))
    = option_map
        (addCount
           (if existsb (fun x => (sid =? x)%string) subIds
            then occurrences sid (map InsertFlashcard.subjectId items)
            else 0))
        (Table.first
           (Table.select_where (fun s => (Subject.id s =? sid)%string)
              rows)).
Proof.
  induction subIds as [|x subIds IH]; intros Hnd Hsub rows sid;
    cbn [fold_left existsb].
  - now destruct (Table.first _).
  - inversion Hnd as [|? ? Hnotin Hnd']; subst.
    rewrite IH; [|exact Hnd' | intros y Hy; apply Hsub; now right].
    rewrite getSubject_bumpFlashcardsCount by (apply Hsub; now left).
    destruct (sid =? x)%string eqn:E; cbn [orb]; [|reflexivity].
    apply String.eqb_eq in E. subst sid.
    assert (Hnot : existsb (fun y => (x =? y)%string) subIds = false).
    { apply not_true_is_false. intros Hex.
      apply existsb_exists in Hex. destruct Hex as (y & Hy & Hxy).
      apply String.eqb_eq in Hxy. apply Hnotin. congruence. }
    rewrite Hnot.
    now destruct (Table.first _).
Qed.

(** The relational loop over the distinct subjects of the batch adds to
    every subject the number of records of the batch that refer to it. *)
Lemma db_getSubject_after_batch (items : list InsertFlashcard.t)
    (rows : list Subject.t) (sid : string) :
  Table.first
    (Table.select_where (fun s => (Subject.id s =? sid)%string)
       (fold_left (DatabaseStorage.bumpFlashcardsCount items)
          (uniq (map InsertFlashcard.subjectId items)) rows))
  = option_map
      (addCount (occurrences sid (map InsertFlashcard.subjectId items)))
      (Table.first
         (Table.select_where (fun s => (Subject.id s =? sid)%string) rows)).
Proof.
  rewrite getSubject_fold_bumpFlashcardsCount;
    [|apply uniq_NoDup | intros x; apply uniq_In].
  destruct (existsb (fun x => (sid =? x)%string)
              (uniq (map InsertFlashcard.subjectId items))) eqn:E;
    [reflexivity|].
  rewrite occurrences_notin; [reflexivity|].
  intros Hin. apply uniq_In in Hin.
  assert (Hex : existsb (fun x => (sid =? x)%string)
                  (uniq (map InsertFlashcard.subjectId items)) = true).
  { apply existsb_exists. exists sid.
    split; [exact Hin | apply String.eqb_refl]. }
  congruence.
Qed.

(** The in-memory loop, one [createFlashcard] after the other, does the
    same to every subject. *)
Lemma get_memBump (m : JsMap.t Subject.t) (x sid : string) :
  JsMap.get sid (memBump m x)
  = if (sid =? x)%string
    then option_map (addCount 1) (JsMap.get x m)
    else JsMap.get sid m.
Proof.
  unfold memBump. destruct (sid =? x)%string eqn:E.
  - apply String.eqb_eq in E. subst sid.
    destruct (JsMap.get x m) as [s|] eqn:G; [apply get_set_same | exact G].
  - apply String.eqb_neq in E.
    destruct (JsMap.get x m) as [s|]; [|reflexivity].
    apply get_set_other. congruence.
Qed.

Lemma get_fold_memBump (sids : list string) :
  forall (m : JsMap.t Subject.t) (sid : string),
    JsMap.get sid (fold_left memBump sids m)
    = option_map (addCount (occurrences sid sids)) (JsMap.get sid m).
Proof.
  induction sids as [|x sids IH]; intros m sid; cbn [fold_left].
  - now destruct (JsMap.get sid m).
  - rewrite IH, get_memBump, occurrences_cons.
    destruct (sid =? x)%string eqn:E.
    + apply String.eqb_eq in E. subst sid. rewrite String.eqb_refl.
      destruct (JsMap.get x m) as [s|]; [|reflexivity].
      cbn [option_map]. f_equal.
      apply addCount_add; [lia | apply occurrences_nonneg].
    + rewrite String.eqb_sym, E. reflexivity.
Qed.

(** [createFlashcards] of [MemStorage], collection by collection. *)
Lemma mem_createFlashcards_unfold (batch : list (string * InsertFlashcard.t)) :
  forall st : MemStorage.t,
    MemStorage.createFlashcards st batch
    = (MemStorage.mk
         (fold_left memBump
            (map (fun e => InsertFlashcard.subjectId (snd e)) batch)
            (MemStorage.subjects st))
         (MemStorage.notes st) (MemStorage.summaries st)
         (fold_left
            (fun acc e => JsMap.set (fst e) (memCard (fst e) (snd e)) acc)
            batch (MemStorage.flashcards st))
         (MemStorage.questions st) (MemStorage.studyPlans st),
       map (fun e => memCard (fst e) (snd e)) batch).
Proof.
  induction batch as [|[uuid item] batch IH]; intros st.
  - simpl. now destruct st.
  - cbn [MemStorage.createFlashcards].
    assert (Hone :
      MemStorage.createFlashcard st uuid item
      = (MemStorage.mk
           (memBump (MemStorage.subjects st) (InsertFlashcard.subjectId item))
           (MemStorage.notes st) (MemStorage.summaries st)
           (JsMap.set uuid (memCard uuid item) (MemStorage.flashcards st))
           (MemStorage.questions st) (MemStorage.studyPlans st),
         memCard uuid item)).
    { unfold MemStorage.createFlashcard, memBump, memCard.
      cbn [MemStorage.set_flashcards MemStorage.subjects].
      destruct (JsMap.get (InsertFlashcard.subjectId item)
                  (MemStorage.subjects st)); reflexivity. }
    rewrite Hone, IH. reflexivity.
Qed.

(** For a difficulty that is left out or is a string that is not empty,
    the two implementations build the same record. *)
Lemma memCard_row (uuid : string) (item : InsertFlashcard.t) :
  plainDifficulty item ->
  memCard uuid item = DatabaseStorage.flashcardRow uuid item.
Proof.
  intros Hd. unfold memCard, DatabaseStorage.flashcardRow. cbn.
  do 2 f_equal. unfold plainDifficulty in Hd.
  destruct (InsertFlashcard.difficulty item) as [| |d];
    [reflexivity | contradiction |].
  unfold or_present, truthy_string.
  destruct (d =? "")%string eqn:E; [|reflexivity].
  apply String.eqb_eq in E. congruence.
Qed.

Lemma addCount_count (n : Z) (s : Subject.t) :
  toNumber (Subject.flashcardsCount (addCount n s))
  = toNumber (Subject.flashcardsCount s) + n.
Proof.
  unfold addCount. destruct (n =? 0) eqn:E; [|reflexivity].
  apply Z.eqb_eq in E. lia.
Qed.

(** C8: the in-memory [createFlashcards] (one record at a time) and the
    relational one (all records, then one counter update per distinct
    subject) are meant to do the same, and do not.
    - For the empty batch the in-memory path returns the empty list and the
      relational path throws, with the store as it was.
    - For a record whose difficulty is [null] the in-memory path stores
      "medium" and the relational path stores NULL; for one whose difficulty
      is the empty string the in-memory path stores "medium" and the
      relational path the empty string.
    - For a batch with a record whose [subjectId] or [summaryId] is not in
      the syntax of a uuid the in-memory path stores and returns every
      record and the relational path throws, with the store as it was.
    Where they do agree: for a batch that is not empty and that the database
    accepts, from stores with the same subjects, both leave stores with the
    same subjects, in which every stored subject has its [flashcardsCount]
    increased by the number of records of the batch that refer to it; and
    when every difficulty is left out or is a string that is not empty, both
    return the same records. *)
Theorem C8_createFlashcards_paths_differ :
  forall uuidSyntax : string -> bool,
    (forall (st : MemStorage.t) (db : DatabaseStorage.t),
        MemStorage.createFlashcards st [] = (st, [])
        /\ DatabaseStorage.createFlashcards uuidSyntax db []
           = (db, Throws "values() must be called with at least one value"))
    /\ (MemStorage.createFlashcards Sample.memTwoSubjects []
        = (Sample.memTwoSubjects, [])
        /\ DatabaseStorage.createFlashcards uuidSyntax Sample.dbTwoSubjects []
           = (Sample.dbTwoSubjects,
              Throws "values() must be called with at least one value"))
    /\ (forall (st : MemStorage.t) (db : DatabaseStorage.t) (uuid : string)
               (item : InsertFlashcard.t),
           InsertFlashcard.difficulty item = Null ->
           DatabaseStorage.uuidValues uuidSyntax item = true ->
           (exists card,
               snd (MemStorage.createFlashcards st [(uuid, item)]) = [card]
               /\ Flashcard.difficulty card = Some "medium")
           /\ (exists row,
                  snd (DatabaseStorage.createFlashcards uuidSyntax db
                         [(uuid, item)])
                  = Ok [row]
                  /\ Flashcard.difficulty row = None))
    /\ (forall (st : MemStorage.t) (db : DatabaseStorage.t) (uuid : string)
               (item : InsertFlashcard.t),
           InsertFlashcard.difficulty item = Present "" ->
           DatabaseStorage.uuidValues uuidSyntax item = true ->
           (exists card,
               snd (MemStorage.createFlashcards st [(uuid, item)]) = [card]
               /\ Flashcard.difficulty card = Some "medium")
           /\ (exists row,
                  snd (DatabaseStorage.createFlashcards uuidSyntax db
                         [(uuid, item)])
                  = Ok [row]
                  /\ Flashcard.difficulty row = Some ""))
    /\ (forall (st : MemStorage.t) (db : DatabaseStorage.t)
               (batch : list (string * InsertFlashcard.t)),
           batch <> [] ->
           forallb (fun e => DatabaseStorage.uuidValues uuidSyntax (snd e))
             batch = false ->
           List.length (snd (MemStorage.createFlashcards st batch))
           = List.length batch
           /\ DatabaseStorage.createFlashcards uuidSyntax db batch
              = (db, Throws "invalid input syntax for type uuid"))
    /\ (forall (st : MemStorage.t) (db : DatabaseStorage.t)
               (batch : list (string * InsertFlashcard.t)),
           batch <> [] ->
           forallb (fun e => DatabaseStorage.uuidValues uuidSyntax (snd e))
             batch = true ->
           sameSubjects st db ->
           sameSubjects (fst (MemStorage.createFlashcards st batch))
             (fst (DatabaseStorage.createFlashcards uuidSyntax db batch))
           /\ (forall sid subject,
                  MemStorage.getSubject st sid = Some subject ->
                  exists subject',
                    MemStorage.getSubject
                      (fst (MemStorage.createFlashcards st batch)) sid
                    = Some subject'
                    /\ DatabaseStorage.getSubject
                         (fst (DatabaseStorage.createFlashcards uuidSyntax db
                                 batch)) sid
                       = Some subject'
                    /\ toNumber (Subject.flashcardsCount subject')
                       = toNumber (Subject.flashcardsCount subject)
                         + occurrences sid
                             (map
                                (fun e => InsertFlashcard.subjectId (snd e))
                                batch)))
    /\ (forall (st : MemStorage.t) (db : DatabaseStorage.t)
               (batch : list (string * InsertFlashcard.t)),
           batch <> [] ->
           forallb (fun e => DatabaseStorage.uuidValues uuidSyntax (snd e))
             batch = true ->
           (forall e, In e batch -> plainDifficulty (snd e)) ->
           snd (DatabaseStorage.createFlashcards uuidSyntax db batch)
           = Ok (snd (MemStorage.createFlashcards st batch))).
Proof.
  intros uuidSyntax.
  assert (Hmem : forall st batch sid,
    MemStorage.getSubject (fst (MemStorage.createFlashcards st batch)) sid
    = option_map
        (addCount
           (occurrences sid
              (map (fun e => InsertFlashcard.subjectId (snd e)) batch)))
        (MemStorage.getSubject st sid)).
  { intros st batch sid. rewrite mem_createFlashcards_unfold.
    unfold MemStorage.getSubject. cbn [fst MemStorage.subjects].
    apply get_fold_memBump. }
  assert (Hrel : forall db batch sid,
    batch <> [] ->
    forallb (fun e => DatabaseStorage.uuidValues uuidSyntax (snd e)) batch
    = true ->
    DatabaseStorage.getSubject
      (fst (DatabaseStorage.createFlashcards uuidSyntax db batch)) sid
    = option_map
        (addCount
           (occurrences sid
              (map (fun e => InsertFlashcard.subjectId (snd e)) batch)))
        (DatabaseStorage.getSubject db sid)).
  { intros db batch sid Hne Hok.
    unfold DatabaseStorage.getSubject, DatabaseStorage.createFlashcards.
    destruct batch as [|e batch]; [congruence|]. rewrite Hok.
    cbn [fst DatabaseStorage.subjects].
    rewrite db_getSubject_after_batch. now rewrite map_map. }
  assert (Hone : forall (uuid : string) (item : InsertFlashcard.t),
    DatabaseStorage.uuidValues uuidSyntax item = true ->
    forall db,
      snd (DatabaseStorage.createFlashcards uuidSyntax db [(uuid, item)])
      = Ok [DatabaseStorage.flashcardRow uuid item]).
  { intros uuid item Hok db. unfold DatabaseStorage.createFlashcards.
    cbn [forallb snd]. now rewrite Hok. }
  split; [intros st db; split; reflexivity|].
  split; [split; reflexivity|].
  split.
  { intros st db uuid item Hd Hok. split.
    - exists (memCard uuid item).
      rewrite mem_createFlashcards_unfold. split; [reflexivity|].
      unfold memCard. cbn. now rewrite Hd.
    - exists (DatabaseStorage.flashcardRow uuid item).
      split; [now apply Hone|].
      unfold DatabaseStorage.flashcardRow. cbn. now rewrite Hd. }
  split.
  { intros st db uuid item Hd Hok. split.
    - exists (memCard uuid item).
      rewrite mem_createFlashcards_unfold. split; [reflexivity|].
      unfold memCard. cbn. now rewrite Hd.
    - exists (DatabaseStorage.flashcardRow uuid item).
      split; [now apply Hone|].
      unfold DatabaseStorage.flashcardRow. cbn. now rewrite Hd. }
  split.
  { intros st db batch Hne Hbad. split.
    - rewrite mem_createFlashcards_unfold. cbn [snd]. apply length_map.
    - unfold DatabaseStorage.createFlashcards.
      destruct batch as [|e batch]; [congruence|]. now rewrite Hbad. }
  split.
  { intros st db batch Hne Hok Hsame. split.
    - intros sid. rewrite Hmem, Hrel by assumption. now rewrite Hsame.
    - intros sid subject Hget.
      exists (addCount
                (occurrences sid
                   (map (fun e => InsertFlashcard.subjectId (snd e)) batch))
                subject).
      split; [now rewrite Hmem, Hget|].
      split; [|apply addCount_count].
      rewrite Hrel by assumption. now rewrite <- Hsame, Hget. }
  intros st db batch Hne Hok Hplain.
  rewrite mem_createFlashcards_unfold. cbn [snd].
  unfold DatabaseStorage.createFlashcards.
  destruct batch as [|e batch]; [congruence|]. rewrite Hok.
  cbn [snd]. f_equal. symmetry.
  apply map_ext_in. intros e' He'. apply memCard_row. now apply Hplain.
Qed.

(** * Further properties of the storage and of the gateway *)

(** ** More on [JsMap] *)

Lemma get_None_notin (V : Type) (k : string) (m : JsMap.t V) :
  JsMap.get k m = None -> ~ In k (JsMap.keys m).
Proof.
  induction m as [|[k' v'] m IH]; simpl; [tauto|].
  destruct (k =? k')%string eqn:E; [discriminate|].
  apply String.eqb_neq in E. intros H [Hk|Hk]; [congruence|].
  now apply IH.
Qed.

Lemma delete_notin (V : Type) (k : string) (m : JsMap.t V) :
  ~ In k (JsMap.keys m) -> JsMap.delete k m = m.
Proof.
  unfold JsMap.delete.
  induction m as [|[k' v'] m IH]; simpl; intros H; [reflexivity|].
  destruct (k =? k')%string eqn:E; simpl.
  - apply String.eqb_eq in E. exfalso. apply H. now left.
  - rewrite IH; [reflexivity|]. intros Hk. apply H. now right.
Qed.

Lemma keys_filter_NoDup (V : Type) (p : string * V -> bool)
    (m : JsMap.t V) :
  NoDup (JsMap.keys m) -> NoDup (JsMap.keys (filter p m)).
Proof.
  unfold JsMap.keys.
  induction m as [|e m IH]; simpl; intros Hnd; [constructor|].
  inversion Hnd as [|? ? Hnotin Hnd']; subst.
  destruct (p e); simpl; [|now apply IH].
  constructor; [|now apply IH].
  intros Hin. apply Hnotin. apply in_map_iff in Hin.
  destruct Hin as (e' & He' & Hin). apply filter_In in Hin.
  rewrite <- He'. apply in_map. tauto.
Qed.

Lemma keys_set_fresh (V : Type) (k : string) (v : V) (m : JsMap.t V) :
  ~ In k (JsMap.keys m) -> JsMap.keys (JsMap.set k v m) = JsMap.keys m ++ [k].
Proof.
  intros H. rewrite set_fresh by exact H.
  unfold JsMap.keys. now rewrite map_app.
Qed.

Lemma keys_set_present (V : Type) (k : string) (v v' : V) (m : JsMap.t V) :
  JsMap.get k m = Some v -> JsMap.keys (JsMap.set k v' m) = JsMap.keys m.
Proof.
  unfold JsMap.keys.
  induction m as [|[k0 v0] m IH]; simpl; [discriminate|].
  destruct (k =? k0)%string eqn:E; simpl.
  - apply String.eqb_eq in E. now subst.
  - intros H. now rewrite IH.
Qed.

Lemma keys_set_NoDup (V : Type) (k : string) (v : V) (m : JsMap.t V) :
  NoDup (JsMap.keys m) -> NoDup (JsMap.keys (JsMap.set k v m)).
Proof.
  intros Hnd. destruct (JsMap.get k m) as [v0|] eqn:E.
  - now rewrite (keys_set_present V k v0 v m E).
  - apply get_None_notin in E. rewrite keys_set_fresh by exact E.
    apply NoDup_app; [exact Hnd | repeat constructor; intros [] |].
    intros a Ha [<-|[]]. contradiction.
Qed.

Lemma set_set (V : Type) (k : string) (v v' : V) (m : JsMap.t V) :
  JsMap.set k v (JsMap.set k v' m) = JsMap.set k v m.
Proof.
  induction m as [|[k0 v0] m IH]; simpl.
  - now rewrite String.eqb_refl.
  - destruct (k =? k0)%string eqn:E; simpl.
    + now rewrite String.eqb_refl.
    + now rewrite E, IH.
Qed.

Lemma delete_set_fresh (V : Type) (k : string) (v : V) (m : JsMap.t V) :
  ~ In k (JsMap.keys m) -> JsMap.delete k (JsMap.set k v m) = m.
Proof.
  intros H. rewrite set_fresh by exact H.
  unfold JsMap.delete. rewrite filter_app. simpl.
  rewrite String.eqb_refl. simpl. rewrite app_nil_r.
  now apply delete_notin.
Qed.

Lemma get_delete_same (V : Type) (k : string) (m : JsMap.t V) :
  JsMap.get k (JsMap.delete k m) = None.
Proof.
  unfold JsMap.delete.
  induction m as [|[k0 v0] m IH]; simpl; [reflexivity|].
  destruct (k =? k0)%string eqn:E; simpl; [exact IH|].
  now rewrite E.
Qed.

Lemma get_adjust (f : Subject.t -> Subject.t) (sid sid' : string)
    (subjects : JsMap.t Subject.t) :
  JsMap.get sid' (adjust f sid subjects)
  = if (sid' =? sid)%string
    then option_map f (JsMap.get sid subjects)
    else JsMap.get sid' subjects.
Proof.
  unfold adjust.
  destruct (sid' =? sid)%string eqn:E.
  - apply String.eqb_eq in E. subst sid'.
    destruct (JsMap.get sid subjects) as [s|] eqn:Hs; simpl.
    + apply get_set_same.
    + exact Hs.
  - apply String.eqb_neq in E.
    destruct (JsMap.get sid subjects) as [s|]; [|reflexivity].
    apply get_set_other. congruence.
Qed.

(** ** The counters and the collections *)

Section Counted.
Variable V : Type.
Variable owner : V -> string.
Variable counter : Subject.t -> option Z.

Lemma referencing_cons (sid k : string) (v : V) (c : JsMap.t V) :
  referencing owner sid ((k, v) :: c)
  = (if (owner v =? sid)%string then 1 else 0) + referencing owner sid c.
Proof.
  unfold referencing. simpl.
  destruct (owner v =? sid)%string; simpl List.length; lia.
Qed.

Lemma referencing_nonneg (sid : string) (c : JsMap.t V) :
  0 <= referencing owner sid c.
Proof. unfold referencing. lia. Qed.

Lemma referencing_set_fresh (sid k : string) (v : V) (c : JsMap.t V) :
  ~ In k (JsMap.keys c) ->
  referencing owner sid (JsMap.set k v c)
  = referencing owner sid c + (if (owner v =? sid)%string then 1 else 0).
Proof.
  intros H. rewrite set_fresh by exact H.
  induction c as [|[k0 v0] c IH]; simpl app.
  - rewrite referencing_cons. unfold referencing. simpl. lia.
  - rewrite !referencing_cons, IH; [lia|].
    intros Hk. apply H. now right.
Qed.

Lemma referencing_set_present (sid k : string) (v v' : V) (c : JsMap.t V) :
  JsMap.get k c = Some v ->
  owner v' = owner v ->
  referencing owner sid (JsMap.set k v' c) = referencing owner sid c.
Proof.
  intros Hget Hown.
  induction c as [|[k0 v0] c IH]; simpl in *; [discriminate|].
  destruct (k =? k0)%string eqn:E.
  - injection Hget as ->. now rewrite !referencing_cons, Hown.
  - rewrite !referencing_cons, IH; [reflexivity | exact Hget].
Qed.

Lemma referencing_delete (sid k : string) (v : V) (c : JsMap.t V) :
  NoDup (JsMap.keys c) ->
  JsMap.get k c = Some v ->
  referencing owner sid (JsMap.delete k c)
  = referencing owner sid c - (if (owner v =? sid)%string then 1 else 0).
Proof.
  induction c as [|[k0 v0] c IH]; simpl; intros Hnd Hget; [discriminate|].
  inversion Hnd as [|? ? Hnotin Hnd']; subst.
  unfold JsMap.delete in *. simpl.
  destruct (k =? k0)%string eqn:E; simpl.
  - injection Hget as ->. apply String.eqb_eq in E. subst k0.
    fold (JsMap.delete k c). rewrite delete_notin by exact Hnotin.
    rewrite referencing_cons. lia.
  - rewrite !referencing_cons, IH; [lia | exact Hnd' | exact Hget].
Qed.

(** A record inserted under a fresh key, and its subject counted up. *)
Lemma counted_create (f : Subject.t -> Subject.t) (uuid : string) (v : V)
    (subjects : JsMap.t Subject.t) (c : JsMap.t V) :
  (forall s, toNumber (counter (f s)) = toNumber (counter s) + 1) ->
  ~ In uuid (JsMap.keys c) ->
  counted owner counter subjects c ->
  counted owner counter (adjust f (owner v) subjects) (JsMap.set uuid v c).
Proof.
  intros Hf Hfresh Hc sid s Hget.
  rewrite get_adjust in Hget.
  rewrite referencing_set_fresh by exact Hfresh.
  destruct (sid =? owner v)%string eqn:E.
  - apply String.eqb_eq in E. subst sid. rewrite String.eqb_refl.
    destruct (JsMap.get (owner v) subjects) as [s0|] eqn:Hs0;
      [|discriminate].
    injection Hget as <-. rewrite Hf, (Hc _ _ Hs0). reflexivity.
  - rewrite String.eqb_sym, E, Z.add_0_r. now apply Hc.
Qed.

(** A stored record deleted, and its subject counted down, not below
    zero. *)
Lemma counted_delete (f : Subject.t -> Subject.t) (id : string) (v : V)
    (subjects : JsMap.t Subject.t) (c : JsMap.t V) :
  (forall s, counter (f s) = Some (Z.max 0 (toNumber (counter s) - 1))) ->
  NoDup (JsMap.keys c) ->
  JsMap.get id c = Some v ->
  counted owner counter subjects c ->
  counted owner counter (adjust f (owner v) subjects) (JsMap.delete id c).
Proof.
  intros Hf Hnd Hv Hc sid s Hget.
  rewrite get_adjust in Hget.
  rewrite (referencing_delete sid id v c Hnd Hv).
  pose proof (referencing_nonneg sid (JsMap.delete id c)) as Hpos.
  rewrite (referencing_delete sid id v c Hnd Hv) in Hpos.
  destruct (sid =? owner v)%string eqn:E.
  - apply String.eqb_eq in E. subst sid. rewrite String.eqb_refl in *.
    destruct (JsMap.get (owner v) subjects) as [s0|] eqn:Hs0;
      [|discriminate].
    injection Hget as <-. rewrite Hf. cbn [toNumber].
    rewrite (Hc _ _ Hs0). lia.
  - rewrite String.eqb_sym, E, Z.sub_0_r. now apply Hc.
Qed.

(** A change of a subject that keeps the counter. *)
Lemma counted_adjust (f : Subject.t -> Subject.t) (sid : string)
    (subjects : JsMap.t Subject.t) (c : JsMap.t V) :
  (forall s, counter (f s) = counter s) ->
  counted owner counter subjects c ->
  counted owner counter (adjust f sid subjects) c.
Proof.
  intros Hf Hc sid' s Hget. rewrite get_adjust in Hget.
  destruct (sid' =? sid)%string eqn:E; [|now apply Hc].
  apply String.eqb_eq in E. subst sid'.
  destruct (JsMap.get sid subjects) as [s0|] eqn:Hs0; [|discriminate].
  injection Hget as <-. rewrite Hf. now apply Hc.
Qed.

(** A new subject that no record refers to, with a counter at zero. *)
Lemma counted_createSubject (uuid : string) (s0 : Subject.t)
    (subjects : JsMap.t Subject.t) (c : JsMap.t V) :
  toNumber (counter s0) = 0 ->
  referencing owner uuid c = 0 ->
  counted owner counter subjects c ->
  counted owner counter (JsMap.set uuid s0 subjects) c.
Proof.
  intros H0 Href Hc sid s Hget.
  destruct (string_dec uuid sid) as [<-|Hne].
  - rewrite get_set_same in Hget. injection Hget as <-. congruence.
  - rewrite get_set_other in Hget by exact Hne. now apply Hc.
Qed.
End Counted.

Lemma filter_filter_and (A : Type) (p q : A -> bool) (l : list A) :
  filter p (filter q l) = filter (fun x => q x && p x) l.
Proof.
  induction l as [|x l IH]; simpl; [reflexivity|].
  destruct (q x); simpl; [|exact IH].
  destruct (p x); now rewrite IH.
Qed.

Lemma filter_all (A : Type) (p : A -> bool) (l : list A) :
  (forall x, In x l -> p x = true) -> filter p l = l.
Proof.
  induction l as [|x l IH]; simpl; intros H; [reflexivity|].
  rewrite (H x (or_introl eq_refl)). f_equal.
  apply IH. intros y Hy. apply H. now right.
Qed.

Lemma entry_by_key (V : Type) (m : JsMap.t V) (e e' : string * V) :
  NoDup (JsMap.keys m) -> In e m -> In e' m -> fst e = fst e' -> e = e'.
Proof.
  unfold JsMap.keys.
  induction m as [|x m IH]; simpl; intros Hnd He He' Hk; [tauto|].
  inversion Hnd as [|? ? Hnotin Hnd']; subst.
  destruct He as [->|He], He' as [->|He'].
  - reflexivity.
  - exfalso. apply Hnotin. rewrite Hk. now apply in_map.
  - exfalso. apply Hnotin. rewrite <- Hk. now apply in_map.
  - now apply IH.
Qed.

Section Cascade.
Variable V : Type.
Variable owner : V -> string.
Variable id : string.

Lemma deleteOwned_fold (es : list (string * V)) :
  forall acc : JsMap.t V,
    fold_left
      (fun acc e =>
         if (owner (snd e) =? id)%string then JsMap.delete (fst e) acc
         else acc)
      es acc
    = filter
        (fun e' =>
           negb
             (existsb
                (fun e =>
                   (owner (snd e) =? id)%string && (fst e =? fst e')%string)
                es))
        acc.
Proof.
  induction es as [|e es IH]; intros acc; simpl.
  - symmetry. now apply filter_all.
  - rewrite IH. destruct (owner (snd e) =? id)%string; simpl.
    + unfold JsMap.delete. rewrite filter_filter_and.
      apply filter_ext. intros e'. now rewrite negb_orb.
    + reflexivity.
Qed.

(** With distinct keys, the loop of [deleteSubject] removes the entries
    owned by [id] and no other. *)
Lemma deleteOwned_filter (m : JsMap.t V) :
  NoDup (JsMap.keys m) ->
  MemStorage.deleteOwned owner id m
  = filter (fun e => negb (owner (snd e) =? id)%string) m.
Proof.
  intros Hnd. unfold MemStorage.deleteOwned, JsMap.entries.
  rewrite deleteOwned_fold. apply filter_ext_in. intros e' He'. f_equal.
  destruct (owner (snd e') =? id)%string eqn:E.
  - apply existsb_exists. exists e'. split; [exact He'|].
    now rewrite E, String.eqb_refl.
  - apply not_true_is_false. intros Hex. apply existsb_exists in Hex.
    destruct Hex as (e & He & Hboth). apply andb_true_iff in Hboth.
    destruct Hboth as [Hown Hkey]. apply String.eqb_eq in Hkey.
    rewrite (entry_by_key V m e e' Hnd He He' Hkey) in Hown. congruence.
Qed.

(** The records of the other subjects, in their order. *)
Lemma deleteOwned_others (sid : string) (m : JsMap.t V) :
  NoDup (JsMap.keys m) ->
  sid <> id ->
  filter (fun v => (owner v =? sid)%string)
    (JsMap.values (MemStorage.deleteOwned owner id m))
  = filter (fun v => (owner v =? sid)%string) (JsMap.values m).
Proof.
  intros Hnd Hne. rewrite deleteOwned_filter by exact Hnd.
  unfold JsMap.values. clear Hnd.
  induction m as [|[k v] m IH]; simpl; [reflexivity|].
  destruct (owner v =? id)%string eqn:E; simpl.
  - apply String.eqb_eq in E.
    destruct (owner v =? sid)%string eqn:E'; [|exact IH].
    apply String.eqb_eq in E'. congruence.
  - destruct (owner v =? sid)%string; now rewrite IH.
Qed.

Lemma counted_deleteSubject (counter : Subject.t -> option Z)
    (subjects : JsMap.t Subject.t) (c : JsMap.t V) :
  NoDup (JsMap.keys c) ->
  counted owner counter subjects c ->
  counted owner counter (JsMap.delete id subjects)
    (MemStorage.deleteOwned owner id c).
Proof.
  intros Hnd Hc sid s Hget.
  destruct (string_dec id sid) as [<-|Hne].
  - now rewrite get_delete_same in Hget.
  - rewrite get_delete_other in Hget by exact Hne.
    unfold referencing. rewrite deleteOwned_others by congruence.
    now apply Hc.
Qed.
End Cascade.

Lemma counted_update (V : Type) (owner : V -> string)
    (counter : Subject.t -> option Z) (id : string) (v v' : V)
    (subjects : JsMap.t Subject.t) (c : JsMap.t V) :
  JsMap.get id c = Some v ->
  owner v' = owner v ->
  counted owner counter subjects c ->
  counted owner counter subjects (JsMap.set id v' c).
Proof.
  intros Hget Hown Hc sid s Hs.
  rewrite (referencing_set_present V owner sid id v v' c Hget Hown).
  now apply Hc.
Qed.

(** ** Deleting what is not stored *)

Lemma delete_missing (V : Type) (k : string) (m : JsMap.t V) :
  JsMap.get k m = None -> JsMap.delete k m = m /\ JsMap.has k m = false.
Proof.
  intros H. split.
  - now apply delete_notin, get_None_notin.
  - unfold JsMap.has. now rewrite H.
Qed.

(** X1: in [MemStorage], deleting a note, a summary, a flashcard, a question
    or a study plan under an id that is not stored returns [false] and
    leaves the whole store, the counters of the subjects included, as it
    was. *)
Theorem X1_delete_of_a_missing_id_changes_nothing :
  forall (st : MemStorage.t) (id : string),
    (MemStorage.getNote st id = None ->
     MemStorage.deleteNote st id = (st, false))
    /\ (JsMap.get id (MemStorage.summaries st) = None ->
        MemStorage.deleteSummary st id = (st, false))
    /\ (MemStorage.getFlashcard st id = None ->
        MemStorage.deleteFlashcard st id = (st, false))
    /\ (MemStorage.getQuestion st id = None ->
        MemStorage.deleteQuestion st id = (st, false))
    /\ (MemStorage.getStudyPlan st id = None ->
        MemStorage.deleteStudyPlan st id = (st, false)).
Proof.
  intros st id.
  unfold MemStorage.getNote, MemStorage.getFlashcard, MemStorage.getQuestion,
    MemStorage.getStudyPlan.
  repeat split; intros H.
  - unfold MemStorage.deleteNote. rewrite H.
    destruct (delete_missing _ id _ H) as [-> ->]. now destruct st.
  - unfold MemStorage.deleteSummary.
    destruct (delete_missing _ id _ H) as [-> ->]. now destruct st.
  - unfold MemStorage.deleteFlashcard. rewrite H.
    destruct (delete_missing _ id _ H) as [-> ->]. now destruct st.
  - unfold MemStorage.deleteQuestion. rewrite H.
    destruct (delete_missing _ id _ H) as [-> ->]. now destruct st.
  - unfold MemStorage.deleteStudyPlan.
    destruct (delete_missing _ id _ H) as [-> ->]. now destruct st.
Qed.

(** ** The counters of the subjects stay right *)

Lemma createNote_shape (st : MemStorage.t) (uuid : string) (now : Z)
    (data : InsertNote.t) :
  exists f note,
    (forall s, toNumber (Subject.notesCount (f s))
               = toNumber (Subject.notesCount s) + 1)
    /\ (forall s, Subject.flashcardsCount (f s) = Subject.flashcardsCount s)
    /\ (forall s, Subject.questionsCount (f s) = Subject.questionsCount s)
    /\ MemStorage.createNote st uuid now data
       = (MemStorage.mk
            (adjust f (Note.subjectId note) (MemStorage.subjects st))
            (JsMap.set uuid note (MemStorage.notes st))
            (MemStorage.summaries st) (MemStorage.flashcards st)
            (MemStorage.questions st) (MemStorage.studyPlans st), note).
Proof.
  exists (fun subject =>
            Subject.mk (Subject.id subject) (Subject.name subject)
              (Subject.icon subject) (Subject.color subject)
              (Some (toNumber (Subject.notesCount subject) + 1))
              (Subject.flashcardsCount subject)
              (Subject.questionsCount subject) (Some now)).
  exists (snd (MemStorage.createNote st uuid now data)).
  split; [now intros|]. split; [now intros|]. split; [now intros|].
  unfold MemStorage.createNote, adjust.
  cbn [MemStorage.set_notes MemStorage.subjects Note.subjectId snd].
  destruct (JsMap.get (InsertNote.subjectId data) (MemStorage.subjects st));
    reflexivity.
Qed.

Lemma deleteNote_shape (st : MemStorage.t) (id : string) (note : Note.t) :
  MemStorage.getNote st id = Some note ->
  exists f,
    (forall s, Subject.notesCount (f s)
               = Some (Z.max 0 (toNumber (Subject.notesCount s) - 1)))
    /\ (forall s, Subject.flashcardsCount (f s) = Subject.flashcardsCount s)
    /\ (forall s, Subject.questionsCount (f s) = Subject.questionsCount s)
    /\ MemStorage.deleteNote st id
       = (MemStorage.mk
            (adjust f (Note.subjectId note) (MemStorage.subjects st))
            (JsMap.delete id (MemStorage.notes st))
            (MemStorage.summaries st) (MemStorage.flashcards st)
            (MemStorage.questions st) (MemStorage.studyPlans st), true).
Proof.
  unfold MemStorage.getNote. intros H.
  exists (fun subject =>
            Subject.mk (Subject.id subject) (Subject.name subject)
              (Subject.icon subject) (Subject.color subject)
              (Some (Z.max 0 (toNumber (Subject.notesCount subject) - 1)))
              (Subject.flashcardsCount subject)
              (Subject.questionsCount subject)
              (Subject.lastAccessed subject)).
  split; [now intros|]. split; [now intros|]. split; [now intros|].
  unfold MemStorage.deleteNote, adjust, JsMap.has. rewrite H.
  destruct (JsMap.get (Note.subjectId note) (MemStorage.subjects st));
    cbn [MemStorage.set_subjects MemStorage.set_notes MemStorage.notes
         MemStorage.subjects MemStorage.summaries MemStorage.flashcards
         MemStorage.questions MemStorage.studyPlans];
    now rewrite H.
Qed.

Lemma createFlashcard_shape (st : MemStorage.t) (uuid : string)
    (data : InsertFlashcard.t) :
  exists f card,
    (forall s, toNumber (Subject.flashcardsCount (f s))
               = toNumber (Subject.flashcardsCount s) + 1)
    /\ (forall s, Subject.notesCount (f s) = Subject.notesCount s)
    /\ (forall s, Subject.questionsCount (f s) = Subject.questionsCount s)
    /\ MemStorage.createFlashcard st uuid data
       = (MemStorage.mk
            (adjust f (Flashcard.subjectId card) (MemStorage.subjects st))
            (MemStorage.notes st) (MemStorage.summaries st)
            (JsMap.set uuid card (MemStorage.flashcards st))
            (MemStorage.questions st) (MemStorage.studyPlans st), card).
Proof.
  exists (fun subject =>
            Subject.mk (Subject.id subject) (Subject.name subject)
              (Subject.icon subject) (Subject.color subject)
              (Subject.notesCount subject)
              (Some (toNumber (Subject.flashcardsCount subject) + 1))
              (Subject.questionsCount subject)
              (Subject.lastAccessed subject)).
  exists (snd (MemStorage.createFlashcard st uuid data)).
  split; [now intros|]. split; [now intros|]. split; [now intros|].
  unfold MemStorage.createFlashcard, adjust.
  cbn [MemStorage.set_flashcards MemStorage.subjects Flashcard.subjectId snd].
  destruct (JsMap.get (InsertFlashcard.subjectId data)
              (MemStorage.subjects st)); reflexivity.
Qed.

Lemma deleteFlashcard_shape (st : MemStorage.t) (id : string)
    (card : Flashcard.t) :
  MemStorage.getFlashcard st id = Some card ->
  exists f,
    (forall s, Subject.flashcardsCount (f s)
               = Some (Z.max 0 (toNumber (Subject.flashcardsCount s) - 1)))
    /\ (forall s, Subject.notesCount (f s) = Subject.notesCount s)
    /\ (forall s, Subject.questionsCount (f s) = Subject.questionsCount s)
    /\ MemStorage.deleteFlashcard st id
       = (MemStorage.mk
            (adjust f (Flashcard.subjectId card) (MemStorage.subjects st))
            (MemStorage.notes st) (MemStorage.summaries st)
            (JsMap.delete id (MemStorage.flashcards st))
            (MemStorage.questions st) (MemStorage.studyPlans st), true).
Proof.
  unfold MemStorage.getFlashcard. intros H.
  exists (fun subject =>
            Subject.mk (Subject.id subject) (Subject.name subject)
              (Subject.icon subject) (Subject.color subject)
              (Subject.notesCount subject)
              (Some
                 (Z.max 0 (toNumber (Subject.flashcardsCount subject) - 1)))
              (Subject.questionsCount subject)
              (Subject.lastAccessed subject)).
  split; [now intros|]. split; [now intros|]. split; [now intros|].
  unfold MemStorage.deleteFlashcard, adjust, JsMap.has. rewrite H.
  destruct (JsMap.get (Flashcard.subjectId card) (MemStorage.subjects st));
    cbn [MemStorage.set_subjects MemStorage.set_flashcards MemStorage.notes
         MemStorage.subjects MemStorage.summaries MemStorage.flashcards
         MemStorage.questions MemStorage.studyPlans];
    now rewrite H.
Qed.

Lemma createQuestion_shape (st : MemStorage.t) (uuid : string)
    (data : InsertQuestion.t) :
  exists f question,
    (forall s, toNumber (Subject.questionsCount (f s))
               = toNumber (Subject.questionsCount s) + 1)
    /\ (forall s, Subject.notesCount (f s) = Subject.notesCount s)
    /\ (forall s, Subject.flashcardsCount (f s) = Subject.flashcardsCount s)
    /\ MemStorage.createQuestion st uuid data
       = (MemStorage.mk
            (adjust f (Question.subjectId question) (MemStorage.subjects st))
            (MemStorage.notes st) (MemStorage.summaries st)
            (MemStorage.flashcards st)
            (JsMap.set uuid question (MemStorage.questions st))
            (MemStorage.studyPlans st), question).
Proof.
  exists (fun subject =>
            Subject.mk (Subject.id subject) (Subject.name subject)
              (Subject.icon subject) (Subject.color subject)
              (Subject.notesCount subject)
              (Subject.flashcardsCount subject)
              (Some (toNumber (Subject.questionsCount subject) + 1))
              (Subject.lastAccessed subject)).
  exists (snd (MemStorage.createQuestion st uuid data)).
  split; [now intros|]. split; [now intros|]. split; [now intros|].
  unfold MemStorage.createQuestion, adjust.
  cbn [MemStorage.set_questions MemStorage.subjects Question.subjectId snd].
  destruct (JsMap.get (InsertQuestion.subjectId data)
              (MemStorage.subjects st)); reflexivity.
Qed.

Lemma deleteQuestion_shape (st : MemStorage.t) (id : string)
    (question : Question.t) :
  MemStorage.getQuestion st id = Some question ->
  exists f,
    (forall s, Subject.questionsCount (f s)
               = Some (Z.max 0 (toNumber (Subject.questionsCount s) - 1)))
    /\ (forall s, Subject.notesCount (f s) = Subject.notesCount s)
    /\ (forall s, Subject.flashcardsCount (f s) = Subject.flashcardsCount s)
    /\ MemStorage.deleteQuestion st id
       = (MemStorage.mk
            (adjust f (Question.subjectId question) (MemStorage.subjects st))
            (MemStorage.notes st) (MemStorage.summaries st)
            (MemStorage.flashcards st)
            (JsMap.delete id (MemStorage.questions st))
            (MemStorage.studyPlans st), true).
Proof.
  unfold MemStorage.getQuestion. intros H.
  exists (fun subject =>
            Subject.mk (Subject.id subject) (Subject.name subject)
              (Subject.icon subject) (Subject.color subject)
              (Subject.notesCount subject)
              (Subject.flashcardsCount subject)
              (Some
                 (Z.max 0 (toNumber (Subject.questionsCount subject) - 1)))
              (Subject.lastAccessed subject)).
  split; [now intros|]. split; [now intros|]. split; [now intros|].
  unfold MemStorage.deleteQuestion, adjust, JsMap.has. rewrite H.
  destruct (JsMap.get (Question.subjectId question) (MemStorage.subjects st));
    cbn [MemStorage.set_subjects MemStorage.set_questions MemStorage.notes
         MemStorage.subjects MemStorage.summaries MemStorage.flashcards
         MemStorage.questions MemStorage.studyPlans];
    now rewrite H.
Qed.

Lemma delete_keys_NoDup (V : Type) (k : string) (m : JsMap.t V) :
  NoDup (JsMap.keys m) -> NoDup (JsMap.keys (JsMap.delete k m)).
Proof. unfold JsMap.delete. apply keys_filter_NoDup. Qed.

Lemma deleteOwned_keys_NoDup (V : Type) (owner : V -> string) (id : string)
    (m : JsMap.t V) :
  NoDup (JsMap.keys m) ->
  NoDup (JsMap.keys (MemStorage.deleteOwned owner id m)).
Proof.
  intros H. rewrite deleteOwned_filter by exact H.
  now apply keys_filter_NoDup.
Qed.

(** One admissible call keeps the counters right. *)
Lemma perform_countersAgree (st : MemStorage.t) (call : Call) :
  countersAgree st -> admissible st call -> countersAgree (perform st call).
Proof.
  intros (Hn & Hf & Hq & Hcn & Hcf & Hcq) Hadm.
  destruct call as [uuid now data | id | uuid now data | id | uuid data
                   | id data now | id | uuid data | id];
    cbn [perform admissible] in *.
  - destruct Hadm as (_ & Hrn & Hrf & Hrq).
    unfold countersAgree, MemStorage.createSubject.
    cbn [fst MemStorage.set_subjects MemStorage.subjects MemStorage.notes
         MemStorage.flashcards MemStorage.questions].
    repeat split; try assumption;
      apply counted_createSubject; try assumption; reflexivity.
  - unfold countersAgree, MemStorage.deleteSubject.
    cbn [fst MemStorage.subjects MemStorage.notes MemStorage.flashcards
         MemStorage.questions].
    repeat split;
      try (now apply deleteOwned_keys_NoDup);
      now apply counted_deleteSubject.
  - destruct (createNote_shape st uuid now data)
      as (f & note & Hfn & Hff & Hfq & ->).
    unfold countersAgree.
    cbn [fst MemStorage.subjects MemStorage.notes MemStorage.flashcards
         MemStorage.questions].
    repeat split; try assumption.
    + now apply keys_set_NoDup.
    + now apply counted_create.
    + now apply counted_adjust.
    + now apply counted_adjust.
  - destruct (MemStorage.getNote st id) as [note|] eqn:Hget.
    + destruct (deleteNote_shape st id note Hget)
        as (f & Hfn & Hff & Hfq & ->).
      unfold countersAgree.
      cbn [fst MemStorage.subjects MemStorage.notes MemStorage.flashcards
           MemStorage.questions].
      repeat split; try assumption.
      * now apply delete_keys_NoDup.
      * now apply counted_delete.
      * now apply counted_adjust.
      * now apply counted_adjust.
    + unfold MemStorage.getNote in Hget. unfold MemStorage.deleteNote.
      rewrite Hget. unfold countersAgree.
      cbn [fst MemStorage.set_notes MemStorage.subjects MemStorage.notes
           MemStorage.flashcards MemStorage.questions].
      rewrite (proj1 (delete_missing _ id _ Hget)).
      repeat split; assumption.
  - destruct (createFlashcard_shape st uuid data)
      as (f & card & Hff & Hfn & Hfq & ->).
    unfold countersAgree.
    cbn [fst MemStorage.subjects MemStorage.notes MemStorage.flashcards
         MemStorage.questions].
    repeat split; try assumption.
    + now apply keys_set_NoDup.
    + now apply counted_adjust.
    + now apply counted_create.
    + now apply counted_adjust.
  - unfold MemStorage.updateFlashcard.
    destruct (JsMap.get id (MemStorage.flashcards st)) as [card|] eqn:Hget;
      cbn [fst]; [|repeat split; assumption].
    unfold countersAgree.
    cbn [MemStorage.set_flashcards MemStorage.subjects MemStorage.notes
         MemStorage.flashcards MemStorage.questions].
    repeat split; try assumption.
    + now apply keys_set_NoDup.
    + apply (counted_update _ _ _ id card); try assumption.
      unfold spreadFlashcard. cbn [Flashcard.subjectId].
      now rewrite Hadm.
  - destruct (MemStorage.getFlashcard st id) as [card|] eqn:Hget.
    + destruct (deleteFlashcard_shape st id card Hget)
        as (f & Hff & Hfn & Hfq & ->).
      unfold countersAgree.
      cbn [fst MemStorage.subjects MemStorage.notes MemStorage.flashcards
           MemStorage.questions].
      repeat split; try assumption.
      * now apply delete_keys_NoDup.
      * now apply counted_adjust.
      * now apply counted_delete.
      * now apply counted_adjust.
    + unfold MemStorage.getFlashcard in Hget. unfold MemStorage.deleteFlashcard.
      rewrite Hget. unfold countersAgree.
      cbn [fst MemStorage.set_flashcards MemStorage.subjects MemStorage.notes
           MemStorage.flashcards MemStorage.questions].
      rewrite (proj1 (delete_missing _ id _ Hget)).
      repeat split; assumption.
  - destruct (createQuestion_shape st uuid data)
      as (f & question & Hfq & Hfn & Hff & ->).
    unfold countersAgree.
    cbn [fst MemStorage.subjects MemStorage.notes MemStorage.flashcards
         MemStorage.questions].
    repeat split; try assumption.
    + now apply keys_set_NoDup.
    + now apply counted_adjust.
    + now apply counted_adjust.
    + now apply counted_create.
  - destruct (MemStorage.getQuestion st id) as [question|] eqn:Hget.
    + destruct (deleteQuestion_shape st id question Hget)
        as (f & Hfq & Hfn & Hff & ->).
      unfold countersAgree.
      cbn [fst MemStorage.subjects MemStorage.notes MemStorage.flashcards
           MemStorage.questions].
      repeat split; try assumption.
      * now apply delete_keys_NoDup.
      * now apply counted_adjust.
      * now apply counted_adjust.
      * now apply counted_delete.
    + unfold MemStorage.getQuestion in Hget. unfold MemStorage.deleteQuestion.
      rewrite Hget. unfold countersAgree.
      cbn [fst MemStorage.set_questions MemStorage.subjects MemStorage.notes
           MemStorage.flashcards MemStorage.questions].
      rewrite (proj1 (delete_missing _ id _ Hget)).
      repeat split; assumption.
Qed.

(** X2: in every state that [MemStorage] reaches from the empty store by
    calls of [createSubject], [deleteSubject], [createNote], [deleteNote],
    [createFlashcard], [updateFlashcard], [deleteFlashcard],
    [createQuestion] and [deleteQuestion], each drawing an identifier that is
    not in use (for a subject: that no record refers to) and no update moving
    a flashcard to another subject, the [notesCount], [flashcardsCount] and
    [questionsCount] of every subject are the numbers of stored notes,
    flashcards and questions that refer to it. *)
Theorem X2_counters_equal_the_stored_records :
  forall st : MemStorage.t, reachable st -> countersAgree st.
Proof.
  intros st H. induction H as [|st call _ IH Hadm].
  - unfold countersAgree. simpl.
    repeat split; try constructor; intros sid s [=].
  - now apply perform_countersAgree.
Qed.

(** A subject, two notes of it, one of them deleted again. *)
Lemma X2_witness :
  countersAgree
    (perform
       (perform
          (perform
             (perform MemStorage.empty
                (CreateSubject "s1" 1000
                   (InsertSubject.mk "Biology" None (Some "green"))))
             (CreateNote "n1" 2000 Sample.insertNote))
          (CreateNote "n2" 3000 Sample.insertNote))
       (DeleteNote "n1")).
Proof.
  apply X2_counters_equal_the_stored_records.
  repeat (apply reachable_step); try apply reachable_empty; simpl;
    try exact I; try tauto; intuition discriminate.
Defined.

(** ** Creating and deleting a flashcard *)

(** X3: in [MemStorage], a flashcard created under a fresh identifier and
    deleted again leaves the store exactly as it was, provided its subject
    is not stored or has a [flashcardsCount] that is a number not below
    zero; the deletion returns [true]. *)
Theorem X3_createFlashcard_then_deleteFlashcard :
  forall (st : MemStorage.t) (uuid : string) (data : InsertFlashcard.t),
    ~ In uuid (JsMap.keys (MemStorage.flashcards st)) ->
    (forall s,
        MemStorage.getSubject st (InsertFlashcard.subjectId data) = Some s ->
        exists n, Subject.flashcardsCount s = Some n /\ 0 <= n) ->
    MemStorage.deleteFlashcard
      (fst (MemStorage.createFlashcard st uuid data)) uuid
    = (st, true).
Proof.
  intros st uuid data Hfresh Hcount.
  unfold MemStorage.getSubject in Hcount.
  unfold MemStorage.createFlashcard.
  cbn [MemStorage.set_flashcards MemStorage.subjects].
  destruct (JsMap.get (InsertFlashcard.subjectId data)
              (MemStorage.subjects st)) as [s|] eqn:Hs.
  - destruct (Hcount s eq_refl) as (n & Hn & Hpos).
    unfold MemStorage.deleteFlashcard, JsMap.has.
    cbn [fst MemStorage.set_subjects MemStorage.set_flashcards
         MemStorage.flashcards MemStorage.subjects MemStorage.notes
         MemStorage.summaries MemStorage.questions MemStorage.studyPlans
         Flashcard.subjectId].
    rewrite !get_set_same.
    cbn [MemStorage.set_subjects MemStorage.set_flashcards
         MemStorage.flashcards MemStorage.subjects MemStorage.notes
         MemStorage.summaries MemStorage.questions MemStorage.studyPlans
         Subject.id Subject.name Subject.icon Subject.color
         Subject.notesCount Subject.flashcardsCount Subject.questionsCount
         Subject.lastAccessed toNumber].
    rewrite get_set_same, set_set, delete_set_fresh by exact Hfresh.
    rewrite Hn. cbn [toNumber].
    replace (Z.max 0 (n + 1 - 1)) with n by lia.
    rewrite <- Hn.
    assert (Hrec :
      Subject.mk (Subject.id s) (Subject.name s) (Subject.icon s)
        (Subject.color s) (Subject.notesCount s) (Subject.flashcardsCount s)
        (Subject.questionsCount s) (Subject.lastAccessed s) = s)
      by now destruct s.
    rewrite Hrec, (set_get_id _ _ _ _ Hs). now destruct st.
  - unfold MemStorage.deleteFlashcard, JsMap.has.
    cbn [fst MemStorage.set_subjects MemStorage.set_flashcards
         MemStorage.flashcards MemStorage.subjects MemStorage.notes
         MemStorage.summaries MemStorage.questions MemStorage.studyPlans
         Flashcard.subjectId].
    rewrite !get_set_same.
    cbn [Flashcard.subjectId]. rewrite Hs.
    cbn [MemStorage.set_flashcards MemStorage.flashcards MemStorage.subjects
         MemStorage.notes MemStorage.summaries MemStorage.questions
         MemStorage.studyPlans].
    rewrite get_set_same, delete_set_fresh by exact Hfresh.
    now destruct st.
Qed.

(** A new flashcard for "Biology" in the store of two subjects. *)
Lemma X3_witness :
  MemStorage.deleteFlashcard
    (fst (MemStorage.createFlashcard Sample.memTwoSubjects "f2"
            (Sample.insertCard "s1" None))) "f2"
  = (Sample.memTwoSubjects, true).
Proof.
  apply X3_createFlashcard_then_deleteFlashcard.
  - simpl. intuition discriminate.
  - intros s [= <-]. exists 0. split; [reflexivity | lia].
Defined.

(** ** Updating what is not stored *)

(** X4: with [MemStorage], an update under an id that is not stored changes
    nothing and returns no record: for a flashcard the route answers 404
    "Flashcard not found", for a task of a plan that is not stored 404
    "Plan or task not found". *)
Theorem X4_update_of_a_missing_id_answers_404 :
  forall (id : string) (data : PartialFlashcard.t) (now : Z)
         (planId taskId : string) (taskData : PartialStudyTask.t)
         (st : MemStorage.t),
    (MemStorage.getFlashcard st id = None ->
     MemStorage.updateFlashcard st id data now = (st, None)
     /\ FlashcardRoutes.patchFlashcard st id data now
        = (st, FlashcardRoutes.mkResponse 404
                 (FlashcardRoutes.ErrorBody "Flashcard not found")))
    /\ (MemStorage.getStudyPlan st planId = None ->
        MemStorage.updateStudyPlanTask st planId taskId taskData = (st, None)
        /\ Routes.patchStudyPlanTask st planId taskId taskData
           = (st, Routes.mkResponse 404
                    (Routes.ErrorBody "Plan or task not found"))).
Proof.
  intros id data now planId taskId taskData st.
  split; intros H.
  - assert (Hupd : MemStorage.updateFlashcard st id data now = (st, None)).
    { unfold MemStorage.updateFlashcard.
      unfold MemStorage.getFlashcard in H. now rewrite H. }
    split; [exact Hupd|].
    unfold FlashcardRoutes.patchFlashcard. now rewrite Hupd.
  - assert (Hupd :
      MemStorage.updateStudyPlanTask st planId taskId taskData = (st, None)).
    { unfold MemStorage.updateStudyPlanTask.
      unfold MemStorage.getStudyPlan in H. now rewrite H. }
    split; [exact Hupd|].
    unfold Routes.patchStudyPlanTask. simpl. now rewrite Hupd.
Qed.

(** ** What [deleteSubject] keeps *)

Lemma filter_implied (A : Type) (p q : A -> bool) (l : list A) :
  (forall x, p x = true -> q x = true) ->
  filter p (filter q l) = filter p l.
Proof.
  intros H. induction l as [|x l IH]; simpl; [reflexivity|].
  destruct (q x) eqn:Eq; simpl.
  - destruct (p x); now rewrite IH.
  - destruct (p x) eqn:Ep; [|exact IH].
    rewrite (H x Ep) in Eq. discriminate.
Qed.

Lemma other_subject (sid id x : string) :
  sid <> id -> (x =? sid)%string = true -> negb (x =? id)%string = true.
Proof.
  intros Hne Hx. apply String.eqb_eq in Hx. subst x.
  now apply negb_true_iff, String.eqb_neq.
Qed.

(** X5: [deleteSubject(id)] returns whether the subject was stored, and
    keeps every other subject and, for every other subject, the notes,
    summaries, flashcards and questions that the queries by that subject
    return, in their order; in [MemStorage] when the keys of the four
    collections are distinct. *)
Theorem X5_deleteSubject_keeps_the_other_subjects :
  forall (id sid : string),
    sid <> id ->
    truthy_string sid = true ->
    sid <> "all" ->
    (forall st : MemStorage.t,
        NoDup (JsMap.keys (MemStorage.notes st)) ->
        NoDup (JsMap.keys (MemStorage.summaries st)) ->
        NoDup (JsMap.keys (MemStorage.flashcards st)) ->
        NoDup (JsMap.keys (MemStorage.questions st)) ->
        let st' := fst (MemStorage.deleteSubject st id) in
        MemStorage.getSubject st' sid = MemStorage.getSubject st sid
        /\ MemStorage.getNotes st' (Some sid)
           = MemStorage.getNotes st (Some sid)
        /\ MemStorage.getSummaries st' (Some sid)
           = MemStorage.getSummaries st (Some sid)
        /\ MemStorage.getFlashcards st' (Some sid)
           = MemStorage.getFlashcards st (Some sid)
        /\ MemStorage.getQuestions st' (Some sid)
           = MemStorage.getQuestions st (Some sid)
        /\ (snd (MemStorage.deleteSubject st id) = true
            <-> MemStorage.getSubject st id <> None))
    /\ (forall db : DatabaseStorage.t,
           let db' := fst (DatabaseStorage.deleteSubject db id) in
           DatabaseStorage.getSubject db' sid
           = DatabaseStorage.getSubject db sid
           /\ DatabaseStorage.getNotes db' (Some sid)
              = DatabaseStorage.getNotes db (Some sid)
           /\ DatabaseStorage.getSummaries db' (Some sid)
              = DatabaseStorage.getSummaries db (Some sid)
           /\ DatabaseStorage.getFlashcards db' (Some sid)
              = DatabaseStorage.getFlashcards db (Some sid)
           /\ DatabaseStorage.getQuestions db' (Some sid)
              = DatabaseStorage.getQuestions db (Some sid)
           /\ (snd (DatabaseStorage.deleteSubject db id) = true
               <-> DatabaseStorage.getSubject db id <> None)).
Proof.
  intros id sid Hne Htruthy Hall.
  assert (Hnotall : negb (sid =? "all")%string = true)
    by now apply negb_true_iff, String.eqb_neq.
  split.
  - intros st Hn Hs Hf Hq st'. subst st'.
    unfold MemStorage.getSubject, MemStorage.getNotes,
      MemStorage.getSummaries, MemStorage.getFlashcards,
      MemStorage.getQuestions, MemStorage.deleteSubject.
    cbn [fst snd MemStorage.subjects MemStorage.notes MemStorage.summaries
         MemStorage.flashcards MemStorage.questions].
    rewrite Htruthy, Hnotall. cbn [andb].
    split; [apply get_delete_other; congruence|].
    split; [now apply deleteOwned_others|].
    split; [now apply deleteOwned_others|].
    split; [now apply deleteOwned_others|].
    split; [now apply deleteOwned_others|].
    unfold JsMap.has.
    destruct (JsMap.get id (MemStorage.subjects st)); split; congruence.
  - intros db db'. subst db'.
    unfold DatabaseStorage.getNotes, DatabaseStorage.getSummaries,
      DatabaseStorage.getFlashcards, DatabaseStorage.getQuestions,
      DatabaseStorage.deleteSubject.
    cbn [fst snd DatabaseStorage.subjects DatabaseStorage.notes
         DatabaseStorage.summaries DatabaseStorage.flashcards
         DatabaseStorage.questions].
    rewrite Htruthy, Hnotall. cbn [andb].
    unfold DatabaseStorage.getSubject.
    cbn [DatabaseStorage.subjects].
    unfold Table.select_where, Table.delete_where.
    split; [f_equal; apply filter_implied; intros x; now apply other_subject|].
    split; [apply filter_implied; intros x; now apply other_subject|].
    split; [apply filter_implied; intros x; now apply other_subject|].
    split; [apply filter_implied; intros x; now apply other_subject|].
    split; [apply filter_implied; intros x; now apply other_subject|].
    destruct (Table.first
                (filter (fun s => (Subject.id s =? id)%string)
                   (DatabaseStorage.subjects db))); split; congruence.
Qed.

(** Deleting "Chemistry" keeps what belongs to "Biology". *)
Lemma X5_witness :
  MemStorage.getFlashcards
    (fst (MemStorage.deleteSubject Sample.memTwoSubjects "s2")) (Some "s1")
  = [Sample.card5]
  /\ DatabaseStorage.getFlashcards
       (fst (DatabaseStorage.deleteSubject Sample.dbTwoSubjects "s2"))
       (Some "s1")
     = [Sample.card5].
Proof.
  assert (Hne : "s1" <> "s2") by discriminate.
  assert (Hall : "s1" <> "all") by discriminate.
  destruct (X5_deleteSubject_keeps_the_other_subjects "s2" "s1" Hne
              eq_refl Hall) as [Hmem Hdb].
  split.
  - destruct (Hmem Sample.memTwoSubjects) as (_ & _ & _ & -> & _);
      try reflexivity; simpl; repeat constructor; simpl; tauto.
  - destruct (Hdb Sample.dbTwoSubjects) as (_ & _ & _ & -> & _).
    reflexivity.
Defined.

(** ** Listings by date of creation *)

Lemma sorted_app_cross (A : Type) (R : A -> A -> Prop) (l1 l2 : list A) :
  StronglySorted R (l1 ++ l2) ->
  forall x y, In x l1 -> In y l2 -> R x y.
Proof.
  induction l1 as [|a l1 IH]; simpl; intros Hs x y Hx Hy; [destruct Hx|].
  apply StronglySorted_inv in Hs. destruct Hs as [Hs Ha].
  destruct Hx as [<-|Hx]; [|now apply IH].
  rewrite Forall_forall in Ha. apply Ha. apply in_or_app. now right.
Qed.

Lemma sorted_impl (A : Type) (R R' : A -> A -> Prop) (l : list A) :
  (forall a b, R a b -> R' a b) ->
  StronglySorted R l -> StronglySorted R' l.
Proof.
  intros H Hs. induction Hs as [|a l _ IH Ha]; constructor; [exact IH|].
  eapply Forall_impl; [|exact Ha]. intros b. apply H.
Qed.

Lemma newest_first_sorted (A : Type) (createdAt : A -> Z) (l : list A) :
  StronglySorted (fun a b => createdAt b <= createdAt a)
    (array_sort (fun a b => createdAt b - createdAt a) l).
Proof.
  apply (sorted_impl A (fun a b => createdAt b - createdAt a <= 0)).
  - intros a b Hab. lia.
  - apply array_sort_sorted; intros; lia.
Qed.

(** X6: [getStudyPlans] and [getSummaries] without a subject return, in
    [MemStorage], every stored plan or summary once, the newest first. *)
Theorem X6_listings_are_newest_first :
  forall st : MemStorage.t,
    Permutation (JsMap.values (MemStorage.studyPlans st))
      (MemStorage.getStudyPlans st)
    /\ StronglySorted
         (fun a b => StudyPlan.createdAt b <= StudyPlan.createdAt a)
         (MemStorage.getStudyPlans st)
    /\ Permutation (JsMap.values (MemStorage.summaries st))
         (MemStorage.getSummaries st None)
    /\ StronglySorted
         (fun a b => Summary.createdAt b <= Summary.createdAt a)
         (MemStorage.getSummaries st None).
Proof.
  intros st. unfold MemStorage.getStudyPlans, MemStorage.getSummaries.
  split; [apply array_sort_perm|].
  split; [apply newest_first_sorted|].
  split; [apply array_sort_perm | apply newest_first_sorted].
Qed.

(** X7: the [recentSummaries] of the dashboard of [MemStorage] are the five
    newest stored summaries, or all of them when there are fewer, the newest
    first: every summary left out is at most as recent as every summary
    shown; the streak is always 0 and the totals are the sizes of the four
    collections. *)
Theorem X7_recentSummaries_are_the_newest_five :
  forall (localeCompare : string -> string -> Z) (today : string)
         (st : MemStorage.t),
    let stats := MemStorage.getDashboardStats localeCompare today st in
    let recent := DashboardStats.recentSummaries stats in
    (exists older,
        Permutation (JsMap.values (MemStorage.summaries st))
          (recent ++ older)
        /\ (forall r o,
               In r recent -> In o older ->
               Summary.createdAt o <= Summary.createdAt r))
    /\ List.length recent
       = Nat.min 5 (List.length (JsMap.values (MemStorage.summaries st)))
    /\ StronglySorted
         (fun a b => Summary.createdAt b <= Summary.createdAt a) recent
    /\ DashboardStats.studyStreak stats = 0
    /\ DashboardStats.totalSubjects stats
       = JsMap.size (MemStorage.subjects st)
    /\ DashboardStats.totalNotes stats = JsMap.size (MemStorage.notes st)
    /\ DashboardStats.totalFlashcards stats
       = JsMap.size (MemStorage.flashcards st)
    /\ DashboardStats.totalQuestions stats
       = JsMap.size (MemStorage.questions st).
Proof.
  intros localeCompare today st stats recent.
  subst recent stats. unfold MemStorage.getDashboardStats.
  cbn [DashboardStats.recentSummaries DashboardStats.studyStreak
       DashboardStats.totalSubjects DashboardStats.totalNotes
       DashboardStats.totalFlashcards DashboardStats.totalQuestions].
  unfold slice0, MemStorage.getSummaries.
  set (sorted :=
    array_sort (fun a b => Summary.createdAt b - Summary.createdAt a)
      (JsMap.values (MemStorage.summaries st))).
  assert (Hsorted :
    StronglySorted (fun a b => Summary.createdAt b <= Summary.createdAt a)
      sorted) by apply newest_first_sorted.
  split.
  - exists (skipn 5 sorted). rewrite firstn_skipn.
    split; [apply array_sort_perm|].
    intros r o Hr Ho.
    apply (sorted_app_cross Summary.t
             (fun a b => Summary.createdAt b <= Summary.createdAt a)
             (firstn 5 sorted) (skipn 5 sorted));
      [now rewrite firstn_skipn | exact Hr | exact Ho].
  - split.
    + rewrite length_firstn. f_equal. symmetry.
      apply Permutation_length, array_sort_perm.
    + split; [now apply firstn_sorted|]. repeat split.
Qed.

(** ** Creating a study plan, and updating its tasks *)

Lemma nth_error_assignIds (taskUuid : nat -> string)
    (tasks : list StudyTask.t) :
  forall first j,
    nth_error (MemStorage.assignIds taskUuid first tasks) j
    = option_map (fun t => MemStorage.withId t (taskUuid (first + j)%nat))
        (nth_error tasks j).
Proof.
  induction tasks as [|t tasks IH]; intros first [|j]; simpl;
    try reflexivity.
  - now rewrite Nat.add_0_r.
  - rewrite IH. now rewrite Nat.add_succ_r.
Qed.

Lemma nth_error_tasksWithIds (taskUuid : nat -> string)
    (tasks : list StudyTask.t) :
  forall first j,
    nth_error (DatabaseStorage.tasksWithIds taskUuid first tasks) j
    = option_map
        (fun t =>
           MemStorage.withId t
             (or_string (Some (StudyTask.id t)) (taskUuid (first + j)%nat)))
        (nth_error tasks j).
Proof.
  induction tasks as [|t tasks IH]; intros first [|j]; simpl;
    try reflexivity.
  - now rewrite Nat.add_0_r.
  - rewrite IH. now rewrite Nat.add_succ_r.
Qed.

Lemma length_assignIds (taskUuid : nat -> string) (tasks : list StudyTask.t) :
  forall first,
    List.length (MemStorage.assignIds taskUuid first tasks)
    = List.length tasks.
Proof.
  induction tasks as [|t tasks IH]; intros first; simpl; [reflexivity|].
  now rewrite IH.
Qed.

(** X8: [createStudyPlan] of [MemStorage] stores the plan under its
    identifier with every task given the identifier drawn for its position;
    when these are distinct, [updateStudyPlanTask] with the identifier of
    the task at position [i] merges the fields into that task and leaves
    every other task as created. *)
Theorem X8_created_plan_updates_one_task :
  forall (st : MemStorage.t) (uuid : string) (taskUuid : nat -> string)
         (now : Z) (data : InsertStudyPlan.t) (update : PartialStudyTask.t)
         (i : nat),
    (forall j k,
        (j < List.length (InsertStudyPlan.tasks data))%nat ->
        (k < List.length (InsertStudyPlan.tasks data))%nat ->
        taskUuid j = taskUuid k -> j = k) ->
    (i < List.length (InsertStudyPlan.tasks data))%nat ->
    let created := MemStorage.createStudyPlan st uuid taskUuid now data in
    let updated :=
      MemStorage.updateStudyPlanTask (fst created) uuid (taskUuid i) update in
    MemStorage.getStudyPlan (fst created) uuid = Some (snd created)
    /\ (forall j t,
           nth_error (InsertStudyPlan.tasks data) j = Some t ->
           nth_error (StudyPlan.tasks (snd created)) j
           = Some (MemStorage.withId t (taskUuid j)))
    /\ exists plan',
         snd updated = Some plan'
         /\ MemStorage.getStudyPlan (fst updated) uuid = Some plan'
         /\ List.length (StudyPlan.tasks plan')
            = List.length (InsertStudyPlan.tasks data)
         /\ (forall j t,
                nth_error (InsertStudyPlan.tasks data) j = Some t ->
                nth_error (StudyPlan.tasks plan') j
                = Some
                    (if (j =? i)%nat
                     then spreadTask (MemStorage.withId t (taskUuid i)) update
                     else MemStorage.withId t (taskUuid j))).
Proof.
  intros st uuid taskUuid now data update i Hinj Hi created updated.
  subst updated created.
  unfold MemStorage.createStudyPlan.
  cbn [fst snd]. unfold MemStorage.getStudyPlan.
  cbn [MemStorage.set_studyPlans MemStorage.studyPlans].
  split; [apply get_set_same|].
  cbn [StudyPlan.tasks].
  split.
  { intros j t Hj. rewrite nth_error_assignIds, Hj. reflexivity. }
  unfold MemStorage.updateStudyPlanTask.
  cbn [MemStorage.set_studyPlans MemStorage.studyPlans].
  rewrite get_set_same. eexists.
  cbn [fst snd MemStorage.set_studyPlans MemStorage.studyPlans].
  split; [reflexivity|].
  split; [apply get_set_same|].
  cbn [StudyPlan.tasks].
  split; [now rewrite length_map, length_assignIds|].
  intros j t Hj.
  rewrite nth_error_map, nth_error_assignIds, Hj.
  cbn [option_map MemStorage.withId StudyTask.id Nat.add].
  assert (Hjn : (j < List.length (InsertStudyPlan.tasks data))%nat).
  { apply nth_error_Some. congruence. }
  destruct (j =? i)%nat eqn:E.
  - apply Nat.eqb_eq in E. subst j. now rewrite String.eqb_refl.
  - apply Nat.eqb_neq in E.
    destruct (taskUuid j =? taskUuid i)%string eqn:E'; [|reflexivity].
    apply String.eqb_eq in E'. exfalso. apply E. now apply Hinj.
Qed.

(** X9: for a plan whose tasks all come with an empty id, as the study-plan
    route sends them, [createStudyPlan] returns the same plan in both
    implementations; a task that comes with an id keeps it in
    [DatabaseStorage] and loses it to a drawn one in [MemStorage]. *)
Theorem X9_createStudyPlan_in_both_implementations :
  forall (st : MemStorage.t) (db : DatabaseStorage.t) (uuid : string)
         (taskUuid : nat -> string) (now : Z) (data : InsertStudyPlan.t),
    ((forall t, In t (InsertStudyPlan.tasks data) -> StudyTask.id t = "") ->
     snd (MemStorage.createStudyPlan st uuid taskUuid now data)
     = snd (DatabaseStorage.createStudyPlan db uuid taskUuid now data))
    /\ (forall j t,
           nth_error (InsertStudyPlan.tasks data) j = Some t ->
           StudyTask.id t <> "" ->
           nth_error
             (StudyPlan.tasks
                (snd (DatabaseStorage.createStudyPlan db uuid taskUuid now
                        data))) j = Some t
           /\ nth_error
                (StudyPlan.tasks
                   (snd (MemStorage.createStudyPlan st uuid taskUuid now
                           data))) j
              = Some (MemStorage.withId t (taskUuid j))).
Proof.
  intros st db uuid taskUuid now data.
  unfold MemStorage.createStudyPlan, DatabaseStorage.createStudyPlan.
  cbn [snd StudyPlan.tasks]. split.
  - intros Hempty. f_equal.
    generalize 0%nat.
    induction (InsertStudyPlan.tasks data) as [|t tasks IH]; intros first;
      simpl; [reflexivity|].
    rewrite (Hempty t (or_introl eq_refl)). cbn.
    f_equal. apply IH. intros t' Ht'. apply Hempty. now right.
  - intros j t Hj Hid.
    rewrite nth_error_tasksWithIds, nth_error_assignIds, Hj.
    cbn [option_map Nat.add]. split; [|reflexivity].
    unfold or_string, truthy_string.
    apply String.eqb_neq in Hid. rewrite Hid. cbn [negb].
    now destruct t.
Qed.

Lemma spreadTask_twice (t : StudyTask.t) (data : PartialStudyTask.t) :
  spreadTask (spreadTask t data) data = spreadTask t data.
Proof.
  unfold spreadTask, spread. cbn.
  destruct data as [i tp sj du pr cp dt ts]. cbn.
  destruct i, tp, sj, du, pr, cp, dt, ts; reflexivity.
Qed.

(** X10: in [MemStorage], repeating an update of a task that does not
    rename it changes nothing more: the second call returns the same plan
    and leaves the same store as the first. *)
Theorem X10_updateStudyPlanTask_twice :
  forall (st : MemStorage.t) (planId taskId : string)
         (data : PartialStudyTask.t),
    PartialStudyTask.id data = None ->
    let once := MemStorage.updateStudyPlanTask st planId taskId data in
    MemStorage.updateStudyPlanTask (fst once) planId taskId data = once.
Proof.
  intros st planId taskId data Hid once. subst once.
  unfold MemStorage.updateStudyPlanTask.
  destruct (JsMap.get planId (MemStorage.studyPlans st)) as [plan|] eqn:Hget.
  - cbn [fst MemStorage.set_studyPlans MemStorage.studyPlans].
    rewrite get_set_same.
    cbn [StudyPlan.id StudyPlan.title StudyPlan.description
         StudyPlan.startDate StudyPlan.endDate StudyPlan.tasks
         StudyPlan.createdAt MemStorage.set_studyPlans MemStorage.subjects
         MemStorage.notes MemStorage.summaries MemStorage.flashcards
         MemStorage.questions MemStorage.studyPlans].
    rewrite map_map, set_set.
    assert (Htasks :
      map (fun x =>
             if (StudyTask.id
                   (if (StudyTask.id x =? taskId)%string
                    then spreadTask x data else x) =? taskId)%string
             then spreadTask
                    (if (StudyTask.id x =? taskId)%string
                     then spreadTask x data else x) data
             else if (StudyTask.id x =? taskId)%string
                  then spreadTask x data else x)
          (StudyPlan.tasks plan)
      = map (fun x =>
               if (StudyTask.id x =? taskId)%string then spreadTask x data
               else x)
          (StudyPlan.tasks plan)).
    { apply map_ext. intros x.
      destruct (StudyTask.id x =? taskId)%string eqn:E; [|now rewrite E].
      assert (Hsame : StudyTask.id (spreadTask x data) = StudyTask.id x).
      { unfold spreadTask. cbn. now rewrite Hid. }
      now rewrite Hsame, E, spreadTask_twice. }
    now rewrite Htasks.
  - cbn [fst]. now rewrite Hget.
Qed.

(** Marking the task "t1" of the plan "p1" as completed, twice. *)
Lemma X10_witness :
  MemStorage.updateStudyPlanTask
    (fst (MemStorage.updateStudyPlanTask Sample.memWithPlan "p1" "t1"
            Sample.markDone)) "p1" "t1" Sample.markDone
  = MemStorage.updateStudyPlanTask Sample.memWithPlan "p1" "t1"
      Sample.markDone.
Proof.
  apply (X10_updateStudyPlanTask_twice Sample.memWithPlan "p1" "t1"
           Sample.markDone).
  reflexivity.
Defined.

(** ** The gateway: questions, chat and study plans *)

(** X11: [generateQuestions] asks the provider for [min(count, 8)] questions
    over the first 2000 characters of the content, and returns the
    [questions] list of the parsed reply as it is, however long, and the
    empty list when the reply has none; a failure of the provider is thrown
    on with the prefix "Failed to generate questions: ". *)
Theorem X11_generateQuestions_clamps_the_request :
  forall (client : Gateway.QuestionsClient) (content : string)
         (types : list Gateway.QuestionType) (count : Z),
    let prompt := Gateway.questionsPrompt content types count in
    Gateway.finalCount prompt = Z.min count 8
    /\ Gateway.finalCount prompt <= 8
    /\ Gateway.material prompt = substring 0 2000 content
    /\ (forall fields items,
           client prompt = Groq.Parsed (Groq.JObj fields) ->
           Groq.lookup "questions" fields = Some (Groq.JArr items) ->
           Gateway.generateQuestions client content types count
           = Groq.Returned (Groq.JArr items))
    /\ (forall fields,
           client prompt = Groq.Parsed (Groq.JObj fields) ->
           Groq.lookup "questions" fields = None ->
           Gateway.generateQuestions client content types count
           = Groq.Returned (Groq.JArr []))
    /\ (forall message,
           client prompt = Groq.Failed message ->
           Gateway.generateQuestions client content types count
           = Groq.Thrown ("Failed to generate questions: " ++ message)%string).
Proof.
  intros client content types count prompt. subst prompt.
  split; [reflexivity|].
  split; [apply Z.le_min_r|].
  split; [reflexivity|].
  unfold Gateway.generateQuestions.
  split; [|split].
  - intros fields items -> Hq. simpl. now rewrite Hq.
  - intros fields -> Hq. simpl. now rewrite Hq.
  - intros message ->. reflexivity.
Qed.


Lemma or_default_truthy (v : option Groq.json) (d : Groq.json) :
  Groq.truthy d = true -> Groq.truthy (Groq.or_default v d) = true.
Proof. intros H. now destruct (or_default_filled v d H). Qed.

Lemma truthy_JStr (s : string) :
  s <> "" -> Groq.truthy (Groq.JStr s) = true.
Proof.
  intros H. simpl. unfold truthy_string.
  now apply negb_true_iff, String.eqb_neq.
Qed.

Lemma normalizeTask_ok (today : string) (t : Groq.json) :
  today <> "" ->
  t <> Groq.JNull ->
  exists task,
    Gateway.normalizeTask today t = Groq.Returned task
    /\ Groq.truthy (Gateway.topic task) = true
    /\ Groq.truthy (Gateway.subject task) = true
    /\ Groq.truthy (Gateway.duration task) = true
    /\ Groq.truthy (Gateway.priority task) = true
    /\ Groq.truthy (Gateway.date task) = true
    /\ Groq.member t "timeSlot" = Groq.Returned (Gateway.timeSlot task)
    /\ (Groq.member t "date" = Groq.Returned None ->
        Gateway.date task = Groq.JStr today).
Proof.
  intros Htoday Hnull. unfold Gateway.normalizeTask.
  destruct (member_not_null t "topic" Hnull) as [v1 ->].
  destruct (member_not_null t "subject" Hnull) as [v2 ->].
  destruct (member_not_null t "duration" Hnull) as [v3 ->].
  destruct (member_not_null t "priority" Hnull) as [v4 ->].
  destruct (member_not_null t "date" Hnull) as [v5 ->].
  destruct (member_not_null t "timeSlot" Hnull) as [v6 ->].
  cbn [Groq.bind]. eexists. split; [reflexivity|].
  cbn [Gateway.topic Gateway.subject Gateway.duration Gateway.priority
       Gateway.date Gateway.timeSlot].
  repeat split; try (apply or_default_truthy; reflexivity).
  - apply or_default_truthy. now apply truthy_JStr.
  - now intros [= ->].
Qed.

Lemma normalizeTasks_ok (today : string) (items : list Groq.json) :
  today <> "" ->
  Forall (fun t => t <> Groq.JNull) items ->
  exists tasks,
    Gateway.normalizeTasks today items = Groq.Returned tasks
    /\ List.length tasks = List.length items
    /\ Forall
         (fun task =>
            Groq.truthy (Gateway.topic task) = true
            /\ Groq.truthy (Gateway.subject task) = true
            /\ Groq.truthy (Gateway.duration task) = true
            /\ Groq.truthy (Gateway.priority task) = true
            /\ Groq.truthy (Gateway.date task) = true)
         tasks.
Proof.
  intros Htoday Hitems.
  induction Hitems as [|t items Ht _ IH]; simpl.
  - exists []. repeat split. constructor.
  - destruct (normalizeTask_ok today t Htoday Ht)
      as (task & -> & H1 & H2 & H3 & H4 & H5 & _).
    destruct IH as (tasks & -> & Hlen & Hall).
    cbn [Groq.bind]. exists (task :: tasks).
    split; [reflexivity|]. split; [simpl; now rewrite Hlen|].
    constructor; [repeat split; assumption | exact Hall].
Qed.

Lemma isoDate_not_empty (t : Z) : JsDate.isoDate t <> "".
Proof.
  assert (Happ : forall a b : string, b <> "" -> (a ++ b)%string <> "").
  { intros a b Hb H. destruct a; cbn in H; [now apply Hb | discriminate]. }
  unfold JsDate.isoDate.
  destruct (JsDate.civil (t / JsDate.msPerDay)) as [[y m] d].
  apply Happ. cbn. discriminate.
Qed.

(** In UTC, [setDate(getDate() + 7)] is the same time of day seven days
    later. *)
Lemma utc_setDate_seven (t : Z) :
  JsDate.setDate JsDate.utc t (JsDate.getDate JsDate.utc t + 7)
  = if JsDate.valid (t + 7 * JsDate.msPerDay)
    then Some (t + 7 * JsDate.msPerDay)
    else None.
Proof.
  cbn [JsDate.setDate JsDate.getDate JsDate.utc].
  now replace (t + (snd (JsDate.civil (t / JsDate.msPerDay)) + 7
                    - snd (JsDate.civil (t / JsDate.msPerDay)))
                   * JsDate.msPerDay)
    with (t + 7 * JsDate.msPerDay) by lia.
Qed.

Lemma ensured_object (fields : list (string * Groq.json)) (key : string)
    (fallback : string) :
  fallback <> "" ->
  exists v,
    Gateway.ensured (Groq.JObj fields) key (Groq.Returned fallback)
    = Groq.Returned v
    /\ Groq.truthy v = true
    /\ (Groq.lookup key fields = None -> v = Groq.JStr fallback)
    /\ (forall j,
           Groq.lookup key fields = Some j -> Groq.truthy j = true -> v = j).
Proof.
  intros Hne. unfold Gateway.ensured.
  destruct (Groq.lookup key fields) as [j|].
  - destruct (Groq.truthy j) eqn:E.
    + exists j. repeat split; [exact E | discriminate | now intros ? [= ->]].
    + exists (Groq.JStr fallback). cbn [Groq.bind].
      repeat split; [now apply truthy_JStr | congruence].
  - exists (Groq.JStr fallback). cbn [Groq.bind].
    repeat split; [now apply truthy_JStr | discriminate].
Qed.

(** X13: when the reply to [generateStudyPlan] is a JSON object whose
    [tasks] are missing, falsy or a list without null elements, and the
    date seven days after today is a valid one, the function returns a plan
    with as many tasks as the reply has, in which the title, the
    description, both dates and the topic, subject, duration, priority and
    date of every task are populated; a start date and an end date the
    reply gives are kept, a missing start date is the day of the call and a
    missing end date is the day [setDate(getDate() + 7)] leads to, which in
    UTC is the day seven days after the call.  Every failure is thrown as
    "Failed to generate study plan". *)
Theorem X13_generateStudyPlan_fills_the_plan :
  forall (zone : JsDate.Zone) (client : Gateway.PlanClient) (prompt : string)
         (subjects : list string) (today later : Z)
         (fields : list (string * Groq.json)) (items : list Groq.json),
    JsDate.setDate zone today (JsDate.getDate zone today + 7) = Some later ->
    client (Gateway.planPrompt prompt subjects (JsDate.isoDate today))
    = Groq.Parsed (Groq.JObj fields) ->
    Groq.or_default (Groq.lookup "tasks" fields) (Groq.JArr [])
    = Groq.JArr items ->
    Forall (fun t => t <> Groq.JNull) items ->
    (exists plan,
        Gateway.generateStudyPlan zone client prompt subjects today
        = Groq.Returned plan
        /\ Groq.truthy (Gateway.title plan) = true
        /\ Groq.truthy (Gateway.description plan) = true
        /\ Groq.truthy (Gateway.startDate plan) = true
        /\ Groq.truthy (Gateway.endDate plan) = true
        /\ (Groq.lookup "startDate" fields = None ->
            Gateway.startDate plan = Groq.JStr (JsDate.isoDate today))
        /\ (Groq.lookup "endDate" fields = None ->
            Gateway.endDate plan = Groq.JStr (JsDate.isoDate later))
        /\ (forall j,
               Groq.lookup "startDate" fields = Some j ->
               Groq.truthy j = true -> Gateway.startDate plan = j)
        /\ (forall j,
               Groq.lookup "endDate" fields = Some j ->
               Groq.truthy j = true -> Gateway.endDate plan = j)
        /\ List.length (Gateway.tasks plan) = List.length items
        /\ Forall
             (fun task =>
                Groq.truthy (Gateway.topic task) = true
                /\ Groq.truthy (Gateway.subject task) = true
                /\ Groq.truthy (Gateway.duration task) = true
                /\ Groq.truthy (Gateway.priority task) = true
                /\ Groq.truthy (Gateway.date task) = true)
             (Gateway.tasks plan))
    /\ (zone = JsDate.utc -> later = today + 7 * 86400000)
    /\ (forall (other : Gateway.PlanClient) message,
           Gateway.generateStudyPlan zone other prompt subjects today
           = Groq.Thrown message ->
           message = "Failed to generate study plan").
Proof.
  intros zone client prompt subjects today later fields items
    Hlater Hreply Htasks Hitems.
  split; [|split].
  - destruct (normalizeTasks_ok (JsDate.isoDate today) items
                (isoDate_not_empty today) Hitems)
      as (tasks & Hnorm & Hlen & Hall).
    destruct (ensured_object fields "startDate" (JsDate.isoDate today)
                (isoDate_not_empty today))
      as (start & Hstart & Hst & Hsn & Hss).
    destruct (ensured_object fields "endDate" (JsDate.isoDate later)
                (isoDate_not_empty later))
      as (stop & Hstop & Het & Hen & Hes).
    unfold Gateway.generateStudyPlan, Gateway.inSevenDays. cbv zeta.
    rewrite Hreply, Hlater. cbn [Groq.bind].
    rewrite Hstart. cbn [Groq.bind]. rewrite Hstop.
    cbn [Groq.bind Groq.member].
    unfold Gateway.mappedTasks. rewrite Htasks, Hnorm.
    cbn [Groq.bind]. eexists. split; [reflexivity|].
    cbn [Gateway.title Gateway.description Gateway.startDate Gateway.endDate
         Gateway.tasks].
    split; [apply or_default_truthy; reflexivity|].
    split; [apply or_default_truthy; reflexivity|].
    split; [exact Hst|]. split; [exact Het|].
    split; [exact Hsn|]. split; [exact Hen|].
    split; [exact Hss|]. split; [exact Hes|].
    split; [exact Hlen | exact Hall].
  - intros ->. rewrite utc_setDate_seven in Hlater.
    destruct (JsDate.valid (today + 7 * JsDate.msPerDay)); [|discriminate].
    injection Hlater as <-. reflexivity.
  - intros other message. unfold Gateway.generateStudyPlan.
    destruct (Groq.bind _ _); [discriminate|]. now intros [= <-].
Qed.

(** A reply without dates, on 2025-01-10 at ten in the morning, in UTC: the
    plan runs from that day to 2025-01-17. *)
Lemma X13_witness :
  exists plan,
    Gateway.generateStudyPlan JsDate.utc Sample.planClient
      "Plan my exam week" [] 1736503200000 = Groq.Returned plan
    /\ Gateway.startDate plan = Groq.JStr "2025-01-10"
    /\ Gateway.endDate plan = Groq.JStr "2025-01-17"
    /\ List.length (Gateway.tasks plan) = 2%nat.
Proof.
  destruct (X13_generateStudyPlan_fills_the_plan JsDate.utc Sample.planClient
              "Plan my exam week" [] 1736503200000 1737108000000 _ _
              eq_refl eq_refl eq_refl)
    as [(plan & Hplan & _ & _ & _ & _ & Hstart & Hend & _ & _ & Hlen & _) _].
  - repeat constructor; discriminate.
  - exists plan. split; [exact Hplan|].
    split; [now apply Hstart|]. split; [now apply Hend | exact Hlen].
Defined.

(** The second task of a new plan is marked as completed. *)
Lemma X8_witness :
  exists plan',
    snd (MemStorage.updateStudyPlanTask
           (fst (MemStorage.createStudyPlan MemStorage.empty "p9"
                   Sample.taskUuid 5000 Sample.insertPlan))
           "p9" "u1" Sample.markDone) = Some plan'
    /\ map StudyTask.completed (StudyPlan.tasks plan') = [false; true].
Proof.
  destruct (X8_created_plan_updates_one_task MemStorage.empty "p9"
              Sample.taskUuid 5000 Sample.insertPlan Sample.markDone 1%nat)
    as (_ & _ & plan' & Hret & _ & Hlen & Htasks).
  - simpl. intros [|[|j]] [|[|k]] Hj Hk H; try reflexivity;
      try discriminate; lia.
  - simpl. lia.
  - exists plan'. split; [exact Hret|].
    pose proof (Htasks 0%nat _ eq_refl) as H0.
    pose proof (Htasks 1%nat _ eq_refl) as H1.
    simpl in Hlen, H0, H1.
    destruct (StudyPlan.tasks plan') as [|a [|b [|c rest]]];
      try discriminate.
    simpl in H0, H1. injection H0 as ->. injection H1 as ->. reflexivity.
Defined.

(** ** Notes: insertion and lookup *)

Lemma In_values_set (V : Type) (k : string) (v : V) (m : JsMap.t V) :
  In v (JsMap.values (JsMap.set k v m)).
Proof.
  unfold JsMap.values.
  apply (in_map snd _ (k, v)). apply get_In. apply get_set_same.
Qed.

(** X14: in [MemStorage], a note just created is found under its identifier,
    carries the subject it was created for, and is in the list of all notes
    and in the list of the notes of that subject; the notes under other
    identifiers are found as before; deleting it returns [true] and it is
    found no more. *)
Theorem X14_createNote_then_lookup :
  forall (st : MemStorage.t) (uuid : string) (now : Z) (data : InsertNote.t),
    let created := MemStorage.createNote st uuid now data in
    MemStorage.getNote (fst created) uuid = Some (snd created)
    /\ Note.id (snd created) = uuid
    /\ Note.subjectId (snd created) = InsertNote.subjectId data
    /\ Note.createdAt (snd created) = now
    /\ In (snd created) (MemStorage.getNotes (fst created) None)
    /\ In (snd created)
         (MemStorage.getNotes (fst created)
            (Some (InsertNote.subjectId data)))
    /\ (forall id,
           id <> uuid ->
           MemStorage.getNote (fst created) id = MemStorage.getNote st id)
    /\ snd (MemStorage.deleteNote (fst created) uuid) = true
    /\ MemStorage.getNote (fst (MemStorage.deleteNote (fst created) uuid))
         uuid = None.
Proof.
  intros st uuid now data created. subst created.
  destruct (createNote_shape st uuid now data)
    as (f & note & _ & _ & _ & Heq).
  assert (Hnote : note = snd (MemStorage.createNote st uuid now data))
    by now rewrite Heq.
  rewrite Heq. cbn [fst snd].
  unfold MemStorage.getNote, MemStorage.getNotes.
  cbn [MemStorage.notes].
  split; [apply get_set_same|].
  split; [now rewrite Hnote|].
  split; [now rewrite Hnote|].
  split; [now rewrite Hnote|].
  split; [apply In_values_set|].
  split.
  { destruct (truthy_string (InsertNote.subjectId data));
      [|apply In_values_set].
    apply filter_In. split; [apply In_values_set|].
    rewrite Hnote. cbn. apply String.eqb_refl. }
  split; [intros id Hid; apply get_set_other; congruence|].
  unfold MemStorage.deleteNote, JsMap.has.
  cbn [MemStorage.notes]. rewrite get_set_same.
  destruct (JsMap.get (Note.subjectId note) _);
    cbn [fst snd MemStorage.set_notes MemStorage.set_subjects
         MemStorage.notes];
    rewrite get_set_same; split; try reflexivity; apply get_delete_same.
Qed.

(** ** Reviewing a flashcard several times *)

(** X15: in [MemStorage], after any number of updates of a stored
    flashcard, whatever their bodies, its [timesReviewed] is the stored
    value plus the number of updates. *)
Theorem X15_timesReviewed_counts_the_updates :
  forall (updates : list (PartialFlashcard.t * Z)) (st : MemStorage.t)
         (id : string) (card : Flashcard.t),
    MemStorage.getFlashcard st id = Some card ->
    exists card',
      MemStorage.getFlashcard
        (fold_left
           (fun acc u =>
              fst (MemStorage.updateFlashcard acc id (fst u) (snd u)))
           updates st) id = Some card'
      /\ toNumber (Flashcard.timesReviewed card')
         = toNumber (Flashcard.timesReviewed card)
           + Z.of_nat (List.length updates).
Proof.
  induction updates as [|[data now] updates IH]; intros st id card Hget.
  - exists card. split; [exact Hget | simpl; lia].
  - cbn [fold_left fst snd].
    destruct (mem_updateFlashcard_increments st id data now card Hget)
      as (c1 & _ & Hget1 & Hc1).
    destruct (IH _ id c1 Hget1) as (c2 & Hget2 & Hc2).
    exists c2. split; [exact Hget2|].
    rewrite Hc2, Hc1. cbn [toNumber List.length]. lia.
Qed.

(** The flashcard reviewed 5 times is marked three more times. *)
Lemma X15_witness :
  exists card',
    MemStorage.getFlashcard
      (fold_left
         (fun acc u =>
            fst (MemStorage.updateFlashcard acc "f1" (fst u) (snd u)))
         [(Sample.markEasy, 1000); (Sample.markEasy, 2000);
          (Sample.markEasy, 3000)]
         Sample.memWithCard) "f1" = Some card'
    /\ toNumber (Flashcard.timesReviewed card') = 8.
Proof.
  destruct (X15_timesReviewed_counts_the_updates
              [(Sample.markEasy, 1000); (Sample.markEasy, 2000);
               (Sample.markEasy, 3000)]
              Sample.memWithCard "f1" Sample.card5 eq_refl)
    as (card' & Hget & Hcount).
  exists card'. split; [exact Hget | exact Hcount].
Defined.

(** ** The dashboard of the relational implementation *)

(** X16: for a consistent collation [localeCompare], the dashboard of
    [DatabaseStorage] shows as [upcomingTasks] at most 5 tasks of stored
    plans, none completed and none dated before today, in ascending order of
    date, and as [recentSummaries] the five newest summaries, the newest
    first; the totals are the numbers of rows and the streak is 0. *)
Theorem X16_database_dashboard :
  forall (localeCompare : string -> string -> Z),
    (forall a b, localeCompare a b <= 0 \/ localeCompare b a <= 0) ->
    (forall a b c,
        localeCompare a b <= 0 -> localeCompare b c <= 0 ->
        localeCompare a c <= 0) ->
    forall (today : string) (db : DatabaseStorage.t),
      let stats := DatabaseStorage.getDashboardStats localeCompare today db in
      let upcoming := DashboardStats.upcomingTasks stats in
      let recent := DashboardStats.recentSummaries stats in
      (forall t,
          In t upcoming ->
          (exists plan,
              In plan (DatabaseStorage.studyPlans db)
              /\ In t (StudyPlan.tasks plan))
          /\ StudyTask.completed t = false
          /\ (StudyTask.date t <? today)%string = false)
      /\ StronglySorted
           (fun a b =>
              localeCompare (StudyTask.date a) (StudyTask.date b) <= 0)
           upcoming
      /\ (List.length upcoming <= 5)%nat
      /\ (exists older,
             Permutation (DatabaseStorage.summaries db) (recent ++ older)
             /\ (forall r o,
                    In r recent -> In o older ->
                    Summary.createdAt o <= Summary.createdAt r))
      /\ StronglySorted
           (fun a b => Summary.createdAt b <= Summary.createdAt a) recent
      /\ (List.length recent <= 5)%nat
      /\ DashboardStats.studyStreak stats = 0
      /\ DashboardStats.totalNotes stats
         = Z.of_nat (List.length (DatabaseStorage.notes db)).
Proof.
  intros localeCompare Htotal Htrans today db stats upcoming recent.
  subst upcoming recent stats. unfold DatabaseStorage.getDashboardStats.
  cbn [DashboardStats.upcomingTasks DashboardStats.recentSummaries
       DashboardStats.studyStreak DashboardStats.totalNotes].
  unfold slice0.
  set (sorted :=
    array_sort (fun a b => Summary.createdAt b - Summary.createdAt a)
      (DatabaseStorage.summaries db)).
  assert (Hsorted :
    StronglySorted (fun a b => Summary.createdAt b <= Summary.createdAt a)
      sorted) by apply newest_first_sorted.
  split.
  { intros t Ht.
    apply firstn_In, array_sort_In, collectUpcoming_In in Ht.
    destruct Ht as (Hplan & Hc & Hd).
    split; [exact Hplan|]. split; [exact Hc|].
    unfold string_ge in Hd. now apply negb_true_iff in Hd. }
  split.
  { apply firstn_sorted.
    apply (array_sort_sorted StudyTask.t
             (fun a b =>
                localeCompare (StudyTask.date a) (StudyTask.date b))).
    - intros a b. apply Htotal.
    - intros a b c. apply Htrans. }
  split; [apply firstn_le_length|].
  split.
  { exists (skipn 5 sorted). rewrite firstn_skipn.
    split; [apply array_sort_perm|].
    intros r o Hr Ho.
    apply (sorted_app_cross Summary.t
             (fun a b => Summary.createdAt b <= Summary.createdAt a)
             (firstn 5 sorted) (skipn 5 sorted));
      [now rewrite firstn_skipn | exact Hr | exact Ho]. }
  split; [now apply firstn_sorted|].
  split; [apply firstn_le_length|].
  split; reflexivity.
Qed.

(** The plans "pa" and "pb" in the table, with the code-unit collation. *)
Lemma X16_witness :
  map StudyTask.date
    (DashboardStats.upcomingTasks
       (DatabaseStorage.getDashboardStats codeUnitCompare "2025-01-10"
          (DatabaseStorage.mk [] [] [] [] [] [Sample.planA; Sample.planB])))
  = ["2025-01-10"; "2025-01-11"; "2025-01-13"; "2025-01-14"; "2025-01-15"]
  /\ (List.length
        (DashboardStats.upcomingTasks
           (DatabaseStorage.getDashboardStats codeUnitCompare "2025-01-10"
              (DatabaseStorage.mk [] [] [] [] []
                 [Sample.planA; Sample.planB]))) <= 5)%nat.
Proof.
  split; [reflexivity|].
  apply (X16_database_dashboard codeUnitCompare codeUnitCompare_total
           codeUnitCompare_trans "2025-01-10"
           (DatabaseStorage.mk [] [] [] [] [] [Sample.planA; Sample.planB])).
Defined.
